(** * Virtio audio back end / front end for the SKL DSP: a shallow embedding

    The definitions below follow
      sound/soc/intel/skylake/virtio/skl-virtio-be.c   (back end, "vbe")
      sound/soc/intel/skylake/virtio/skl-virtio-fe.c   (front end, "vfe")
    function by function.  Kernel lists are Rocq lists in list order
    (list_add pushes at the head, list_add_tail appends), pointers into
    guest memory are addresses of type Z, C integers are Z with their
    wrap-around written out, and calls into ALSA, the DSP or the virtqueue
    primitives show up as events of a trace or as values handed in by the
    caller. *)

From Stdlib Require Import ZArith Lia Bool.
From stdpp Require Import base option list strings gmap.

Local Open Scope Z_scope.

(** ** Machine integers and errno values *)

Definition wrap (bits x : Z) : Z := x mod 2 ^ bits.

(** Conversion of an unsigned word to a C [int] (two's complement). *)
Definition to_int (x : Z) : Z :=
  let y := x mod 2 ^ 32 in if y <? 2 ^ 31 then y else y - 2 ^ 32.

Module Errno.
Definition EIO : Z := 5.
Definition EBADF : Z := 9.
Definition ENOMEM : Z := 12.
Definition EACCES : Z := 13.
Definition EBUSY : Z := 16.
Definition ENODEV : Z := 19.
Definition EINVAL : Z := 22.
Definition EPIPE : Z := 32.
Definition ETIMEDOUT : Z := 110.
End Errno.
Import Errno.

(** ** The virtqueues of the device (enum of skl-virtio-common.h) *)

Inductive vq_index :=
| SKL_VIRTIO_IPC_CMD_TX_VQ
| SKL_VIRTIO_IPC_CMD_RX_VQ
| SKL_VIRTIO_IPC_NOT_TX_VQ
| SKL_VIRTIO_IPC_NOT_RX_VQ.

(** ** Position descriptor shared between back end and front end *)

Record vfe_stream_pos_desc := mk_pos_desc {
  hw_ptr : Z;
  be_irq_cnt : Z;
  fe_irq_cnt : Z
}.

Definition set_hw_ptr (v : Z) (d : vfe_stream_pos_desc) :=
  {| hw_ptr := v; be_irq_cnt := be_irq_cnt d; fe_irq_cnt := fe_irq_cnt d |}.
Definition set_be_irq_cnt (v : Z) (d : vfe_stream_pos_desc) :=
  {| hw_ptr := hw_ptr d; be_irq_cnt := v; fe_irq_cnt := fe_irq_cnt d |}.
Definition set_fe_irq_cnt (v : Z) (d : vfe_stream_pos_desc) :=
  {| hw_ptr := hw_ptr d; be_irq_cnt := be_irq_cnt d; fe_irq_cnt := v |}.

(** Shared memory: the descriptor found at each mapped address. *)
Definition shmem := Z -> vfe_stream_pos_desc.

Definition shm_update (a : Z) (f : vfe_stream_pos_desc -> vfe_stream_pos_desc)
    (m : shmem) : shmem :=
  fun x => if Z.eqb x a then f (m x) else m x.

(** ** Back-end data (skl-virtio-be.h, ALSA and topology structures) *)

Definition PAGE_SIZE : Z := 4096.

(** A PCM substream is addressed by the id of its PCM and its direction,
    the way every lookup of the driver finds it. *)
Definition stream_key : Type := string * Z.

Record snd_pcm_substream := mk_substream {
  ref_count : Z;
  runtime_allocated : bool;        (* substream->runtime is not NULL *)
  sg_table : option (list Z)       (* addresses of the DMA scatter table *)
}.

Record vbe_substream_info := mk_vbe_info {
  info_pcm_id : string;            (* info->pcm->id *)
  info_direction : Z;              (* info->direction *)
  info_pos_desc : option Z;        (* info->pos_desc, None for NULL *)
  info_native_dma_addr : Z         (* info->native_dma_addr *)
}.

Record firmware := mk_firmware { fw_data : list Z }.
Definition fw_size (fw : firmware) : Z := Z.of_nat (length (fw_data fw)).

Record snd_skl_vbe_client := mk_client {
  substr_info_list : list vbe_substream_info;
  tplg : option firmware
}.

(** One entry of card->rtd_list: the PCM id and, per direction, the domain
    id of the copier module skl_tplg_fe_get_cpr_module finds through
    rtd->cpu_dai (None when cpu_dai is NULL or no module is found). *)
Record snd_soc_pcm_runtime := mk_rtd {
  rtd_pcm_id : string;
  rtd_cpr_domain : Z -> option Z
}.

Record skl_tplg_domain := mk_tplg_domain {
  domain_name : string;
  tplg_domain_id : Z;
  tplg_name : string
}.

Record skl_lib_info := mk_lib { lib_name : string; lib_fw : option firmware }.

(** struct skl as far as the back end reads it. *)
Record skl := mk_skl {
  has_card : bool;                         (* skl->component->card present *)
  rtd_list : list snd_soc_pcm_runtime;
  tplg_domains : list skl_tplg_domain;
  dsp_fw : option firmware;                (* skl_sst->dsp->fw *)
  lib_info : list skl_lib_info             (* index 0 is the base firmware *)
}.

(** Notifications pushed to the front end (union inbox_msg). *)
Record vfe_pending_msg := mk_pending {
  pm_kcontrol_id : string;
  pm_value : list Z;
  sizeof_msg : Z
}.

(** A descriptor chain the peer made available on a queue: what
    virtio_vq_getchain returns for it and the length of its buffer. *)
Record vq_chain := mk_chain { chain_ret : Z; iov_len : Z }.

Inductive vfe_resource_type :=
| VFE_TOPOLOGY_RES | VFE_FIRMWARE_RES | VFE_LIBRARY_RES | VFE_UNKNOWN_RES (code : Z).

Inductive be_event :=
| EvPointer (key : stream_key) (pos : Z)      (* rtd->ops.pointer(substream) *)
| EvStoreHwPtr (addr v : Z)                   (* pos_desc->hw_ptr = v *)
| EvStoreBeIrqCnt (addr v : Z)                (* pos_desc->be_irq_cnt++ *)
| EvWmb
| EvVqInterrupt (vq : vq_index)
| EvHdaIrqAck
| EvOpsOpen (key : stream_key)
| EvOpsClose (key : stream_key)
| EvOpsPrepare (key : stream_key)
| EvOpsHwParams (key : stream_key) (params : list Z)
| EvOpsTrigger (key : stream_key) (cmd : Z)
| EvUnmapGuest (addr : Z)
| EvDelivered (vq : vq_index) (m : vfe_pending_msg)  (* memcpy + relchain *)
| EvRelChain (vq : vq_index) (len : Z)               (* virtio_vq_relchain alone *)
| EvDevErr (what : string).

Record vbe_state := mk_vbe {
  shm : shmem;
  client_list : list snd_skl_vbe_client;
  substreams : gmap stream_key snd_pcm_substream;
  pending_msg_list : list vfe_pending_msg;
  vq_avail : vq_index -> list vq_chain;
  guest_mem : Z -> Z;
  trace : list be_event
}.

(** ** A state monad with faults

    [None] stands for a run that does not return: a fault of the kernel
    (a NULL or out-of-bounds dereference) or a wait that never ends; every
    other run returns a value and the next state. *)

Definition St (S A : Type) : Type := S -> option (A * S).

Definition ret {S A} (a : A) : St S A := fun s => Some (a, s).
Definition bind {S A B} (c : St S A) (k : A -> St S B) : St S B :=
  fun s => match c s with
           | Some (a, s') => k a s'
           | None => None
           end.
Definition fault {S A} : St S A := fun _ => None.
Definition get {S} : St S S := fun s => Some (s, s).

Notation "x <- c ;; k" := (bind c (fun x => k))
  (at level 100, c at next level, right associativity).
Notation "c ;; k" := (bind c (fun _ => k))
  (at level 100, right associativity).

Definition M (A : Type) : Type := St vbe_state A.

Definition emit (e : be_event) : M unit :=
  fun s => Some (tt, mk_vbe (shm s) (client_list s) (substreams s)
                       (pending_msg_list s) (vq_avail s) (guest_mem s)
                       (trace s ++ [e])).
Definition set_shm (m : shmem) : M unit :=
  fun s => Some (tt, mk_vbe m (client_list s) (substreams s)
                       (pending_msg_list s) (vq_avail s) (guest_mem s) (trace s)).
Definition set_client_list (l : list snd_skl_vbe_client) : M unit :=
  fun s => Some (tt, mk_vbe (shm s) l (substreams s)
                       (pending_msg_list s) (vq_avail s) (guest_mem s) (trace s)).
Definition set_substreams (m : gmap stream_key snd_pcm_substream) : M unit :=
  fun s => Some (tt, mk_vbe (shm s) (client_list s) m
                       (pending_msg_list s) (vq_avail s) (guest_mem s) (trace s)).
Definition set_pending_msg_list (l : list vfe_pending_msg) : M unit :=
  fun s => Some (tt, mk_vbe (shm s) (client_list s) (substreams s)
                       l (vq_avail s) (guest_mem s) (trace s)).
Definition set_vq_avail (f : vq_index -> list vq_chain) : M unit :=
  fun s => Some (tt, mk_vbe (shm s) (client_list s) (substreams s)
                       (pending_msg_list s) f (guest_mem s) (trace s)).
Definition set_guest_mem (g : Z -> Z) : M unit :=
  fun s => Some (tt, mk_vbe (shm s) (client_list s) (substreams s)
                       (pending_msg_list s) (vq_avail s) g (trace s)).

(** ** Lookups of the session registry *)

(** strncmp over the whole id array of two NUL-terminated ids. *)
Definition pcm_id_eqb (a b : string) : bool := String.eqb a b.

Fixpoint vbe_find_substream_info_by_pcm (l : list vbe_substream_info)
    (pcm_id : string) (direction : Z) : option vbe_substream_info :=
  match l with
  | [] => None
  | info :: rest =>
      if Z.eqb (info_direction info) direction && pcm_id_eqb (info_pcm_id info) pcm_id
      then Some info
      else vbe_find_substream_info_by_pcm rest pcm_id direction
  end.

Fixpoint vbe_find_substream_info (clients : list snd_skl_vbe_client)
    (substr : stream_key) : option vbe_substream_info :=
  match clients with
  | [] => None
  | client :: rest =>
      match vbe_find_substream_info_by_pcm (substr_info_list client)
              (fst substr) (snd substr) with
      | Some info => Some info
      | None => vbe_find_substream_info rest substr
      end
  end.

(** ** Position update of the back end (skl_notify_stream_update) *)

Section PositionUpdate.
(** Width of the counters of struct vfe_stream_pos_desc; the structure is
    declared in skl-virtio-common.h, fields of an unsigned fixed-width
    type. *)
Variable cnt_bits : Z.

(** [pos] is what rtd->ops.pointer(substream) returns at this interrupt. *)
Definition skl_notify_stream_update (substream : stream_key) (pos : Z) : M unit :=
  s <- get ;;
  match vbe_find_substream_info (client_list s) substream with
  | None => ret tt
  | Some substr_info =>
      match info_pos_desc substr_info with
      | None => ret tt
      | Some pos_desc =>
          emit (EvPointer substream pos) ;;
          s1 <- get ;;
          set_shm (shm_update pos_desc (set_hw_ptr (wrap cnt_bits pos)) (shm s1)) ;;
          emit (EvStoreHwPtr pos_desc (wrap cnt_bits pos)) ;;
          s2 <- get ;;
          let cnt := wrap cnt_bits (be_irq_cnt (shm s2 pos_desc) + 1) in
          set_shm (shm_update pos_desc (set_be_irq_cnt cnt) (shm s2)) ;;
          emit (EvStoreBeIrqCnt pos_desc cnt) ;;
          emit EvWmb ;;
          emit (EvVqInterrupt SKL_VIRTIO_IPC_CMD_RX_VQ)
      end
  end.

(** vbe_stream_update: the interrupt hook installed by vbe_skl_bind. *)
Definition vbe_stream_update (hstr_substream : option stream_key) (pos : Z) : M unit :=
  match hstr_substream with
  | Some substream => skl_notify_stream_update substream pos
  | None => ret tt
  end ;;
  emit EvHdaIrqAck.

(** A run of interrupts, one (stream, hardware position) per interrupt. *)
Fixpoint vbe_stream_updates (irqs : list (option stream_key * Z)) : M unit :=
  match irqs with
  | [] => ret tt
  | (hs, pos) :: rest => vbe_stream_update hs pos ;; vbe_stream_updates rest
  end.
End PositionUpdate.

(** What a reader of the shared descriptor can see while a trace of
    back-end effects unfolds.  The stores of the driver are plain stores:
    until the next store barrier those already issued may have reached the
    reader or not, each on its own, so the reader sees the memory as of
    the last barrier with any selection of the stores issued since
    (applied in program order).  The barrier makes every earlier store
    visible before any later one. *)
Definition apply_event (e : be_event) (m : shmem) : shmem :=
  match e with
  | EvStoreHwPtr a v => shm_update a (set_hw_ptr v) m
  | EvStoreBeIrqCnt a v => shm_update a (set_be_irq_cnt v) m
  | _ => m
  end.

Definition is_store (e : be_event) : bool :=
  match e with
  | EvStoreHwPtr _ _ | EvStoreBeIrqCnt _ _ => true
  | _ => false
  end.

Definition apply_events (evs : list be_event) (m : shmem) : shmem :=
  fold_left (fun m e => apply_event e m) evs m.

Fixpoint selections {A} (l : list A) : list (list A) :=
  match l with
  | [] => [[]]
  | x :: rest => map (cons x) (selections rest) ++ selections rest
  end.

(** The memories a reader can see with [pending] issued since the last
    barrier. *)
Definition views (m : shmem) (pending : list be_event) : list shmem :=
  map (fun sel => apply_events sel m) (selections pending).

Fixpoint observable_from (m : shmem) (pending evs : list be_event) : list shmem :=
  match evs with
  | [] => views m pending
  | e :: rest =>
      views m pending
      ++ match e with
         | EvWmb => observable_from (apply_events pending m) [] rest
         | _ =>
             if is_store e then observable_from m (pending ++ [e]) rest
             else observable_from m pending rest
         end
  end.

Definition observable (m : shmem) (evs : list be_event) : list shmem :=
  observable_from m [] evs.

(** The memories a reader can see from the first interrupt of the front
    end on. *)
Fixpoint observable_when_signalled (m : shmem) (pending evs : list be_event)
    : list shmem :=
  match evs with
  | [] => []
  | e :: rest =>
      match e with
      | EvVqInterrupt _ => observable_from m pending rest
      | EvWmb => observable_when_signalled (apply_events pending m) [] rest
      | _ =>
          if is_store e then observable_when_signalled m (pending ++ [e]) rest
          else observable_when_signalled m pending rest
      end
  end.

(** The reading of "a new hw_ptr is never observable before its counter
    increment": in every memory a reader can see during the update of the
    descriptor at [a], a changed hw_ptr comes with a changed be_irq_cnt. *)
Definition hw_ptr_never_before_counter (a : Z) (m0 : shmem) (evs : list be_event) : Prop :=
  forall m, In m (observable m0 evs) ->
    hw_ptr (m a) <> hw_ptr (m0 a) -> be_irq_cnt (m a) <> be_irq_cnt (m0 a).

(** The opposite order: once the incremented counter can be seen, the
    hw_ptr of that update is in place. *)
Definition counter_never_before_hw_ptr (a : Z) (m0 : shmem) (evs : list be_event)
    (new_hw_ptr : Z) : Prop :=
  forall m, In m (observable m0 evs) ->
    be_irq_cnt (m a) <> be_irq_cnt (m0 a) -> hw_ptr (m a) = new_hw_ptr.

(** What the barrier does provide: a front end that has been signalled
    finds both values of the update. *)
Definition settled_when_signalled (a : Z) (m0 : shmem) (evs : list be_event)
    (new_hw_ptr new_cnt : Z) : Prop :=
  forall m, In m (observable_when_signalled m0 [] evs) ->
    hw_ptr (m a) = new_hw_ptr /\ be_irq_cnt (m a) = new_cnt.

(** The steps of one position update, in program order. *)
Definition position_update_steps (cnt_bits : Z) (substream : stream_key)
    (a pos old_cnt : Z) : list be_event :=
  [ EvPointer substream pos;
    EvStoreHwPtr a (wrap cnt_bits pos);
    EvStoreBeIrqCnt a (wrap cnt_bits (old_cnt + 1));
    EvWmb;
    EvVqInterrupt SKL_VIRTIO_IPC_CMD_RX_VQ ].

(** The state one update leaves behind, for a stream with a descriptor. *)
Definition after_position_update (cnt_bits : Z) (s : vbe_state)
    (substream : stream_key) (a pos : Z) : vbe_state :=
  let old := be_irq_cnt (shm s a) in
  mk_vbe
    (shm_update a (set_be_irq_cnt (wrap cnt_bits (old + 1)))
       (shm_update a (set_hw_ptr (wrap cnt_bits pos)) (shm s)))
    (client_list s) (substreams s) (pending_msg_list s) (vq_avail s)
    (guest_mem s)
    (trace s ++ position_update_steps cnt_bits substream a pos old).

(** A small back end used to run the definitions: one client holding one
    prepared session for ("pcm0", 0) whose descriptor is mapped at 4096. *)
Definition pcm0_playback : stream_key := ("pcm0"%string, 0).

Definition zero_shm : shmem := fun _ => mk_pos_desc 0 0 0.

Definition vbe_one_session : vbe_state :=
  mk_vbe zero_shm
    [mk_client [mk_vbe_info "pcm0" 0 (Some 4096) 0] None]
    {[ pcm0_playback := mk_substream 1 true (Some [8192]) ]}
    [] (fun _ => []) (fun _ => 0) [].

(** ** Messages (skl-virtio-common.h) *)

(** Modelled from the spec: enum vfe_ipc_msg_type is declared in
    skl-virtio-common.h, which is not part of the sources at hand.  The
    spec gives the command code as "type bits + opcode bits" with the
    classes PCM, KCTL and CFG; [msg_class] stands for
    [cmd & VFE_MSG_TYPE_MASK], [VFE_MSG_OTHER] for any code the handlers
    have no case for. *)
Inductive vfe_msg_class := VFE_MSG_PCM | VFE_MSG_KCTL | VFE_MSG_CFG | VFE_MSG_NO_CLASS.

Inductive vfe_ipc_msg_type :=
| VFE_MSG_PCM_OPEN | VFE_MSG_PCM_CLOSE | VFE_MSG_PCM_PREPARE
| VFE_MSG_PCM_HW_PARAMS | VFE_MSG_PCM_TRIGGER
| VFE_MSG_KCTL_SET
| VFE_MSG_CFG_HDA | VFE_MSG_CFG_RES_INFO | VFE_MSG_CFG_RES_DESC | VFE_MSG_CFG_DOMAIN
| VFE_MSG_OTHER (class : vfe_msg_class) (code : Z).

Definition msg_class (cmd : vfe_ipc_msg_type) : vfe_msg_class :=
  match cmd with
  | VFE_MSG_PCM_OPEN | VFE_MSG_PCM_CLOSE | VFE_MSG_PCM_PREPARE
  | VFE_MSG_PCM_HW_PARAMS | VFE_MSG_PCM_TRIGGER => VFE_MSG_PCM
  | VFE_MSG_KCTL_SET => VFE_MSG_KCTL
  | VFE_MSG_CFG_HDA | VFE_MSG_CFG_RES_INFO | VFE_MSG_CFG_RES_DESC
  | VFE_MSG_CFG_DOMAIN => VFE_MSG_CFG
  | VFE_MSG_OTHER c _ => c
  end.

(** struct vfe_msg_header; the descriptor union is kept as the fields of
    both of its views. *)
Record vfe_msg_header := mk_header {
  cmd : vfe_ipc_msg_type;
  hdr_domain_id : Z;                (* u32 *)
  hdr_domain_name : string;
  desc_pcm_id : string;             (* desc.pcm.pcm_id *)
  desc_direction : Z;               (* desc.pcm.direction *)
  desc_kcontrol_id : string         (* desc.kcontrol.kcontrol_id *)
}.

(** The request payload as the PCM handlers read it. *)
Record tx_buffer := mk_tx {
  tx_hw_params : list Z;            (* struct vfe_pcm_hw_params *)
  tx_trigger_cmd : Z;               (* *(int * ) tx_data *)
  tx_dma_addr : Z;                  (* struct vfe_pcm_dma_conf *)
  tx_stream_pos_addr : Z;
  tx_stream_pos_size : Z
}.

(** The reply buffer as the handlers read and write it: every handler
    touches the fields of its own reply structure only. *)
Record rx_buffer := mk_rx {
  rx_ret : Z;                       (* vfe_pcm_result.ret, res_desc.ret, domain_info.ret *)
  rx_res_type : vfe_resource_type;
  rx_res_name : string;
  rx_res_size : Z;
  rx_res_phys_addr : Z;
  rx_domain_id : Z;
  rx_hda_cfg : list Z
}.

Definition set_rx_ret (v : Z) (r : rx_buffer) : rx_buffer :=
  mk_rx v (rx_res_type r) (rx_res_name r) (rx_res_size r) (rx_res_phys_addr r)
        (rx_domain_id r) (rx_hda_cfg r).
Definition set_rx_res_size (v : Z) (r : rx_buffer) : rx_buffer :=
  mk_rx (rx_ret r) (rx_res_type r) (rx_res_name r) v (rx_res_phys_addr r)
        (rx_domain_id r) (rx_hda_cfg r).
Definition set_rx_domain_id (v : Z) (r : rx_buffer) : rx_buffer :=
  mk_rx (rx_ret r) (rx_res_type r) (rx_res_name r) (rx_res_size r)
        (rx_res_phys_addr r) v (rx_hda_cfg r).
Definition set_rx_hda_cfg (v : list Z) (r : rx_buffer) : rx_buffer :=
  mk_rx (rx_ret r) (rx_res_type r) (rx_res_name r) (rx_res_size r)
        (rx_res_phys_addr r) (rx_domain_id r) v.

Record vbe_ipc_msg := mk_ipc_msg {
  header : vfe_msg_header;
  tx_data : option tx_buffer;       (* None for a NULL pointer *)
  tx_size : Z;
  rx_data : option rx_buffer;
  rx_size : Z
}.

(** if (vbe_result) vbe_result->ret = ret; *)
Definition write_result (rx : option rx_buffer) (r : Z) : option rx_buffer :=
  match rx with
  | Some b => Some (set_rx_ret r b)
  | None => None
  end.

(** ** What the back end calls into

    The stream operations of the sound card (rtd->ops), the allocator, the
    hypervisor's address translation and the sizes of the wire structures
    are not part of the driver; they are handed in. *)
Record vbe_env := mk_env {
  ops_open : stream_key -> Z;
  ops_close : stream_key -> Z;
  ops_prepare : stream_key -> Z;
  ops_hw_params : stream_key -> list Z -> Z;
  ops_trigger : stream_key -> Z -> Z;
  runtime_alloc_ok : bool;                    (* allocations of vbe_skl_allocate_runtime *)
  info_alloc_ok : bool;                       (* kzalloc of the substream info *)
  vhm_vm_gpa2hpa : Z -> Z;                    (* 0 when the translation fails *)
  map_guest_phys : Z -> Z -> option Z;        (* None for NULL *)
  request_firmware : string -> Z * option firmware;
  kctl_ipc_handle : Z -> string -> Z;         (* the kcontrol proxy, status only *)
  hda_cfg_read : list Z;                      (* PCI length, GCAP and capability offsets *)
  sizeof_vfe_msg_header : Z;
  sizeof_vfe_hda_cfg : Z;
  sizeof_vfe_resource_info : Z;
  sizeof_vfe_resource_desc : Z;
  sizeof_vfe_domain_info : Z
}.

(** ** PCM lookups and access control *)

Definition vbe_skl_is_valid_pcm_id (pcm_id : string) : Z :=
  if (String.length pcm_id =? 0)%nat || String.eqb pcm_id "((null))"
  then - EINVAL else 0.

Fixpoint find_rtd (l : list snd_soc_pcm_runtime) (pcm_name : string)
    : option snd_soc_pcm_runtime :=
  match l with
  | [] => None
  | rtd :: rest =>
      if pcm_id_eqb (rtd_pcm_id rtd) pcm_name then Some rtd else find_rtd rest pcm_name
  end.

Definition vbe_skl_find_rtd_by_pcm_id (sdev : skl) (pcm_name : string)
    : option snd_soc_pcm_runtime :=
  if vbe_skl_is_valid_pcm_id pcm_name <? 0 then None
  else if negb (has_card sdev) then None
  else find_rtd (rtd_list sdev) pcm_name.

(** Returns the PCM (named by its id) of the runtime found. *)
Definition vbe_skl_find_pcm_by_name (sdev : skl) (pcm_name : string) : option string :=
  if (String.length pcm_name =? 0)%nat then None
  else match vbe_skl_find_rtd_by_pcm_id sdev pcm_name with
       | Some rtd => Some (rtd_pcm_id rtd)
       | None => None
       end.

(** Returns the status and the value stored through [domain_id]. *)
Definition vbe_skl_pcm_get_domain_id (sdev : skl) (pcm_id : string) (direction : Z)
    : Z * option Z :=
  match vbe_skl_find_rtd_by_pcm_id sdev pcm_id with
  | None => (- ENODEV, None)
  | Some rtd =>
      match rtd_cpr_domain rtd direction with
      | Some id => (0, Some (to_int id))
      | None => (- EINVAL, None)
      end
  end.

Definition vbe_skl_pcm_check_permission (sdev : skl) (domain_id : Z)
    (pcm_id : string) (direction : Z) : Z :=
  match vbe_skl_pcm_get_domain_id sdev pcm_id direction with
  | (ret, Some pcm_domain_id) =>
      if ret <? 0 then ret
      else if negb (domain_id =? pcm_domain_id) then - EACCES
      else ret
  | (ret, None) => ret
  end.

(** ** PCM handlers of the back end *)

Definition first_client (s : vbe_state) : option snd_skl_vbe_client :=
  match client_list s with
  | [] => None
  | c :: _ => Some c
  end.

(** Apply [f] to the first session of the list that the lookup by
    (pcm id, direction) finds; [None] as result of [f] unlinks it. *)
Fixpoint update_found (l : list vbe_substream_info) (pcm_id : string) (direction : Z)
    (f : vbe_substream_info -> option vbe_substream_info) : list vbe_substream_info :=
  match l with
  | [] => []
  | info :: rest =>
      if Z.eqb (info_direction info) direction && pcm_id_eqb (info_pcm_id info) pcm_id
      then match f info with
           | Some info' => info' :: rest
           | None => rest
           end
      else info :: update_found rest pcm_id direction f
  end.

Definition update_first_client (f : snd_skl_vbe_client -> snd_skl_vbe_client) : M unit :=
  s <- get ;;
  match client_list s with
  | [] => ret tt
  | c :: rest => set_client_list (f c :: rest)
  end.

Definition get_substream (key : stream_key) : M snd_pcm_substream :=
  s <- get ;;
  match substreams s !! key with
  | Some sub => ret sub
  | None => fault
  end.

Definition put_substream (key : stream_key) (sub : snd_pcm_substream) : M unit :=
  s <- get ;;
  set_substreams (<[key := sub]> (substreams s)).

(** The scatter table after its first entry is pointed at [base]: the
    following pages continue from the page of [base]. *)
Fixpoint remap_pages (page : Z) (tail : list Z) : list Z :=
  match tail with
  | [] => []
  | _ :: rest => (page + PAGE_SIZE) :: remap_pages (page + PAGE_SIZE) rest
  end.

Definition remap_table (base : Z) (table : list Z) : option (list Z) :=
  match table with
  | [] => None
  | _ :: tail => Some (base :: remap_pages (Z.ldiff base 4095) tail)
  end.

Section BackEndHandlers.
Variable env : vbe_env.
Variable sdev : skl.

(** vbe_skl_allocate_runtime: -ENOMEM when an allocation fails, else the
    runtime is attached to the substream. *)
Definition vbe_skl_allocate_runtime (key : stream_key) : M Z :=
  if runtime_alloc_ok env then
    sub <- get_substream key ;;
    put_substream key (mk_substream (ref_count sub) true (sg_table sub)) ;;
    ret 0
  else ret (- ENOMEM).

(** vbe_skl_add_substream_info: the session goes to the head of the list
    of the first client. *)
Definition vbe_skl_add_substream_info (key : stream_key) : M Z :=
  s <- get ;;
  match first_client s with
  | None => emit (EvDevErr "Can not find active client") ;; ret (- EINVAL)
  | Some _ =>
      if info_alloc_ok env then
        update_first_client (fun c =>
          mk_client (mk_vbe_info (fst key) (snd key) None 0 :: substr_info_list c)
                    (tplg c)) ;;
        ret 0
      else ret (- ENOMEM)
  end.

Definition vbe_skl_pcm_open_body (msg : vbe_ipc_msg) : M Z :=
  let pcm_id := desc_pcm_id (header msg) in
  let direction := desc_direction (header msg) in
  match vbe_skl_find_pcm_by_name sdev pcm_id with
  | None => emit (EvDevErr "Can not find PCM") ;; ret (- ENODEV)
  | Some pcm =>
      let perm := vbe_skl_pcm_check_permission sdev
                    (to_int (hdr_domain_id (header msg))) pcm_id direction in
      if perm <? 0 then ret perm
      else
        let key := (pcm, direction) in
        substream <- get_substream key ;;
        if 0 <? ref_count substream then ret (- EBUSY)
        else
          r1 <- vbe_skl_allocate_runtime key ;;
          if r1 <? 0 then ret r1
          else
            r2 <- vbe_skl_add_substream_info key ;;
            if r2 <? 0 then ret r2
            else
              sub <- get_substream key ;;
              put_substream key
                (mk_substream (to_int (ref_count sub + 1)) (runtime_allocated sub)
                              (sg_table sub)) ;;
              emit (EvOpsOpen key) ;;
              ret (ops_open env key)
  end.

(** Every handler returns its status and the reply buffer it leaves. *)
Definition vbe_skl_pcm_open (msg : vbe_ipc_msg) : M (Z * option rx_buffer) :=
  r <- vbe_skl_pcm_open_body msg ;;
  ret (r, write_result (rx_data msg) r).

Definition vbe_skl_pcm_close (substr_info : vbe_substream_info) (msg : vbe_ipc_msg)
    : M (Z * option rx_buffer) :=
  let key := (info_pcm_id substr_info, info_direction substr_info) in
  substream <- get_substream key ;;
  match sg_table substream with
  | Some table =>
      match remap_table (info_native_dma_addr substr_info) table with
      | Some table' =>
          put_substream key
            (mk_substream (ref_count substream) (runtime_allocated substream)
                          (Some table'))
      | None => fault
      end
  | None => ret tt
  end ;;
  match info_pos_desc substr_info with
  | Some a => emit (EvUnmapGuest a)
  | None => ret tt
  end ;;
  update_first_client (fun c =>
    mk_client (update_found (substr_info_list c) (info_pcm_id substr_info)
                 (info_direction substr_info) (fun _ => None))
              (tplg c)) ;;
  sub <- get_substream key ;;
  put_substream key (mk_substream 0 (runtime_allocated sub) (sg_table sub)) ;;
  emit (EvOpsClose key) ;;
  let r := ops_close env key in
  ret (r, write_result (rx_data msg) r).

(** vbe_skl_prepare_dma; the session is the one the caller found in the
    list of the first client and is updated in place. *)
Definition vbe_skl_prepare_dma (substr_info : vbe_substream_info)
    (dma_conf : tx_buffer) : M Z :=
  let key := (info_pcm_id substr_info, info_direction substr_info) in
  let pcm_buffer_hpa := vhm_vm_gpa2hpa env (tx_dma_addr dma_conf) in
  if pcm_buffer_hpa =? 0 then ret (- EINVAL)
  else
    substream <- get_substream key ;;
    match sg_table substream with
    | None => ret (- EINVAL)
    | Some table =>
        match table, remap_table pcm_buffer_hpa table with
        | native :: _, Some table' =>
            put_substream key
              (mk_substream (ref_count substream) (runtime_allocated substream)
                            (Some table')) ;;
            let pos_desc := map_guest_phys env (tx_stream_pos_addr dma_conf)
                              (tx_stream_pos_size dma_conf) in
            update_first_client (fun c =>
              mk_client (update_found (substr_info_list c) (info_pcm_id substr_info)
                           (info_direction substr_info)
                           (fun i => Some (mk_vbe_info (info_pcm_id i) (info_direction i)
                                                       pos_desc native)))
                        (tplg c)) ;;
            match pos_desc with
            | None => ret (- EINVAL)
            | Some _ => ret 0
            end
        | _, _ => fault
        end
    end.

Definition vbe_skl_pcm_prepare (substr_info : vbe_substream_info) (msg : vbe_ipc_msg)
    : M (Z * option rx_buffer) :=
  match tx_data msg with
  | None => fault
  | Some dma_params =>
      r <- vbe_skl_prepare_dma substr_info dma_params ;;
      if r <? 0 then ret (r, rx_data msg)
      else
        let key := (info_pcm_id substr_info, info_direction substr_info) in
        emit (EvOpsPrepare key) ;;
        let r' := ops_prepare env key in
        ret (r', write_result (rx_data msg) r')
  end.

Definition vbe_skl_pcm_hw_params (substr_info : vbe_substream_info) (msg : vbe_ipc_msg)
    : M (Z * option rx_buffer) :=
  let key := (info_pcm_id substr_info, info_direction substr_info) in
  match tx_data msg with
  | None => fault
  | Some hw_params_ipc =>
      substream <- get_substream key ;;
      if runtime_allocated substream then
        emit (EvOpsHwParams key (tx_hw_params hw_params_ipc)) ;;
        let r := ops_hw_params env key (tx_hw_params hw_params_ipc) in
        ret (r, write_result (rx_data msg) r)
      else fault
  end.

Definition vbe_skl_pcm_trigger (substr_info : vbe_substream_info) (msg : vbe_ipc_msg)
    : M (Z * option rx_buffer) :=
  let key := (info_pcm_id substr_info, info_direction substr_info) in
  match tx_data msg with
  | None => fault
  | Some tx =>
      let cmd := tx_trigger_cmd tx in
      emit (EvOpsTrigger key cmd) ;;
      ret (ops_trigger env key cmd, rx_data msg)
  end.

Definition vbe_skl_msg_pcm_handle (msg : vbe_ipc_msg) : M (Z * option rx_buffer) :=
  s <- get ;;
  match first_client s with
  | None =>
      emit (EvDevErr "Can not find active client") ;;
      ret (- EINVAL, rx_data msg)
  | Some client =>
      match cmd (header msg) with
      | VFE_MSG_PCM_OPEN => vbe_skl_pcm_open msg
      | c =>
          let pcm_id := desc_pcm_id (header msg) in
          let direction := desc_direction (header msg) in
          match vbe_find_substream_info_by_pcm (substr_info_list client)
                  pcm_id direction with
          | None =>
              emit (EvDevErr "Can not find active substream") ;;
              ret (- ENODEV, rx_data msg)
          | Some substream_info =>
              match c with
              | VFE_MSG_PCM_CLOSE => vbe_skl_pcm_close substream_info msg
              | VFE_MSG_PCM_PREPARE => vbe_skl_pcm_prepare substream_info msg
              | VFE_MSG_PCM_HW_PARAMS => vbe_skl_pcm_hw_params substream_info msg
              | VFE_MSG_PCM_TRIGGER => vbe_skl_pcm_trigger substream_info msg
              | _ =>
                  emit (EvDevErr "PCM stream notification not supported") ;;
                  ret (0, rx_data msg)
              end
          end
      end
  end.
End BackEndHandlers.

(** ** Outbound notifications and the pending queue *)

Definition vq_eqb (a b : vq_index) : bool :=
  match a, b with
  | SKL_VIRTIO_IPC_CMD_TX_VQ, SKL_VIRTIO_IPC_CMD_TX_VQ
  | SKL_VIRTIO_IPC_CMD_RX_VQ, SKL_VIRTIO_IPC_CMD_RX_VQ
  | SKL_VIRTIO_IPC_NOT_TX_VQ, SKL_VIRTIO_IPC_NOT_TX_VQ
  | SKL_VIRTIO_IPC_NOT_RX_VQ, SKL_VIRTIO_IPC_NOT_RX_VQ => true
  | _, _ => false
  end.

(** vbe_skl_try_send.  virtio_vq_has_descs holds when the peer has made a
    chain available; virtio_vq_getchain takes that chain off the queue and
    returns [chain_ret].  A chain whose buffer is shorter than the message
    is logged and released at once, and then still gets the whole message
    copied (sizeof_msg bytes into a buffer of iov_len) and is released a
    second time. *)
Definition vbe_skl_try_send (vq : vq_index) (m : vfe_pending_msg) : M bool :=
  s <- get ;;
  match vq_avail s vq with
  | [] => ret false
  | chain :: rest =>
      set_vq_avail (fun q => if vq_eqb q vq then rest else vq_avail s q) ;;
      if 0 <? chain_ret chain then
        (if iov_len chain <? sizeof_msg m
         then emit (EvDevErr "iov len too short") ;;
              emit (EvRelChain vq (iov_len chain))
         else ret tt) ;;
        emit (EvDelivered vq m) ;;
        ret true
      else ret false
  end.

(** The copy of the message is linked at the tail of the pending list (the
    driver does not test the allocation of the copy). *)
Definition vbe_skl_send_or_enqueue (vq : vq_index) (pen_msg : vfe_pending_msg) : M unit :=
  sent <- vbe_skl_try_send vq pen_msg ;;
  if sent then ret tt
  else
    s <- get ;;
    set_pending_msg_list (pending_msg_list s ++ [pen_msg]).

(** Returns the status and result->ret. *)
Definition vbe_send_kctl_msg (kcontrol_name : string) (ucontrol : list Z)
    (sizeof_vfe_kctl_noti : Z) : M (Z * Z) :=
  let kctl_msg := mk_pending kcontrol_name ucontrol sizeof_vfe_kctl_noti in
  vbe_skl_send_or_enqueue SKL_VIRTIO_IPC_NOT_RX_VQ kctl_msg ;;
  ret (0, 0).

(** The loop of vbe_skl_ipc_fe_not_reply_get; it runs at most once per
    pending entry, which [fuel] counts. *)
Fixpoint not_reply_loop (fuel : nat) (vq_idx : vq_index) : M unit :=
  match fuel with
  | O => ret tt
  | S fuel' =>
      s <- get ;;
      match pending_msg_list s with
      | [] => ret tt
      | entry :: _ =>
          sent <- vbe_skl_try_send vq_idx entry ;;
          if sent then
            s' <- get ;;
            set_pending_msg_list (tail (pending_msg_list s')) ;;
            not_reply_loop fuel' vq_idx
          else ret tt
      end
  end.

Definition vbe_skl_ipc_fe_not_reply_get (vq_idx : vq_index) : M unit :=
  s <- get ;;
  not_reply_loop (length (pending_msg_list s)) vq_idx.

(** ** Configuration and resource transfer *)

Fixpoint find_lib (libs : list skl_lib_info) (name : string) : option firmware :=
  match libs with
  | [] => None
  | lib :: rest =>
      if String.eqb (lib_name lib) name then lib_fw lib else find_lib rest name
  end.

(** Library indices start from 1; entry 0 is the base firmware. *)
Definition vbe_find_lib_fw (sdev : skl) (name : string) : option firmware :=
  find_lib (tail (lib_info sdev)) name.

Definition vbe_find_res_hndl (sdev : skl) (type : vfe_resource_type) (name : string)
    : M (option firmware) :=
  fw <- match type with
        | VFE_TOPOLOGY_RES =>
            s <- get ;;
            match first_client s with
            | Some client => ret (tplg client)
            | None => fault
            end
        | VFE_FIRMWARE_RES => ret (dsp_fw sdev)
        | VFE_LIBRARY_RES => ret (vbe_find_lib_fw sdev name)
        | VFE_UNKNOWN_RES _ => ret None
        end ;;
  match fw with
  | Some f => ret (Some f)
  | None => emit (EvDevErr "Unable to find resource") ;; ret None
  end.

(** memcpy into guest memory at [addr]. *)
Definition write_bytes (addr : Z) (data : list Z) (g : Z -> Z) : Z -> Z :=
  fun x =>
    if (addr <=? x) && (x <? addr + Z.of_nat (length data))
    then nth (Z.to_nat (x - addr)) data 0
    else g x.

Fixpoint vbe_skl_find_tplg_domain_by_name (l : list skl_tplg_domain) (name : string)
    : option skl_tplg_domain :=
  match l with
  | [] => None
  | d :: rest =>
      if String.eqb (domain_name d) name then Some d
      else vbe_skl_find_tplg_domain_by_name rest name
  end.

Section BackEndConfig.
Variable env : vbe_env.
Variable sdev : skl.

Definition vbe_skl_cfg_hda (msg : vbe_ipc_msg) : M (Z * option rx_buffer) :=
  match rx_data msg with
  | None => ret (- EINVAL, None)
  | Some hda_cfg =>
      if negb (rx_size msg =? sizeof_vfe_hda_cfg env) then ret (- EINVAL, Some hda_cfg)
      else ret (0, Some (set_rx_hda_cfg (hda_cfg_read env) hda_cfg))
  end.

Definition vbe_skl_cfg_resource_info (msg : vbe_ipc_msg) : M (Z * option rx_buffer) :=
  match rx_data msg with
  | None => ret (- EINVAL, None)
  | Some res_info =>
      if negb (rx_size msg =? sizeof_vfe_resource_info env)
      then ret (- EINVAL, Some res_info)
      else
        let res_info0 := set_rx_res_size 0 res_info in
        fw <- vbe_find_res_hndl sdev (rx_res_type res_info0) (rx_res_name res_info0) ;;
        match fw with
        | None => ret (- EBADF, Some res_info0)
        | Some f => ret (0, Some (set_rx_res_size (fw_size f) res_info0))
        end
  end.

Definition vbe_skl_cfg_resource_desc (msg : vbe_ipc_msg) : M (Z * option rx_buffer) :=
  match rx_data msg with
  | None => ret (- EINVAL, None)
  | Some res_desc =>
      if negb (rx_size msg =? sizeof_vfe_resource_desc env)
      then ret (- EINVAL, Some res_desc)
      else
        fw <- vbe_find_res_hndl sdev (rx_res_type res_desc) (rx_res_name res_desc) ;;
        match fw with
        | None => ret (- EBADF, Some (set_rx_ret (- EBADF) res_desc))
        | Some f =>
            if negb (fw_size f =? rx_res_size res_desc)
            then ret (- EINVAL, Some (set_rx_ret (- EINVAL) res_desc))
            else
              match map_guest_phys env (rx_res_phys_addr res_desc)
                      (rx_res_size res_desc) with
              | Some _ =>
                  s <- get ;;
                  set_guest_mem
                    (write_bytes (rx_res_phys_addr res_desc) (fw_data f) (guest_mem s))
              | None =>
                  if rx_res_size res_desc =? 0 then ret tt else fault
              end ;;
              emit (EvUnmapGuest (rx_res_phys_addr res_desc)) ;;
              ret (0, Some (set_rx_ret 0 res_desc))
        end
  end.

Definition vbe_skl_cfg_domain (msg : vbe_ipc_msg) : M (Z * option rx_buffer) :=
  s <- get ;;
  match rx_data msg with
  | None => ret (- EINVAL, None)
  | Some domain_info =>
      if negb (rx_size msg =? sizeof_vfe_domain_info env)
      then ret (- EINVAL, Some domain_info)
      else
        match first_client s with
        | None => ret (- EINVAL, Some (set_rx_ret (- EINVAL) domain_info))
        | Some _ =>
            match vbe_skl_find_tplg_domain_by_name (tplg_domains sdev)
                    (hdr_domain_name (header msg)) with
            | None => ret (- EACCES, Some (set_rx_ret (- EACCES) domain_info))
            | Some tplg_domain =>
                let '(r, fw) := request_firmware env (tplg_name tplg_domain) in
                update_first_client (fun c => mk_client (substr_info_list c) fw) ;;
                ret (r, Some (set_rx_ret r
                                (set_rx_domain_id (tplg_domain_id tplg_domain)
                                   domain_info)))
            end
        end
  end.

Definition vbe_skl_msg_cfg_handle (msg : vbe_ipc_msg) : M (Z * option rx_buffer) :=
  match cmd (header msg) with
  | VFE_MSG_CFG_HDA => vbe_skl_cfg_hda msg
  | VFE_MSG_CFG_RES_INFO => vbe_skl_cfg_resource_info msg
  | VFE_MSG_CFG_RES_DESC => vbe_skl_cfg_resource_desc msg
  | VFE_MSG_CFG_DOMAIN => vbe_skl_cfg_domain msg
  | _ => emit (EvDevErr "Unknown command for config get message") ;;
         ret (0, rx_data msg)
  end.

Definition vbe_skl_msg_kcontrol_handle (msg : vbe_ipc_msg) : M (Z * option rx_buffer) :=
  match cmd (header msg) with
  | VFE_MSG_KCTL_SET =>
      ret (kctl_ipc_handle env (hdr_domain_id (header msg))
             (desc_kcontrol_id (header msg)), rx_data msg)
  | _ => emit (EvDevErr "Unknown command for kcontrol") ;; ret (0, rx_data msg)
  end.

(** vbe_skl_not_fwd; [header_len] is ipc_lens[SKL_VIRTIO_MSG_HEADER]. *)
Definition vbe_skl_not_fwd (header_len : Z) (msg : vbe_ipc_msg)
    : M (Z * option rx_buffer) :=
  if negb (sizeof_vfe_msg_header env =? header_len) then
    emit (EvDevErr "Mismatch of IPC header size") ;; ret (- EINVAL, rx_data msg)
  else
    match msg_class (cmd (header msg)) with
    | VFE_MSG_PCM => vbe_skl_msg_pcm_handle env sdev msg
    | VFE_MSG_KCTL => vbe_skl_msg_kcontrol_handle msg
    | VFE_MSG_CFG => vbe_skl_msg_cfg_handle msg
    | VFE_MSG_NO_CLASS => ret (0, rx_data msg)
    end.
End BackEndConfig.

(** ** Front end: data (skl-virtio-fe.h) *)

Record vfe_substream_info := mk_vfe_info {
  vfe_pcm_id : string;              (* info->pcm->id *)
  vfe_direction : Z;
  vfe_open : bool;
  vfe_running : bool;
  vfe_pos_desc : option Z;          (* None for NULL *)
  vfe_locked : bool                 (* mutex_is_locked(&substream->self_group.mutex) *)
}.

(** Status tag of an in-flight request; kzalloc leaves the first one. *)
Inductive vfe_ipc_msg_status := VFE_MSG_PENDING | VFE_MSG_TIMED_OUT.

(** struct vfe_ipc_msg.  [msg_id] stands for the address of the message,
    the token handed to the virtqueue; [msg_rx_data] is the address of the
    caller's reply buffer and [msg_waiter] the caller's wait queue with its
    completion flag. *)
Record vfe_ipc_msg := mk_vfe_msg {
  msg_id : Z;
  msg_header : vfe_msg_header;
  msg_tx_buf : option (list Z);
  msg_rx_buf : option (list Z);
  msg_rx_data : option Z;
  msg_rx_size : Z;
  msg_waiter : option Z;
  msg_status : vfe_ipc_msg_status
}.

Definition set_msg_status (st : vfe_ipc_msg_status) (m : vfe_ipc_msg) : vfe_ipc_msg :=
  mk_vfe_msg (msg_id m) (msg_header m) (msg_tx_buf m) (msg_rx_buf m) (msg_rx_data m)
             (msg_rx_size m) (msg_waiter m) st.
Definition set_msg_rx_buf (b : option (list Z)) (m : vfe_ipc_msg) : vfe_ipc_msg :=
  mk_vfe_msg (msg_id m) (msg_header m) (msg_tx_buf m) b (msg_rx_data m)
             (msg_rx_size m) (msg_waiter m) (msg_status m).

Inductive vfe_work := tx_message_loop_work | rx_message_loop_work | msg_timeout_work.

Inductive fe_event :=
| FeRmb
| FeWarnMissed (irq_diff : Z) (pcm_id : string)
| FePeriodElapsed (key : stream_key)
| FeWarn (what : string)
| FeQueueWork (key : stream_key)
| FeSent (m : vfe_ipc_msg)                     (* virtqueue_add_outbuf and kick *)
| FeCopyBack (rx_data : Z) (payload : list Z)  (* memcpy(msg->rx_data, msg->rx_buf, ..) *)
| FeWake (waiter : Z)
| FeScheduleWork (w : vfe_work)
| FePlatformOpen (key : stream_key)
| FePlatformTrigger (key : stream_key) (cmd : Z).

Record vfe_state := mk_vfe {
  fe_shm : shmem;
  fe_substr_info_list : list vfe_substream_info;
  not_tx_vq : list vfe_ipc_msg;        (* requests the device holds *)
  not_tx_used : list vfe_ipc_msg;      (* requests the device has returned *)
  expired_msg_list : list vfe_ipc_msg;
  caller_rx : gmap Z (list Z);         (* reply buffers of the callers *)
  completed : gset Z;                  (* completion flags that are set *)
  next_id : Z;                         (* next address the allocator hands out *)
  fe_trace : list fe_event
}.

Definition F (A : Type) : Type := St vfe_state A.

Definition fe_emit (e : fe_event) : F unit :=
  fun s => Some (tt, mk_vfe (fe_shm s) (fe_substr_info_list s) (not_tx_vq s)
                       (not_tx_used s) (expired_msg_list s) (caller_rx s)
                       (completed s) (next_id s) (fe_trace s ++ [e])).
Definition set_fe_shm (m : shmem) : F unit :=
  fun s => Some (tt, mk_vfe m (fe_substr_info_list s) (not_tx_vq s)
                       (not_tx_used s) (expired_msg_list s) (caller_rx s)
                       (completed s) (next_id s) (fe_trace s)).
Definition set_fe_substr_info_list (l : list vfe_substream_info) : F unit :=
  fun s => Some (tt, mk_vfe (fe_shm s) l (not_tx_vq s)
                       (not_tx_used s) (expired_msg_list s) (caller_rx s)
                       (completed s) (next_id s) (fe_trace s)).
Definition set_not_tx_vq (l : list vfe_ipc_msg) : F unit :=
  fun s => Some (tt, mk_vfe (fe_shm s) (fe_substr_info_list s) l
                       (not_tx_used s) (expired_msg_list s) (caller_rx s)
                       (completed s) (next_id s) (fe_trace s)).
Definition set_not_tx_used (l : list vfe_ipc_msg) : F unit :=
  fun s => Some (tt, mk_vfe (fe_shm s) (fe_substr_info_list s) (not_tx_vq s)
                       l (expired_msg_list s) (caller_rx s)
                       (completed s) (next_id s) (fe_trace s)).
Definition set_expired_msg_list (l : list vfe_ipc_msg) : F unit :=
  fun s => Some (tt, mk_vfe (fe_shm s) (fe_substr_info_list s) (not_tx_vq s)
                       (not_tx_used s) l (caller_rx s)
                       (completed s) (next_id s) (fe_trace s)).
Definition set_caller_rx (m : gmap Z (list Z)) : F unit :=
  fun s => Some (tt, mk_vfe (fe_shm s) (fe_substr_info_list s) (not_tx_vq s)
                       (not_tx_used s) (expired_msg_list s) m
                       (completed s) (next_id s) (fe_trace s)).
Definition set_completed (c : gset Z) : F unit :=
  fun s => Some (tt, mk_vfe (fe_shm s) (fe_substr_info_list s) (not_tx_vq s)
                       (not_tx_used s) (expired_msg_list s) (caller_rx s)
                       c (next_id s) (fe_trace s)).
Definition fresh_id : F Z :=
  fun s => Some (next_id s,
                 mk_vfe (fe_shm s) (fe_substr_info_list s) (not_tx_vq s)
                       (not_tx_used s) (expired_msg_list s) (caller_rx s)
                       (completed s) (next_id s + 1) (fe_trace s)).

(** What the front end calls into or waits for: the local platform
    driver, the ALSA period handling, the allocator, and the peer.
    [peer_reply hdr tx] is the reply buffer the back end returns before the
    deadline of the request, [None] when it has not answered by then. *)
Record vfe_env := mk_fe_env {
  peer_reply : vfe_msg_header -> option (list Z) -> option (list Z);
  skl_platform_open : stream_key -> Z;
  skl_platform_pcm_trigger : stream_key -> Z -> Z;
  period_elapsed_ret : vfe_substream_info -> vfe_stream_pos_desc -> Z;
  queue_work_ret : stream_key -> bool;
  msg_alloc_ok : bool;
  virtqueue_add_ret : Z;                 (* of virtqueue_add_outbuf *)
  fe_domain_name : string;
  fe_domain_id : Z;
  VFE_MSG_MSEC_TIMEOUT : Z;
  VFE_MSG_TRIGGER_TIMEOUT : Z;
  fe_rtd_list : list string;             (* rtd->pcm->id along card->rtd_list *)
  fe_sg_addr : stream_key -> Z;          (* sg_buf->table[0].addr *)
  fe_has_substream : stream_key -> bool; (* pcm->streams[direction].substream set *)
  stack_garbage : list Z                 (* content of an uninitialised reply buffer *)
}.

(** struct vfe_pcm_result is a single int. *)
Definition sizeof_vfe_pcm_result : Z := 4.

Definition SNDRV_PCM_TRIGGER_STOP : Z := 0.
Definition SNDRV_PCM_TRIGGER_START : Z := 1.
Definition SNDRV_PCM_TRIGGER_PAUSE_PUSH : Z := 3.
Definition SNDRV_PCM_TRIGGER_PAUSE_RELEASE : Z := 4.
Definition SNDRV_PCM_TRIGGER_SUSPEND : Z := 5.
Definition SNDRV_PCM_TRIGGER_RESUME : Z := 6.

(** ** Front end: lookups *)

Fixpoint vfe_find_substream_info_by_pcm (l : list vfe_substream_info)
    (pcm_id : string) (direction : Z) : option vfe_substream_info :=
  match l with
  | [] => None
  | info :: rest =>
      if Z.eqb (vfe_direction info) direction && pcm_id_eqb (vfe_pcm_id info) pcm_id
      then Some info
      else vfe_find_substream_info_by_pcm rest pcm_id direction
  end.

Definition vfe_find_substream_info (s : vfe_state) (substr : stream_key)
    : option vfe_substream_info :=
  vfe_find_substream_info_by_pcm (fe_substr_info_list s) (fst substr) (snd substr).

(** The id of a substream is an array, never NULL. *)
Definition vfe_is_valid_pcm_id (pcm_id : string) : Z :=
  if (String.length pcm_id =? 0)%nat || String.eqb pcm_id "((null))"
  then - EINVAL else 0.

Definition vfe_is_valid_fe_substream (substream : stream_key) : Z :=
  vfe_is_valid_pcm_id (fst substream).

Fixpoint find_pcm_id (l : list string) (pcm_name : string) : option string :=
  match l with
  | [] => None
  | id :: rest => if pcm_id_eqb id pcm_name then Some id else find_pcm_id rest pcm_name
  end.

Definition vfe_skl_find_pcm_by_name (env : vfe_env) (pcm_name : string) : option string :=
  if vfe_is_valid_pcm_id pcm_name <? 0 then None
  else find_pcm_id (fe_rtd_list env) pcm_name.

(** Update in place of the session the lookup finds. *)
Fixpoint vfe_update_found (l : list vfe_substream_info) (pcm_id : string) (direction : Z)
    (f : vfe_substream_info -> vfe_substream_info) : list vfe_substream_info :=
  match l with
  | [] => []
  | info :: rest =>
      if Z.eqb (vfe_direction info) direction && pcm_id_eqb (vfe_pcm_id info) pcm_id
      then f info :: rest
      else info :: vfe_update_found rest pcm_id direction f
  end.

Definition vfe_update_info (substr : stream_key)
    (f : vfe_substream_info -> vfe_substream_info) : F unit :=
  s <- get ;;
  set_fe_substr_info_list
    (vfe_update_found (fe_substr_info_list s) (fst substr) (snd substr) f).

(** ** Front end: requests, completions and timeouts *)

Fixpoint update_msg (l : list vfe_ipc_msg) (id : Z) (f : vfe_ipc_msg -> vfe_ipc_msg)
    : list vfe_ipc_msg :=
  match l with
  | [] => []
  | m :: rest => if msg_id m =? id then f m :: rest else m :: update_msg rest id f
  end.

Fixpoint remove_msg (l : list vfe_ipc_msg) (id : Z) : list vfe_ipc_msg :=
  match l with
  | [] => []
  | m :: rest => if msg_id m =? id then rest else m :: remove_msg rest id
  end.

Fixpoint find_msg (l : list vfe_ipc_msg) (id : Z) : option vfe_ipc_msg :=
  match l with
  | [] => None
  | m :: rest => if msg_id m =? id then Some m else find_msg rest id
  end.

(** The device returns request [id] with [rx] written into its reply
    buffer: the request becomes available to virtqueue_get_buf. *)
Definition device_returns (id : Z) (rx : list Z) : F unit :=
  s <- get ;;
  match find_msg (not_tx_vq s) id with
  | None => ret tt
  | Some m =>
      let m' := match msg_rx_buf m with
                | Some _ => set_msg_rx_buf (Some rx) m
                | None => m
                end in
      set_not_tx_vq (remove_msg (not_tx_vq s) id) ;;
      set_not_tx_used (not_tx_used s ++ [m'])
  end.

(** Body of the loop of vfe_tx_message_loop for one returned request. *)
Definition vfe_tx_message_one (msg : vfe_ipc_msg) : F unit :=
  match msg_status msg with
  | VFE_MSG_TIMED_OUT =>
      s <- get ;;
      set_expired_msg_list (expired_msg_list s ++ [msg]) ;;
      fe_emit (FeScheduleWork msg_timeout_work)
  | VFE_MSG_PENDING =>
      match msg_rx_buf msg with
      | Some buf =>
          match msg_rx_data msg with
          | Some addr =>
              s <- get ;;
              set_caller_rx (<[addr := buf]> (caller_rx s)) ;;
              fe_emit (FeCopyBack addr buf)
          | None => fault
          end
      | None => ret tt
      end ;;
      match msg_waiter msg with
      | Some w =>
          s <- get ;;
          set_completed ({[ w ]} ∪ completed s) ;;
          fe_emit (FeWake w)
      | None => ret tt
      end
  end.

(** vfe_tx_message_loop: virtqueue_get_buf until the queue is empty. *)
Fixpoint tx_message_loop (fuel : nat) : F unit :=
  match fuel with
  | O => ret tt
  | S fuel' =>
      s <- get ;;
      match not_tx_used s with
      | [] => ret tt
      | msg :: rest =>
          set_not_tx_used rest ;;
          vfe_tx_message_one msg ;;
          tx_message_loop fuel'
      end
  end.

Definition vfe_tx_message_loop : F unit :=
  s <- get ;;
  tx_message_loop (length (not_tx_used s)).

(** int irq_diff = pos_desc->be_irq_cnt - pos_desc->fe_irq_cnt: the
    difference of two unsigned words of [cnt_bits] bits (at least the width
    of int), converted to int. *)
Definition irq_diff (cnt_bits : Z) (pos_desc : vfe_stream_pos_desc) : Z :=
  to_int (wrap cnt_bits (be_irq_cnt pos_desc - fe_irq_cnt pos_desc)).

Section FrontEnd.
Variable env : vfe_env.

(** vfe_wait_for_msg_response for the request [id] whose completion flag
    is [waiter].  A wait without timeout on a flag that is never set does
    not return. *)
Definition vfe_wait_for_msg_response (id waiter timeout : Z) : F Z :=
  s <- get ;;
  if timeout =? 0 then
    if decide (waiter ∈ completed s) then ret 0 else fault
  else
    if decide (waiter ∈ completed s) then ret 0
    else
      set_not_tx_vq (update_msg (not_tx_vq s) id (set_msg_status VFE_MSG_TIMED_OUT)) ;;
      fe_emit (FeWarn "Response from backend timed out") ;;
      ret (- ETIMEDOUT).

(** The header as sent: domain name and id of this front end filled in. *)
Definition stamp_header (hdr0 : vfe_msg_header) : vfe_msg_header :=
  mk_header (cmd hdr0) (fe_domain_id env) (fe_domain_name env)
    (desc_pcm_id hdr0) (desc_direction hdr0) (desc_kcontrol_id hdr0).

(** The request allocated at [id]: copies of the payloads, and the reply
    buffer, wait queue and completion flag of the caller when a reply is
    expected (all placed at [id] as well). *)
Definition new_request (id : Z) (hdr : vfe_msg_header)
    (tx_data rx_data : option (list Z)) (rx_size : Z) : vfe_ipc_msg :=
  mk_vfe_msg id hdr tx_data rx_data
    (match rx_data with Some _ => Some id | None => None end)
    rx_size
    (match rx_data with Some _ => Some id | None => None end)
    VFE_MSG_PENDING.

(** vfe_send_msg_with_timeout.  [rx_data] holds the content of the
    caller's reply buffer when there is one; the buffer is placed at the
    address returned with the status.  While the caller waits the peer
    answers or not, as [peer_reply] tells, and on an answer the
    completion work runs. *)
Definition vfe_send_msg_with_timeout (msg_header : option vfe_msg_header)
    (tx_data rx_data : option (list Z)) (rx_size timeout : Z) : F (Z * Z) :=
  match msg_header with
  | None => ret (- EINVAL, 0)
  | Some hdr0 =>
      if negb (msg_alloc_ok env) then ret (- ENOMEM, 0)
      else
        id <- fresh_id ;;
        let hdr := stamp_header hdr0 in
        s0 <- get ;;
        match rx_data with
        | Some buf =>
            set_caller_rx (<[id := buf]> (caller_rx s0)) ;;
            set_completed (completed s0 ∖ {[ id ]})      (* bool completed = false *)
        | None => ret tt
        end ;;
        let msg := new_request id hdr tx_data rx_data rx_size in
        if virtqueue_add_ret env <? 0 then
          fe_emit (FeWarn "could not send message over virtqueue") ;;
          ret (virtqueue_add_ret env, id)
        else
          s1 <- get ;;
          set_not_tx_vq (not_tx_vq s1 ++ [msg]) ;;
          fe_emit (FeSent msg) ;;
          match rx_data with
          | None => ret (0, id)
          | Some _ =>
              match peer_reply env hdr tx_data with
              | Some rx => device_returns id rx ;; vfe_tx_message_loop
              | None => ret tt
              end ;;
              r <- vfe_wait_for_msg_response id id timeout ;;
              if r <? 0 then ret (r, id) else ret (0, id)
          end
  end.

Definition vfe_send_msg (msg_header : option vfe_msg_header)
    (tx_data rx_data : option (list Z)) (rx_size : Z) : F (Z * Z) :=
  vfe_send_msg_with_timeout msg_header tx_data rx_data rx_size
    (VFE_MSG_MSEC_TIMEOUT env).

(** vbe_result.ret as the caller reads it from its buffer at [addr]. *)
Definition read_result (addr : Z) : F Z :=
  s <- get ;;
  match caller_rx s !! addr with
  | Some buf => ret (hd 0 buf)
  | None => fault
  end.

Definition vfe_fill_pcm_msg_header (msg_type : vfe_ipc_msg_type)
    (substream : stream_key) : vfe_msg_header :=
  mk_header msg_type 0 "" (fst substream) (snd substream) "".

(** ** Front end: PCM callbacks *)

Definition vfe_pcm_open (substream : stream_key) : F Z :=
  fe_emit (FePlatformOpen substream) ;;
  let r0 := skl_platform_open env substream in
  if r0 <? 0 then ret r0
  else if negb (vfe_is_valid_fe_substream substream =? 0) then ret 0
  else
    let msg_header := vfe_fill_pcm_msg_header VFE_MSG_PCM_OPEN substream in
    sent <- vfe_send_msg (Some msg_header) (Some (stack_garbage env))
              (Some [- EIO]) sizeof_vfe_pcm_result ;;
    if fst sent <? 0 then ret (fst sent)
    else
      vbe_result <- read_result (snd sent) ;;
      if vbe_result <? 0 then ret vbe_result
      else
        vfe_update_info substream (fun i =>
          mk_vfe_info (vfe_pcm_id i) (vfe_direction i) true (vfe_running i)
                      (vfe_pos_desc i) (vfe_locked i)) ;;
        ret vbe_result.

Definition vfe_pcm_close (substream : stream_key) : F Z :=
  if negb (vfe_is_valid_fe_substream substream =? 0) then ret 0
  else
    vfe_update_info substream (fun i =>
      mk_vfe_info (vfe_pcm_id i) (vfe_direction i) false (vfe_running i)
                  (vfe_pos_desc i) (vfe_locked i)) ;;
    let msg_header := vfe_fill_pcm_msg_header VFE_MSG_PCM_CLOSE substream in
    sent <- vfe_send_msg (Some msg_header) (Some (stack_garbage env))
              (Some (stack_garbage env)) sizeof_vfe_pcm_result ;;
    if fst sent <? 0 then ret (fst sent)
    else read_result (snd sent).

Definition vfe_pcm_hw_params (substream : stream_key) (params : list Z) : F Z :=
  if negb (vfe_is_valid_fe_substream substream =? 0) then ret 0
  else
    let msg_header := vfe_fill_pcm_msg_header VFE_MSG_PCM_HW_PARAMS substream in
    sent <- vfe_send_msg (Some msg_header) (Some params)
              (Some (stack_garbage env)) sizeof_vfe_pcm_result ;;
    if fst sent <? 0 then ret (fst sent)
    else read_result (snd sent).

Definition vfe_is_stream_running (cmd : Z) : bool :=
  (cmd =? SNDRV_PCM_TRIGGER_START) || (cmd =? SNDRV_PCM_TRIGGER_PAUSE_RELEASE)
  || (cmd =? SNDRV_PCM_TRIGGER_RESUME).

Definition vfe_pcm_trigger (substream : stream_key) (cmd : Z) : F Z :=
  fe_emit (FePlatformTrigger substream cmd) ;;
  let r0 := skl_platform_pcm_trigger env substream cmd in
  if r0 <? 0 then ret r0
  else if negb (vfe_is_valid_fe_substream substream =? 0) then ret 0
  else
    vfe_update_info substream (fun i =>
      mk_vfe_info (vfe_pcm_id i) (vfe_direction i) (vfe_open i)
                  (vfe_is_stream_running cmd) (vfe_pos_desc i) (vfe_locked i)) ;;
    let msg_header := vfe_fill_pcm_msg_header VFE_MSG_PCM_TRIGGER substream in
    sent <- vfe_send_msg_with_timeout (Some msg_header) (Some [cmd])
              (Some (stack_garbage env)) sizeof_vfe_pcm_result
              (VFE_MSG_TRIGGER_TIMEOUT env) ;;
    ret (fst sent).

Definition vfe_pcm_prepare (substream : stream_key) : F Z :=
  s <- get ;;
  let substr_info := vfe_find_substream_info s substream in
  if negb (vfe_is_valid_fe_substream substream =? 0) then ret 0
  else
    match substr_info with
    | None => ret (- EINVAL)
    | Some info =>
        match vfe_pos_desc info with
        | None => fault
        | Some pd =>
            set_fe_shm (shm_update pd (fun _ => mk_pos_desc 0 0 0) (fe_shm s)) ;;
            let dma_conf := [fe_sg_addr env substream; pd] in
            let msg_header := vfe_fill_pcm_msg_header VFE_MSG_PCM_PREPARE substream in
            sent <- vfe_send_msg (Some msg_header) (Some dma_conf)
                      (Some (stack_garbage env)) sizeof_vfe_pcm_result ;;
            if fst sent <? 0 then ret (fst sent)
            else read_result (snd sent)
        end
    end.

(** ** Front end: compensation for requests that timed out *)

Definition vfe_handle_timedout_pcm_msg (msg : vfe_ipc_msg) : F unit :=
  let pcm_id := desc_pcm_id (msg_header msg) in
  let direction := desc_direction (msg_header msg) in
  match vfe_skl_find_pcm_by_name env pcm_id with
  | None => ret tt
  | Some pcm =>
      match cmd (msg_header msg) with
      | VFE_MSG_PCM_OPEN =>
          if fe_has_substream env (pcm, direction)
          then vfe_pcm_close (pcm, direction) ;; ret tt
          else fault
      | _ => fe_emit (FeWarn "Timed out PCM message not handled")
      end
  end.

Definition vfe_handle_timedout_not_tx_msg (msg : vfe_ipc_msg) : F unit :=
  match msg_class (cmd (msg_header msg)) with
  | VFE_MSG_PCM => vfe_handle_timedout_pcm_msg msg
  | _ => fe_emit (FeWarn "Timed out message not handled")
  end.

(** vfe_not_tx_timeout_handler: one round of the loop per expired entry. *)
Fixpoint not_tx_timeout_loop (fuel : nat) : F unit :=
  match fuel with
  | O => ret tt
  | S fuel' =>
      s <- get ;;
      match expired_msg_list s with
      | [] => ret tt
      | msg :: _ =>
          vfe_handle_timedout_not_tx_msg msg ;;
          s' <- get ;;
          set_expired_msg_list (remove_msg (expired_msg_list s') (msg_id msg)) ;;
          not_tx_timeout_loop fuel'
      end
  end.

Definition vfe_not_tx_timeout_handler : F unit :=
  s <- get ;;
  not_tx_timeout_loop (length (expired_msg_list s)).

(** ** Front end: position updates (vfe_cmd_handle_rx) *)

Variable cnt_bits : Z.

(** Body of the loop for one session. *)
Definition vfe_cmd_handle_rx_one (substr_info : vfe_substream_info) : F unit :=
  s <- get ;;
  if negb (vfe_open substr_info) then ret tt
  else if negb (vfe_running substr_info) then ret tt
  else
    match vfe_pos_desc substr_info with
    | None => ret tt
    | Some pd =>
        let pos_desc := fe_shm s pd in
        if be_irq_cnt pos_desc =? fe_irq_cnt pos_desc then ret tt
        else if vfe_locked substr_info then ret tt
        else
          let key := (vfe_pcm_id substr_info, vfe_direction substr_info) in
          let diff := irq_diff cnt_bits pos_desc in
          (if 1 <? diff
           then fe_emit (FeWarnMissed diff (vfe_pcm_id substr_info))
           else ret tt) ;;
          set_fe_shm (shm_update pd (set_fe_irq_cnt (be_irq_cnt pos_desc)) (fe_shm s)) ;;
          fe_emit (FePeriodElapsed key) ;;
          s1 <- get ;;
          if period_elapsed_ret env substr_info (fe_shm s1 pd) <? 0 then
            fe_emit (FeWarn "Period elapsed notification failed, try to recover") ;;
            fe_emit (FeQueueWork key) ;;
            if queue_work_ret env key then ret tt
            else fe_emit (FeWarn "Update work still in progress")
          else ret tt
    end.

Fixpoint vfe_cmd_handle_rx_list (l : list vfe_substream_info) : F unit :=
  match l with
  | [] => ret tt
  | substr_info :: rest =>
      vfe_cmd_handle_rx_one substr_info ;; vfe_cmd_handle_rx_list rest
  end.

Definition vfe_cmd_handle_rx : F unit :=
  fe_emit FeRmb ;;
  s <- get ;;
  vfe_cmd_handle_rx_list (fe_substr_info_list s).
End FrontEnd.

(** ** Reading of the position handler *)

(** The sessions the handler acts on: open, running, counters apart and
    the substream not locked. *)
Definition needs_update (info : vfe_substream_info) (d : vfe_stream_pos_desc) : bool :=
  vfe_open info && vfe_running info && negb (be_irq_cnt d =? fe_irq_cnt d)
  && negb (vfe_locked info).

(** What the handler logs and calls for such a session. *)
Definition position_update_events (env : vfe_env) (cnt_bits : Z)
    (info : vfe_substream_info) (d : vfe_stream_pos_desc) : list fe_event :=
  let key := (vfe_pcm_id info, vfe_direction info) in
  (if 1 <? irq_diff cnt_bits d
   then [FeWarnMissed (irq_diff cnt_bits d) (vfe_pcm_id info)] else [])
  ++ [FePeriodElapsed key]
  ++ (if period_elapsed_ret env info (set_fe_irq_cnt (be_irq_cnt d) d) <? 0
      then [FeWarn "Period elapsed notification failed, try to recover";
            FeQueueWork key]
           ++ (if queue_work_ret env key then []
               else [FeWarn "Update work still in progress"])
      else []).

Definition is_missed_warning (e : fe_event) : bool :=
  match e with FeWarnMissed _ _ => true | _ => false end.

(** A front end with two sessions: playback of "pcm0" two interrupts
    behind, capture of "pcm0" up to date. *)
Definition vfe_two_sessions : vfe_state :=
  mk_vfe (fun a => if a =? 100 then mk_pos_desc 512 7 5 else mk_pos_desc 0 3 3)
    [mk_vfe_info "pcm0" 0 true true (Some 100) false;
     mk_vfe_info "pcm0" 1 true true (Some 200) false]
    [] [] [] ∅ ∅ 1000 [].

Definition vfe_env_quiet : vfe_env :=
  mk_fe_env (fun _ _ => None) (fun _ => 0) (fun _ _ => 0) (fun _ _ => 0)
    (fun _ => true) true 0 "GuestOS" 1 500 500 ["pcm0"%string] (fun _ => 8192)
    (fun _ => true) [0].

(** The Open request of the playback substream of "pcm0". *)
Definition open_pcm0_header : vfe_msg_header :=
  mk_header VFE_MSG_PCM_OPEN 0 "" "pcm0" 0 "".

(** ** Reading of the pending queue *)

(** The messages a trace delivers, in order. *)
Definition delivered_msgs (evs : list be_event) : list vfe_pending_msg :=
  omap (fun e => match e with EvDelivered _ m => Some m | _ => None end) evs.

(** How far a drain gets: it pairs pending entries with available chains
    from the head and stops at the first chain that cannot be used, or when
    entries or chains run out. *)
Fixpoint drain_count (pending : list vfe_pending_msg) (avail : list vq_chain) : nat :=
  match pending, avail with
  | _ :: pending', c :: avail' =>
      if 0 <? chain_ret c then S (drain_count pending' avail') else O
  | _, _ => O
  end.

(** The chains left after that drain (the failing chain is used up). *)
Fixpoint drain_avail (pending : list vfe_pending_msg) (avail : list vq_chain)
    : list vq_chain :=
  match pending, avail with
  | _ :: pending', c :: avail' =>
      if 0 <? chain_ret c then drain_avail pending' avail' else avail'
  | _, _ => avail
  end.

(** What happens around the notification queue: the back end sends a
    notification, the front end kicks the queue, the front end makes a
    chain available. *)
Inductive be_action :=
| ActSend (m : vfe_pending_msg)
| ActKick
| ActPeerPosts (c : vq_chain).

Definition be_step (a : be_action) : M unit :=
  match a with
  | ActSend m => vbe_skl_send_or_enqueue SKL_VIRTIO_IPC_NOT_RX_VQ m
  | ActKick => vbe_skl_ipc_fe_not_reply_get SKL_VIRTIO_IPC_NOT_RX_VQ
  | ActPeerPosts c =>
      s <- get ;;
      set_vq_avail (fun q => if vq_eqb q SKL_VIRTIO_IPC_NOT_RX_VQ
                             then vq_avail s q ++ [c] else vq_avail s q)
  end.

(** A run of such actions, observed from outside: the messages that went
    into the pending queue, in the order they went in, the messages the
    drains delivered, in the order of delivery, and the final state. *)
Fixpoint be_run (acts : list be_action) (s : vbe_state)
    : option (list vfe_pending_msg * list vfe_pending_msg * vbe_state) :=
  match acts with
  | [] => Some ([], [], s)
  | a :: rest =>
      match be_step a s with
      | None => None
      | Some (_, s1) =>
          let enqueued :=
            match a with
            | ActSend m =>
                if (length (pending_msg_list s) <? length (pending_msg_list s1))%nat
                then [m] else []
            | _ => []
            end in
          let drained :=
            match a with
            | ActKick => delivered_msgs (drop (length (trace s)) (trace s1))
            | _ => []
            end in
          match be_run rest s1 with
          | Some (e, d, s2) => Some (enqueued ++ e, drained ++ d, s2)
          | None => None
          end
      end
  end.

Definition noti (name : string) : vfe_pending_msg := mk_pending name [1] 8.
Definition good_chain : vq_chain := mk_chain 1 64.

(** ** A small configuration to run the back end on *)

Definition vbe_env_simple : vbe_env :=
  mk_env (fun _ => 0) (fun _ => 0) (fun _ => 0) (fun _ _ => 0) (fun _ _ => 0)
    true true (fun gpa => gpa) (fun addr _ => Some addr) (fun _ => (0, None))
    (fun _ _ => 0) [] 112 40 72 88 8.

Definition base_fw : firmware := mk_firmware [1; 2; 3].

Definition sdev_simple : skl :=
  mk_skl true [mk_rtd "pcm0" (fun _ => Some 1)]
    [mk_tplg_domain "GuestOS" 1 "dfw_guest.bin"] (Some base_fw) [].

Definition cfg_header (c : vfe_ipc_msg_type) : vfe_msg_header :=
  mk_header c 1 "GuestOS" "" 0 "".

Definition pcm_header (c : vfe_ipc_msg_type) (domain : Z) : vfe_msg_header :=
  mk_header c domain "GuestOS" "pcm0" 0 "".

Definition fw_request (size : Z) : rx_buffer :=
  mk_rx 0 VFE_FIRMWARE_RES "dsp_fw" size 20480 0 [].

(** The same message under another sender id. *)
Definition with_domain_id (d : Z) (msg : vbe_ipc_msg) : vbe_ipc_msg :=
  let h := header msg in
  mk_ipc_msg (mk_header (cmd h) d (hdr_domain_name h) (desc_pcm_id h)
                (desc_direction h) (desc_kcontrol_id h))
    (tx_data msg) (tx_size msg) (rx_data msg) (rx_size msg).

Definition trigger_start : tx_buffer := mk_tx [] SNDRV_PCM_TRIGGER_START 0 0 0.

(** A reply buffer as vfe_pcm_open prepares it: ret = -EIO. *)
Definition pcm_result_buf : rx_buffer := mk_rx (- EIO) (VFE_UNKNOWN_RES 0) "" 0 0 0 [].

(** ** The stream state machine as the specification words it

    Modelled from the spec: the transition table of section 4.2, which the
    specification asks the session registry to follow.  [None] stands for
    "rejected as out of order". *)
Inductive pcm_state := CLOSED | OPENED | CONFIGURED | PREPARED | RUNNING.

Definition spec_pcm_transition (st : pcm_state) (c : vfe_ipc_msg_type)
    (trigger_cmd : Z) : option pcm_state :=
  match c, st with
  | VFE_MSG_PCM_OPEN, CLOSED => Some OPENED
  | VFE_MSG_PCM_HW_PARAMS, OPENED => Some CONFIGURED
  | VFE_MSG_PCM_PREPARE, CONFIGURED => Some PREPARED
  | VFE_MSG_PCM_TRIGGER, PREPARED =>
      if (trigger_cmd =? SNDRV_PCM_TRIGGER_START)
         || (trigger_cmd =? SNDRV_PCM_TRIGGER_RESUME)
      then Some RUNNING else None
  | VFE_MSG_PCM_TRIGGER, RUNNING =>
      if (trigger_cmd =? SNDRV_PCM_TRIGGER_PAUSE_PUSH)
         || (trigger_cmd =? SNDRV_PCM_TRIGGER_SUSPEND)
      then Some PREPARED else None
  | VFE_MSG_PCM_CLOSE, (OPENED | CONFIGURED | PREPARED | RUNNING) => Some CLOSED
  | _, _ => None
  end.

(** A back end with one client, no session, and the playback substream of
    "pcm0" free. *)
Definition vbe_idle : vbe_state :=
  mk_vbe zero_shm [mk_client [] None]
    {[ pcm0_playback := mk_substream 0 false (Some [8192]) ]}
    [] (fun _ => []) (fun _ => 0) [].

(** The session vbe_skl_add_substream_info creates. *)
Definition new_session (key : stream_key) : vbe_substream_info :=
  mk_vbe_info (fst key) (snd key) None 0.

(** The commands that need a session. *)
Definition needs_session (c : vfe_ipc_msg_type) : bool :=
  match c with
  | VFE_MSG_PCM_CLOSE | VFE_MSG_PCM_PREPARE | VFE_MSG_PCM_HW_PARAMS
  | VFE_MSG_PCM_TRIGGER => true
  | _ => false
  end.

(** The same message with other payload lengths. *)
Definition with_sizes (tx_len rx_len : Z) (msg : vbe_ipc_msg) : vbe_ipc_msg :=
  mk_ipc_msg (header msg) (tx_data msg) tx_len (rx_data msg) rx_len.

Definition hw_params_48k : tx_buffer := mk_tx [2; 48000; 1920] 0 0 0 0.

(** ** Further readings used by the properties of the second part *)

(** The descriptor bound to a stream, if the registry has one. *)
Definition bound_descriptor (s : vbe_state) (k : stream_key) : option Z :=
  match vbe_find_substream_info (client_list s) k with
  | Some info => info_pos_desc info
  | None => None
  end.

(** Interrupts of one stream, one per hardware position. *)
Definition same_stream_irqs (k : stream_key) (positions : list Z)
    : list (option stream_key * Z) :=
  map (fun p => (Some k, p)) positions.

Definition is_fe_interrupt (e : be_event) : bool :=
  match e with EvVqInterrupt _ => true | _ => false end.

Definition is_hda_irq_ack (e : be_event) : bool :=
  match e with EvHdaIrqAck => true | _ => false end.

(** The front end looking at the shared memory [m]. *)
Definition with_fe_shm (m : shmem) (f : vfe_state) : vfe_state :=
  mk_vfe m (fe_substr_info_list f) (not_tx_vq f) (not_tx_used f)
    (expired_msg_list f) (caller_rx f) (completed f) (next_id f) (fe_trace f).

(** The messages a run of actions hands to the back end for sending. *)
Definition sent_msgs (acts : list be_action) : list vfe_pending_msg :=
  omap (fun a => match a with ActSend m => Some m | _ => None end) acts.

Definition usable_chain (c : vq_chain) : bool := 0 <? chain_ret c.

(** The state a session is left in by vbe_skl_prepare_dma: the scatter
    table continues from the guest buffer and the session remembers the
    native address and the mapped descriptor. *)
Definition prepared_session (pos_desc : option Z) (native : Z)
    (i : vbe_substream_info) : option vbe_substream_info :=
  Some (mk_vbe_info (info_pcm_id i) (info_direction i) pos_desc native).

Definition after_prepare_dma (s : vbe_state) (info : vbe_substream_info)
    (sub : snd_pcm_substream) (hpa native : Z) (tail : list Z)
    (pos_desc : option Z) (client : snd_skl_vbe_client)
    (rest : list snd_skl_vbe_client) : vbe_state :=
  let key : stream_key := (info_pcm_id info, info_direction info) in
  mk_vbe (shm s)
    (mk_client (update_found (substr_info_list client) (info_pcm_id info)
                  (info_direction info) (prepared_session pos_desc native))
       (tplg client) :: rest)
    (<[key := mk_substream (ref_count sub) (runtime_allocated sub)
                (Some (hpa :: remap_pages (Z.ldiff hpa 4095) tail))]> (substreams s))
    (pending_msg_list s) (vq_avail s) (guest_mem s) (trace s).

(** An opened stream of two pages that has not been prepared yet, and the
    DMA configuration a guest sends for it. *)
Definition vbe_opened : vbe_state :=
  mk_vbe zero_shm
    [mk_client [mk_vbe_info "pcm0" 0 None 0] None]
    {[ pcm0_playback := mk_substream 1 true (Some [8192; 12288]) ]}
    [] (fun _ => []) (fun _ => 0) [].

Definition dma_conf_guest : tx_buffer := mk_tx [] 0 20580 36864 12.

(** What a request handler leaves alone: the position descriptors, the
    pending notifications and the rings; the trace only grows. *)
Definition be_frame (s s' : vbe_state) : Prop :=
  shm s' = shm s /\
  pending_msg_list s' = pending_msg_list s /\
  vq_avail s' = vq_avail s /\
  exists evs, trace s' = trace s ++ evs.

Definition keeps_frame {A} (c : M A) : Prop :=
  forall s a s', c s = Some (a, s') -> be_frame s s'.

(** A device with two libraries besides the base firmware, both called
    like the base entry, and the first one without an image. *)
Definition sdev_libs : skl :=
  mk_skl true [mk_rtd "pcm0" (fun _ => Some 1)]
    [mk_tplg_domain "GuestOS" 1 "dfw_guest.bin"; mk_tplg_domain "GuestOS" 2 "other.bin"]
    (Some base_fw)
    [mk_lib "base" (Some base_fw); mk_lib "lib1" (Some (mk_firmware [7; 8]));
     mk_lib "lib1" (Some (mk_firmware [9]))].

Definition domain_request : vbe_ipc_msg :=
  mk_ipc_msg (cfg_header VFE_MSG_CFG_DOMAIN) None 0
    (Some (mk_rx 0 (VFE_UNKNOWN_RES 0) "" 0 0 77 [])) 8.

(** Flags of a front-end session as the PCM callbacks set them. *)
Definition set_vfe_open (b : bool) (i : vfe_substream_info) : vfe_substream_info :=
  mk_vfe_info (vfe_pcm_id i) (vfe_direction i) b (vfe_running i)
    (vfe_pos_desc i) (vfe_locked i).

Definition set_vfe_running (b : bool) (i : vfe_substream_info) : vfe_substream_info :=
  mk_vfe_info (vfe_pcm_id i) (vfe_direction i) (vfe_open i) b
    (vfe_pos_desc i) (vfe_locked i).

(** A peer that answers every request with the status [status]. *)
Definition vfe_env_answering (status : Z) : vfe_env :=
  mk_fe_env (fun _ _ => Some [status]) (fun _ => 0) (fun _ _ => 0) (fun _ _ => 0)
    (fun _ => true) true 0 "GuestOS" 1 500 500 ["pcm0"%string] (fun _ => 8192)
    (fun _ => true) [0].

(** A front end with the two sessions of "pcm0", both closed and stopped. *)
Definition vfe_closed_sessions : vfe_state :=
  mk_vfe (fun a => if a =? 100 then mk_pos_desc 512 7 5 else mk_pos_desc 0 3 3)
    [mk_vfe_info "pcm0" 0 false false (Some 100) false;
     mk_vfe_info "pcm0" 1 false false (Some 200) false]
    [] [] [] ∅ ∅ 1000 [].

(** ** Front end: requests that are repeated (vfe_send_msg_retry)

    [remaining] counts the rounds of the loop that are left after this
    one; the loop starts with VFE_MSG_MAX_RETRY_NUM of them, a constant of
    skl-virtio-fe.h that is not negative. *)
Fixpoint vfe_send_msg_retry_from (env : vfe_env) (remaining : nat)
    (msg_header : option vfe_msg_header) (tx_data rx_data : option (list Z))
    (rx_size : Z) : F (Z * Z) :=
  sent <- vfe_send_msg env msg_header tx_data rx_data rx_size ;;
  if fst sent =? - ETIMEDOUT then
    fe_emit (FeWarn "Timeout, try once again") ;;
    match remaining with
    | O => ret sent
    | S k => vfe_send_msg_retry_from env k msg_header tx_data rx_data rx_size
    end
  else ret sent.

Definition vfe_send_msg_retry (env : vfe_env) (VFE_MSG_MAX_RETRY_NUM : nat)
    (msg_header : option vfe_msg_header) (tx_data rx_data : option (list Z))
    (rx_size : Z) : F (Z * Z) :=
  vfe_send_msg_retry_from env VFE_MSG_MAX_RETRY_NUM msg_header tx_data rx_data rx_size.

(** The requests [n] rounds without answer leave with the device, and
    what these rounds log. *)
Definition timed_out_requests (env : vfe_env) (first : Z) (n : nat)
    (hdr : vfe_msg_header) (tx : option (list Z)) (buf : list Z) (rx_size : Z)
    : list vfe_ipc_msg :=
  map (fun i => set_msg_status VFE_MSG_TIMED_OUT
                  (new_request (first + Z.of_nat i) (stamp_header env hdr) tx
                     (Some buf) rx_size))
      (seq 0 n).

Definition timed_out_rounds (env : vfe_env) (first : Z) (n : nat)
    (hdr : vfe_msg_header) (tx : option (list Z)) (buf : list Z) (rx_size : Z)
    : list fe_event :=
  flat_map (fun i => [FeSent (new_request (first + Z.of_nat i) (stamp_header env hdr) tx
                                (Some buf) rx_size);
                      FeWarn "Response from backend timed out";
                      FeWarn "Timeout, try once again"])
           (seq 0 n).

(** ** Reading of the completion loop *)

Definition is_timed_out (m : vfe_ipc_msg) : bool :=
  match msg_status m with VFE_MSG_TIMED_OUT => true | VFE_MSG_PENDING => false end.

(** The completion flag a returned request sets, and the caller's buffer
    it writes: none for a request that had timed out. *)
Definition woken_waiter (m : vfe_ipc_msg) : option Z :=
  if is_timed_out m then None else msg_waiter m.

Definition written_buffer (m : vfe_ipc_msg) : option Z :=
  if is_timed_out m then None
  else match msg_rx_buf m with Some _ => msg_rx_data m | None => None end.

(** A returned request with a reply buffer names the caller's buffer. *)
Definition names_reply_buffer (m : vfe_ipc_msg) : Prop :=
  msg_status m = VFE_MSG_PENDING -> is_Some (msg_rx_buf m) -> is_Some (msg_rx_data m).

(** vfe_pcm_pointer: the position the back end published last, 0 for a
    substream without session or descriptor. *)
Definition vfe_pcm_pointer (substream : stream_key) : F Z :=
  s <- get ;;
  match vfe_find_substream_info s substream with
  | Some substr_info =>
      match vfe_pos_desc substr_info with
      | Some pd => ret (hw_ptr (fe_shm s pd))
      | None => ret 0
      end
  | None => ret 0
  end.

(** ** Closing every stream of a client (vbe_skl_pcm_close_all)

    For the first client of the list, the one the handlers work on.  The
    message of these closes has no reply buffer. *)
Definition close_all_msg : vbe_ipc_msg :=
  mk_ipc_msg (mk_header (VFE_MSG_OTHER VFE_MSG_NO_CLASS 0) 0 "" "" 0 "") None 0 None 0.

Fixpoint close_all_loop (env : vbe_env) (infos : list vbe_substream_info) : M unit :=
  match infos with
  | [] => ret tt
  | info :: rest =>
      r <- vbe_skl_pcm_close env info close_all_msg ;;
      (if fst r <? 0 then emit (EvDevErr "Could not close PCM") else ret tt) ;;
      close_all_loop env rest
  end.

Definition vbe_skl_pcm_close_all (env : vbe_env) : M unit :=
  s <- get ;;
  match first_client s with
  | Some client => close_all_loop env (substr_info_list client)
  | None => ret tt
  end.

Definition session_key (info : vbe_substream_info) : stream_key :=
  (info_pcm_id info, info_direction info).

Definition closed_streams (evs : list be_event) : list stream_key :=
  omap (fun e => match e with EvOpsClose k => Some k | _ => None end) evs.

Definition unmapped_descriptors (evs : list be_event) : list Z :=
  omap (fun e => match e with EvUnmapGuest a => Some a | _ => None end) evs.

(** ** The request loop of the back end (vbe_skl_ipc_fe_not_get)

    A chain of the request ring as virtio_vq_getchain hands it over: the
    number of buffers it returns, the length of the first one and the
    message the buffers hold. *)
Record request_chain := mk_request {
  req_chain_ret : Z;
  req_header_len : Z;
  req_msg : vbe_ipc_msg
}.

(** vbe_skl_virtio_vq_handle followed by the body of the loop, over the
    chains the ring holds; [vq_size] is SKL_VIRTIO_NOT_VQ_SZ.  The result is
    the list of the replies released to the guest, in order, and the chains
    left on the ring.  A chain for which getchain returns 0 makes the
    handler read the buffer pointers of the previous round. *)
Fixpoint not_get_loop (env : vbe_env) (sdev : skl) (vq_size : Z)
    (reqs : list request_chain)
    : M (list (Z * option rx_buffer) * list request_chain) :=
  match reqs with
  | [] => ret ([], [])
  | r :: rest =>
      if negb (req_chain_ret r =? vq_size) then
        emit (EvDevErr "notification buffers not paired") ;;
        if req_chain_ret r =? 0 then fault
        else emit (EvDevErr "Failed to handle virtio message") ;; ret ([], rest)
      else
        res <- vbe_skl_not_fwd env sdev (req_header_len r) (req_msg r) ;;
        (if fst res <? 0 then emit (EvDevErr "submit guest ipc command fail")
         else ret tt) ;;
        more <- not_get_loop env sdev vq_size rest ;;
        ret (res :: fst more, snd more)
  end.

Definition vbe_skl_ipc_fe_not_get (env : vbe_env) (sdev : skl) (vq_size : Z)
    (ring : list request_chain)
    : M (list (Z * option rx_buffer) * list request_chain) :=
  not_get_loop env sdev vq_size ring.

Definition is_kctl_request (r : request_chain) : bool :=
  match msg_class (cmd (header (req_msg r))) with
  | VFE_MSG_KCTL => true
  | _ => false
  end.

(** A ring with an Open request, a chain of one buffer only, and a Close
    request behind it. *)
Definition open_request : request_chain :=
  mk_request 3 112
    (mk_ipc_msg (pcm_header VFE_MSG_PCM_OPEN 1) None 0 (Some pcm_result_buf) 4).

Definition short_request : request_chain :=
  mk_request 1 112
    (mk_ipc_msg (pcm_header VFE_MSG_PCM_OPEN 1) None 0 None 0).

Definition close_request : request_chain :=
  mk_request 3 112
    (mk_ipc_msg (pcm_header VFE_MSG_PCM_CLOSE 1) None 0 (Some pcm_result_buf) 4).

(** ** Front end: the list of sessions (vfe_initialize_stream_list)

    kzalloc hands out the next free address, or NULL where [alloc_ok]
    says so. *)
Definition kzalloc (alloc_ok : Z -> bool) : F (option Z) :=
  s <- get ;;
  if alloc_ok (next_id s) then id <- fresh_id ;; ret (Some id)
  else ret None.

Definition SNDRV_PCM_STREAM_PLAYBACK : Z := 0.
Definition SNDRV_PCM_STREAM_CAPTURE : Z := 1.

(** The session and its position descriptor come zeroed from kzalloc; the
    session goes to the head of the list. *)
Definition vfe_initialize_stream_list_from_pcm_str (alloc_ok : Z -> bool)
    (env : vfe_env) (substream : stream_key) : F Z :=
  if negb (fe_has_substream env substream) then ret 0
  else
    substr_info <- kzalloc alloc_ok ;;
    match substr_info with
    | None => ret (- ENOMEM)
    | Some _ =>
        pos_desc <- kzalloc alloc_ok ;;
        match pos_desc with
        | None => ret (- ENOMEM)
        | Some pd =>
            s <- get ;;
            set_fe_shm (shm_update pd (fun _ => mk_pos_desc 0 0 0) (fe_shm s)) ;;
            set_fe_substr_info_list
              (mk_vfe_info (fst substream) (snd substream) false false (Some pd) false
               :: fe_substr_info_list s) ;;
            ret 0
        end
    end.

Definition vfe_initialize_stream_list_from_pcm (alloc_ok : Z -> bool)
    (env : vfe_env) (pcm_id : string) : F Z :=
  r0 <- vfe_initialize_stream_list_from_pcm_str alloc_ok env
          (pcm_id, SNDRV_PCM_STREAM_PLAYBACK) ;;
  if r0 <? 0 then ret r0
  else
    r1 <- vfe_initialize_stream_list_from_pcm_str alloc_ok env
            (pcm_id, SNDRV_PCM_STREAM_CAPTURE) ;;
    if r1 <? 0 then ret r1 else ret 0.

Fixpoint initialize_stream_list_loop (alloc_ok : Z -> bool) (env : vfe_env)
    (rtds : list string) : F Z :=
  match rtds with
  | [] => ret 0
  | pcm_id :: rest =>
      if vfe_is_valid_pcm_id pcm_id <? 0
      then initialize_stream_list_loop alloc_ok env rest
      else
        r <- vfe_initialize_stream_list_from_pcm alloc_ok env pcm_id ;;
        if r <? 0 then ret r
        else initialize_stream_list_loop alloc_ok env rest
  end.

Definition vfe_initialize_stream_list (alloc_ok : Z -> bool) (env : vfe_env) : F Z :=
  initialize_stream_list_loop alloc_ok env (fe_rtd_list env).

(** The substreams the card has, in the order the loops visit them. *)
Definition card_substreams (rtds : list string) : list stream_key :=
  flat_map (fun pcm_id =>
              if vfe_is_valid_pcm_id pcm_id <? 0 then []
              else [(pcm_id, SNDRV_PCM_STREAM_PLAYBACK);
                    (pcm_id, SNDRV_PCM_STREAM_CAPTURE)])
           rtds.

Definition expected_sessions (env : vfe_env) : list stream_key :=
  List.filter (fe_has_substream env) (card_substreams (fe_rtd_list env)).

Definition vfe_session_key (info : vfe_substream_info) : stream_key :=
  (vfe_pcm_id info, vfe_direction info).

(** A session as the initialisation leaves it: closed, stopped, with a
    descriptor of its own that reads zero. *)
Definition fresh_session (lo hi : Z) (m : shmem) (info : vfe_substream_info) : Prop :=
  vfe_open info = false /\ vfe_running info = false /\
  exists pd, vfe_pos_desc info = Some pd /\ lo <= pd < hi /\ m pd = mk_pos_desc 0 0 0.

(** The same visits, one substream after the other. *)
Fixpoint initialize_substreams (alloc_ok : Z -> bool) (env : vfe_env)
    (keys : list stream_key) : F Z :=
  match keys with
  | [] => ret 0
  | k :: rest =>
      vfe_initialize_stream_list_from_pcm_str alloc_ok env k ;;
      initialize_substreams alloc_ok env rest
  end.

(** A card with two PCMs and an unnamed one; "pcm1" has no capture
    substream. *)
Definition vfe_env_card : vfe_env :=
  mk_fe_env (fun _ _ => None) (fun _ => 0) (fun _ _ => 0) (fun _ _ => 0)
    (fun _ => true) true 0 "GuestOS" 1 500 500
    ["pcm0"%string; ""%string; "pcm1"%string] (fun _ => 8192)
    (fun k => negb (String.eqb (fst k) "pcm1" && (snd k =? 1))) [0].

Definition vfe_empty : vfe_state :=
  mk_vfe zero_shm [] [] [] [] ∅ ∅ 1000 [].

(** ** Domain of a kcontrol (vbe_skl_kcontrol_get_domain_id)

    strncmp(a, b, n) == 0: the strings agree on their first [n]
    characters. *)
Definition strncmp_eq (a b : string) (n : nat) : bool :=
  String.eqb (String.substring 0 n a) (String.substring 0 n b).

(** struct vbe_static_kctl_domain, the element type of kctl_domain_map. *)
Record vbe_static_kctl_domain := mk_static_domain {
  kd_name : string;
  str_size : nat;
  domain_flag : Z
}.

(** struct skl_kctl_domain of a module configuration. *)
Record skl_kctl_domain := mk_kctl_domain { kctl_name : string; kctl_domain_id : Z }.

Inductive kcontrol_private := PrivComponent | PrivCard | PrivOther.

(** struct snd_kcontrol: its address, id.name and what private_data
    points to. *)
Record snd_kcontrol := mk_kcontrol {
  kc_addr : Z;
  kc_name : string;
  kc_private : kcontrol_private
}.

(** struct snd_soc_dapm_widget: the kcontrols it holds and the kcontrol
    domains of its module configuration (w->priv). *)
Record snd_soc_dapm_widget := mk_widget {
  w_kcontrols : list Z;
  w_kctl_domains : list skl_kctl_domain
}.

Fixpoint vbe_skl_find_kcontrol_widget (widgets : list snd_soc_dapm_widget)
    (kcontrol : snd_kcontrol) : option snd_soc_dapm_widget :=
  match widgets with
  | [] => None
  | w :: rest =>
      if existsb (Z.eqb (kc_addr kcontrol)) (w_kcontrols w) then Some w
      else vbe_skl_find_kcontrol_widget rest kcontrol
  end.

(** [name_size] is ARRAY_SIZE(domain->name). *)
Fixpoint vbe_skl_kcontrol_find_domain_id (name_size : nat) (kcontrol : snd_kcontrol)
    (kctl_domains : list skl_kctl_domain) : Z :=
  match kctl_domains with
  | [] => 0
  | domain :: rest =>
      if strncmp_eq (kctl_name domain) (kc_name kcontrol) name_size
      then kctl_domain_id domain
      else vbe_skl_kcontrol_find_domain_id name_size kcontrol rest
  end.

Fixpoint vbe_skl_get_static_domain_id (kctl_domain_map : list vbe_static_kctl_domain)
    (ctl_name : string) : Z :=
  match kctl_domain_map with
  | [] => 0
  | entry :: rest =>
      let size := String.length ctl_name in
      if (str_size entry =? size)%nat && strncmp_eq ctl_name (kd_name entry) size
      then domain_flag entry
      else vbe_skl_get_static_domain_id rest ctl_name
  end.

(** Returns the status and what *domain_id holds afterwards; [sdev] is
    [None] when get_virtio_audio()->skl is NULL, and [domain_id] is the old
    content of the result. *)
Definition vbe_skl_kcontrol_get_domain_id
    (kctl_domain_map : list vbe_static_kctl_domain) (name_size : nat)
    (sdev : option (list snd_soc_dapm_widget)) (kcontrol : snd_kcontrol)
    (domain_id : Z) : Z * Z :=
  match sdev with
  | None => (- EINVAL, domain_id)
  | Some widgets =>
      match kc_private kcontrol with
      | PrivComponent | PrivCard =>
          (0, vbe_skl_get_static_domain_id kctl_domain_map (kc_name kcontrol))
      | PrivOther =>
          match vbe_skl_find_kcontrol_widget widgets kcontrol with
          | Some w =>
              (0, vbe_skl_kcontrol_find_domain_id name_size kcontrol (w_kctl_domains w))
          | None => (0, 0)
          end
      end
  end.

(** The table of the driver.  KCTL_DOMAIN_ITEM, which fills str_size, is
    a macro of skl-virtio-be.h; the sizes here are the lengths of the
    names. *)
Definition kctl_domain_map : list vbe_static_kctl_domain :=
  [mk_static_domain "BtHfp_ssp0_in pcm cfg" 21 1;
   mk_static_domain "BtHfp_ssp0_out pcm cfg" 22 1;
   mk_static_domain "Speaker Switch" 14 1].

(** Lookup by the whole name. *)
Fixpoint static_domain_of (table : list vbe_static_kctl_domain) (name : string) : Z :=
  match table with
  | [] => 0
  | entry :: rest =>
      if String.eqb (kd_name entry) name then domain_flag entry
      else static_domain_of rest name
  end.

Fixpoint kctl_domain_of (domains : list skl_kctl_domain) (name : string) : Z :=
  match domains with
  | [] => 0
  | d :: rest =>
      if String.eqb (kctl_name d) name then kctl_domain_id d
      else kctl_domain_of rest name
  end.

(** A back end whose stream refuses to open. *)
Definition vbe_env_failing_open : vbe_env :=
  mk_env (fun _ => - EIO) (fun _ => 0) (fun _ => 0) (fun _ _ => 0) (fun _ _ => 0)
    true true (fun gpa => gpa) (fun addr _ => Some addr) (fun _ => (0, None))
    (fun _ _ => 0) [] 112 40 72 88 8.

(** ** Readings of traces and states used by the statements *)

(** What the wake-up logs and calls for one session, given the shared
    memory it finds. *)
Definition session_events (env : vfe_env) (cnt_bits : Z) (m : shmem)
    (info : vfe_substream_info) : list fe_event :=
  match vfe_pos_desc info with
  | Some pd =>
      if needs_update info (m pd)
      then position_update_events env cnt_bits info (m pd)
      else []
  | None => []
  end.

(** The events of the recovery after a failed period-elapsed call. *)
Definition is_recovery_event (e : fe_event) : bool :=
  match e with FeWarn _ | FeQueueWork _ => true | _ => false end.

(** A playback session 2^31 interrupts behind. *)
Definition vfe_far_behind : vfe_state :=
  mk_vfe (fun _ => mk_pos_desc 0 (2 ^ 31) 0)
    [mk_vfe_info "pcm0" 0 true true (Some 100) false]
    [] [] [] ∅ ∅ 1000 [].

(** A request for a PCM the card does not have. *)
Definition open_pcm9_header : vfe_msg_header :=
  mk_header VFE_MSG_PCM_OPEN 0 "" "pcm9" 0 "".

(** A chain whose buffer is shorter than the notifications of [noti]. *)
Definition short_chain : vq_chain := mk_chain 1 4.

(** Entries the back end puts on the used ring of a queue: one per
    release. *)
Definition used_entries (evs : list be_event) : nat :=
  length (List.filter (fun e => match e with
                                | EvDelivered _ _ | EvRelChain _ _ => true
                                | _ => false
                                end) evs).
(* ====================================================================== *)
(** * Properties *)
(* ====================================================================== *)

Lemma to_int_small (x : Z) : 0 <= x < 2 ^ 31 -> to_int x = x.
Proof.
  intros Hx. unfold to_int.
  rewrite Z.mod_small by lia.
  destruct (x <? 2 ^ 31) eqn:E; [reflexivity | apply Z.ltb_ge in E; lia].
Qed.

Lemma to_int_inj_u32 (a b : Z) :
  0 <= a < 2 ^ 32 -> 0 <= b < 2 ^ 32 -> to_int a = to_int b -> a = b.
Proof.
  intros Ha Hb. unfold to_int.
  rewrite !Z.mod_small by lia.
  destruct (a <? 2 ^ 31) eqn:Ea, (b <? 2 ^ 31) eqn:Eb;
    try apply Z.ltb_lt in Ea; try apply Z.ltb_ge in Ea;
    try apply Z.ltb_lt in Eb; try apply Z.ltb_ge in Eb; lia.
Qed.

Lemma shm_update_same a f m : shm_update a f m a = f (m a).
Proof. unfold shm_update. now rewrite Z.eqb_refl. Qed.

Lemma shm_update_other a b f m : b <> a -> shm_update a f m b = m b.
Proof.
  intros Hne. unfold shm_update.
  destruct (Z.eqb b a) eqn:E; [apply Z.eqb_eq in E; contradiction | reflexivity].
Qed.

(** ** Position update of the back end *)

Section PositionUpdateProps.
Variable cnt_bits : Z.

Lemma skl_notify_stream_update_bound s substream pos info a :
  vbe_find_substream_info (client_list s) substream = Some info ->
  info_pos_desc info = Some a ->
  skl_notify_stream_update cnt_bits substream pos s
  = Some (tt, after_position_update cnt_bits s substream a pos).
Proof.
  intros Hfind Hdesc.
  unfold skl_notify_stream_update, bind, get; simpl.
  rewrite Hfind, Hdesc.
  unfold after_position_update, position_update_steps, emit, set_shm, bind, get; simpl.
  rewrite shm_update_same; simpl.
  repeat rewrite <- app_assoc; simpl.
  reflexivity.
Qed.

Lemma skl_notify_stream_update_unbound s substream pos :
  (vbe_find_substream_info (client_list s) substream = None \/
   exists info, vbe_find_substream_info (client_list s) substream = Some info /\
                info_pos_desc info = None) ->
  skl_notify_stream_update cnt_bits substream pos s = Some (tt, s).
Proof.
  intros [Hnone | (info & Hfind & Hdesc)];
    unfold skl_notify_stream_update, bind, get; simpl.
  - now rewrite Hnone.
  - now rewrite Hfind, Hdesc.
Qed.

(** Every update leaves each counter alone or adds one to it. *)
Lemma skl_notify_stream_update_counter s substream pos :
  exists s', skl_notify_stream_update cnt_bits substream pos s = Some (tt, s') /\
    client_list s' = client_list s /\
    forall x, be_irq_cnt (shm s' x) = be_irq_cnt (shm s x) \/
              be_irq_cnt (shm s' x) = wrap cnt_bits (be_irq_cnt (shm s x) + 1).
Proof.
  destruct (vbe_find_substream_info (client_list s) substream) as [info|] eqn:Hfind.
  - destruct (info_pos_desc info) as [a|] eqn:Hdesc.
    + exists (after_position_update cnt_bits s substream a pos).
      split; [eapply skl_notify_stream_update_bound; eauto|].
      split; [reflexivity|].
      intros x. simpl.
      destruct (Z.eq_dec x a) as [->|Hne].
      * right. rewrite shm_update_same. reflexivity.
      * left. rewrite !shm_update_other by assumption. reflexivity.
    + exists s. split; [|split; [reflexivity | intros; now left]].
      apply skl_notify_stream_update_unbound. right. eauto.
  - exists s. split; [|split; [reflexivity | intros; now left]].
    apply skl_notify_stream_update_unbound. now left.
Qed.

Lemma vbe_stream_update_counter s hs pos :
  exists s', vbe_stream_update cnt_bits hs pos s = Some (tt, s') /\
    client_list s' = client_list s /\
    forall x, be_irq_cnt (shm s' x) = be_irq_cnt (shm s x) \/
              be_irq_cnt (shm s' x) = wrap cnt_bits (be_irq_cnt (shm s x) + 1).
Proof.
  unfold vbe_stream_update, bind.
  destruct hs as [substream|].
  - destruct (skl_notify_stream_update_counter s substream pos)
      as (s1 & Hrun & Hcl & Hcnt).
    rewrite Hrun. eexists. split; [reflexivity|]. simpl. auto.
  - eexists. split; [reflexivity|]. simpl. split; [reflexivity|]. intros; now left.
Qed.

Lemma vbe_stream_updates_counter irqs : forall s x,
  0 <= be_irq_cnt (shm s x) ->
  be_irq_cnt (shm s x) + Z.of_nat (length irqs) < 2 ^ cnt_bits ->
  exists s', vbe_stream_updates cnt_bits irqs s = Some (tt, s') /\
    be_irq_cnt (shm s x) <= be_irq_cnt (shm s' x)
      <= be_irq_cnt (shm s x) + Z.of_nat (length irqs).
Proof.
  induction irqs as [|[hs pos] rest IH]; intros s x Hlo Hhi.
  - exists s. split; [reflexivity|]. simpl. lia.
  - simpl vbe_stream_updates. unfold bind.
    destruct (vbe_stream_update_counter s hs pos) as (s1 & Hrun & _ & Hcnt).
    rewrite Hrun.
    assert (Hlen : Z.of_nat (length ((hs, pos) :: rest))
                   = Z.of_nat (length rest) + 1) by (simpl length; lia).
    rewrite Hlen in *.
    assert (Hstep : be_irq_cnt (shm s x) <= be_irq_cnt (shm s1 x)
                      <= be_irq_cnt (shm s x) + 1).
    { destruct (Hcnt x) as [-> | ->]; [lia|].
      unfold wrap. rewrite Z.mod_small by lia. lia. }
    destruct (IH s1 x) as (s' & Hrest & Hbounds); [lia | lia |].
    exists s'. split; [exact Hrest | lia].
Qed.

Lemma observable_position_update m0 substream a pos old :
  observable m0 (position_update_steps cnt_bits substream a pos old)
  = let m1 := shm_update a (set_hw_ptr (wrap cnt_bits pos)) m0 in
    let c1 := shm_update a (set_be_irq_cnt (wrap cnt_bits (old + 1))) m0 in
    let m2 := shm_update a (set_be_irq_cnt (wrap cnt_bits (old + 1))) m1 in
    [m0; m0; m1; m0; m2; m1; c1; m0; m2; m2].
Proof. reflexivity. Qed.

Lemma observable_when_signalled_position_update m0 substream a pos old :
  observable_when_signalled m0 [] (position_update_steps cnt_bits substream a pos old)
  = let m1 := shm_update a (set_hw_ptr (wrap cnt_bits pos)) m0 in
    let m2 := shm_update a (set_be_irq_cnt (wrap cnt_bits (old + 1))) m1 in
    [m2].
Proof. reflexivity. Qed.

(** C1 (amended).  For a stream with a bound position descriptor, one
    update reads the hardware pointer, stores it into hw_ptr, adds one to
    be_irq_cnt (modulo the counter width), issues the store barrier and
    only then raises the interrupt of the front end, in this order.  Both
    stores come before the barrier: a front end that has been signalled
    finds the new hw_ptr and the incremented counter.  Over any run of
    updates be_irq_cnt does not decrease as long as it does not wrap. *)
Theorem skl_notify_stream_update_ordered :
  (forall s substream pos info a,
      vbe_find_substream_info (client_list s) substream = Some info ->
      info_pos_desc info = Some a ->
      let old := be_irq_cnt (shm s a) in
      let steps := position_update_steps cnt_bits substream a pos old in
      exists s',
        skl_notify_stream_update cnt_bits substream pos s = Some (tt, s') /\
        trace s' = trace s ++ steps /\
        hw_ptr (shm s' a) = wrap cnt_bits pos /\
        be_irq_cnt (shm s' a) = wrap cnt_bits (old + 1) /\
        fe_irq_cnt (shm s' a) = fe_irq_cnt (shm s a) /\
        settled_when_signalled a (shm s) steps
          (wrap cnt_bits pos) (wrap cnt_bits (old + 1))) /\
  (forall irqs s x,
      0 <= be_irq_cnt (shm s x) ->
      be_irq_cnt (shm s x) + Z.of_nat (length irqs) < 2 ^ cnt_bits ->
      exists s',
        vbe_stream_updates cnt_bits irqs s = Some (tt, s') /\
        be_irq_cnt (shm s x) <= be_irq_cnt (shm s' x)).
Proof.
  split.
  - intros s substream pos info a Hfind Hdesc old steps.
    exists (after_position_update cnt_bits s substream a pos).
    split; [eapply skl_notify_stream_update_bound; eauto|].
    split; [reflexivity|].
    cbn [after_position_update shm]. rewrite !shm_update_same.
    cbn [hw_ptr be_irq_cnt fe_irq_cnt set_hw_ptr set_be_irq_cnt].
    split; [reflexivity|]. split; [reflexivity|]. split; [reflexivity|].
    intros m Hin. subst steps.
    rewrite observable_when_signalled_position_update in Hin.
    cbv zeta in Hin. destruct Hin as [<-|[]].
    rewrite !shm_update_same. split; reflexivity.
  - intros irqs s x Hlo Hhi.
    destruct (vbe_stream_updates_counter irqs s x Hlo Hhi) as (s' & Hrun & Hb).
    exists s'. split; [exact Hrun | lia].
Qed.
End PositionUpdateProps.

(** C1, as stated, fails on the driver: hw_ptr is stored before the
    counter and no barrier separates the two stores, so a reader can find
    the new hw_ptr (128) next to the old counter (0). *)
Lemma skl_notify_stream_update_hw_ptr_first :
  exists s',
    skl_notify_stream_update 64 pcm0_playback 128 vbe_one_session = Some (tt, s') /\
    ~ hw_ptr_never_before_counter 4096 (shm vbe_one_session) (trace s').
Proof.
  exists (after_position_update 64 vbe_one_session pcm0_playback 4096 128).
  split.
  { apply skl_notify_stream_update_bound with (info := mk_vbe_info "pcm0" 0 (Some 4096) 0);
      reflexivity. }
  intros H.
  apply (H (shm_update 4096 (set_hw_ptr 128) zero_shm)).
  - simpl. right. right. left. reflexivity.
  - rewrite shm_update_same. simpl. discriminate.
  - rewrite shm_update_same. reflexivity.
Qed.

(** Nor is the opposite order provided: before the barrier a reader can
    find the incremented counter (1) next to the old hw_ptr (0). *)
Lemma skl_notify_stream_update_counter_may_lead :
  exists s',
    skl_notify_stream_update 64 pcm0_playback 128 vbe_one_session = Some (tt, s') /\
    ~ counter_never_before_hw_ptr 4096 (shm vbe_one_session) (trace s') 128.
Proof.
  exists (after_position_update 64 vbe_one_session pcm0_playback 4096 128).
  split.
  { apply skl_notify_stream_update_bound with (info := mk_vbe_info "pcm0" 0 (Some 4096) 0);
      reflexivity. }
  intros H.
  assert (Hseen : hw_ptr (shm_update 4096 (set_be_irq_cnt 1) zero_shm 4096) = 128).
  { apply H.
    - simpl. do 6 right. left. reflexivity.
    - rewrite shm_update_same. simpl. discriminate. }
  rewrite shm_update_same in Hseen. simpl in Hseen. discriminate.
Qed.

Lemma skl_notify_stream_update_ordered_witness :
  (exists s',
      skl_notify_stream_update 64 pcm0_playback 128 vbe_one_session = Some (tt, s') /\
      hw_ptr (shm s' 4096) = 128 /\ be_irq_cnt (shm s' 4096) = 1 /\
      settled_when_signalled 4096 (shm vbe_one_session)
        (position_update_steps 64 pcm0_playback 4096 128 0) 128 1) /\
  (exists s',
      vbe_stream_updates 64 [(Some pcm0_playback, 128); (None, 0); (Some pcm0_playback, 256)]
        vbe_one_session = Some (tt, s') /\
      0 <= be_irq_cnt (shm s' 4096)).
Proof.
  destruct (skl_notify_stream_update_ordered 64) as [Hone Hmany].
  split.
  - destruct (Hone vbe_one_session pcm0_playback 128
                (mk_vbe_info "pcm0" 0 (Some 4096) 0) 4096 eq_refl eq_refl)
      as (s' & Hrun & _ & Hhw & Hcnt & _ & Hsettled).
    exists s'. split; [exact Hrun|]. split; [exact Hhw|].
    split; [exact Hcnt | exact Hsettled].
  - destruct (Hmany [(Some pcm0_playback, 128); (None, 0); (Some pcm0_playback, 256)]
                vbe_one_session 4096) as (s' & Hrun & Hle).
    + simpl. lia.
    + simpl. lia.
    + exists s'. split; [exact Hrun | exact Hle].
Defined.

(** ** Position updates on the front end *)

Section PositionHandlerProps.
Variable env : vfe_env.
Variable cnt_bits : Z.

Lemma vfe_cmd_handle_rx_one_update s info pd :
  vfe_pos_desc info = Some pd ->
  needs_update info (fe_shm s pd) = true ->
  vfe_cmd_handle_rx_one env cnt_bits info s
  = Some (tt, mk_vfe (shm_update pd (set_fe_irq_cnt (be_irq_cnt (fe_shm s pd))) (fe_shm s))
                (fe_substr_info_list s) (not_tx_vq s) (not_tx_used s)
                (expired_msg_list s) (caller_rx s) (completed s) (next_id s)
                (fe_trace s ++ position_update_events env cnt_bits info (fe_shm s pd))).
Proof.
  intros Hpd Hneed.
  unfold needs_update in Hneed.
  apply andb_prop in Hneed as [Hneed Hlock].
  apply andb_prop in Hneed as [Hneed Hcnt].
  apply andb_prop in Hneed as [Hopen Hrun].
  apply negb_true_iff in Hcnt, Hlock.
  unfold vfe_cmd_handle_rx_one, position_update_events, bind, get.
  rewrite Hopen, Hrun, Hpd, Hcnt, Hlock. simpl.
  destruct (1 <? irq_diff cnt_bits (fe_shm s pd));
    unfold fe_emit, set_fe_shm, ret, bind, get; simpl;
    rewrite shm_update_same;
    destruct (period_elapsed_ret env info _ <? 0); simpl;
    try destruct (queue_work_ret env _); simpl;
    repeat rewrite <- app_assoc; simpl; reflexivity.
Qed.

Lemma vfe_cmd_handle_rx_one_skip s info :
  (forall pd, vfe_pos_desc info = Some pd -> needs_update info (fe_shm s pd) = false) ->
  vfe_cmd_handle_rx_one env cnt_bits info s = Some (tt, s).
Proof.
  intros Hskip.
  unfold vfe_cmd_handle_rx_one, bind, get.
  destruct (vfe_open info) eqn:Hopen; [|reflexivity].
  destruct (vfe_running info) eqn:Hrun; [|reflexivity].
  destruct (vfe_pos_desc info) as [pd|] eqn:Hpd; [|reflexivity].
  specialize (Hskip pd eq_refl). unfold needs_update in Hskip.
  rewrite Hopen, Hrun in Hskip. simpl in Hskip.
  destruct (be_irq_cnt (fe_shm s pd) =? fe_irq_cnt (fe_shm s pd)); [reflexivity|].
  destruct (vfe_locked info); [reflexivity | discriminate].
Qed.

(** The observed gap is the distance of the counters while that is
    below 2^31. *)
Lemma irq_diff_small d :
  32 <= cnt_bits ->
  0 <= be_irq_cnt d - fe_irq_cnt d < 2 ^ 31 ->
  irq_diff cnt_bits d = be_irq_cnt d - fe_irq_cnt d.
Proof.
  intros Hbits Hgap. unfold irq_diff, wrap.
  assert (2 ^ 32 <= 2 ^ cnt_bits) by (apply Z.pow_le_mono_r; lia).
  rewrite Z.mod_small by lia.
  apply to_int_small. lia.
Qed.

Lemma position_update_events_missed info d :
  existsb is_missed_warning (position_update_events env cnt_bits info d)
  = (1 <? irq_diff cnt_bits d).
Proof.
  unfold position_update_events.
  destruct (1 <? irq_diff cnt_bits d); simpl;
    (destruct (period_elapsed_ret env info (set_fe_irq_cnt (be_irq_cnt d) d) <? 0);
     simpl; [destruct (queue_work_ret env (vfe_pcm_id info, vfe_direction info))|]);
    reflexivity.
Qed.

Lemma position_update_events_elapsed info d :
  In (FePeriodElapsed (vfe_pcm_id info, vfe_direction info))
     (position_update_events env cnt_bits info d).
Proof.
  unfold position_update_events.
  apply in_or_app. right. simpl. now left.
Qed.

(** One round of the loop, whatever the session. *)
Lemma vfe_cmd_handle_rx_one_frame s info :
  exists s' evs,
    vfe_cmd_handle_rx_one env cnt_bits info s = Some (tt, s') /\
    fe_trace s' = fe_trace s ++ evs /\
    (forall x, vfe_pos_desc info <> Some x -> fe_shm s' x = fe_shm s x) /\
    (forall pd, vfe_pos_desc info = Some pd ->
       if needs_update info (fe_shm s pd)
       then fe_shm s' pd = set_fe_irq_cnt (be_irq_cnt (fe_shm s pd)) (fe_shm s pd) /\
            evs = position_update_events env cnt_bits info (fe_shm s pd)
       else s' = s).
Proof.
  destruct (vfe_pos_desc info) as [pd|] eqn:Hpd.
  - destruct (needs_update info (fe_shm s pd)) eqn:Hneed.
    + eexists _, _. split; [apply vfe_cmd_handle_rx_one_update; eassumption|].
      simpl. split; [reflexivity|]. split.
      * intros x Hx. apply shm_update_other. congruence.
      * intros pd' [= <-]. rewrite Hneed, shm_update_same. split; reflexivity.
    + exists s, []. split.
      { apply vfe_cmd_handle_rx_one_skip. rewrite Hpd. intros pd' [= <-]. exact Hneed. }
      split; [now rewrite app_nil_r|]. split; [reflexivity|].
      intros pd' [= <-]. now rewrite Hneed.
  - exists s, []. split.
    { apply vfe_cmd_handle_rx_one_skip. rewrite Hpd. discriminate. }
    split; [now rewrite app_nil_r|]. split; [reflexivity | discriminate].
Qed.

Lemma vfe_cmd_handle_rx_list_spec l : forall s,
  NoDup (omap vfe_pos_desc l) ->
  exists s' evs,
    vfe_cmd_handle_rx_list env cnt_bits l s = Some (tt, s') /\
    fe_trace s' = fe_trace s ++ evs /\
    (forall x, x ∉ omap vfe_pos_desc l -> fe_shm s' x = fe_shm s x) /\
    (forall info pd, info ∈ l -> vfe_pos_desc info = Some pd ->
       if needs_update info (fe_shm s pd)
       then fe_shm s' pd = set_fe_irq_cnt (be_irq_cnt (fe_shm s pd)) (fe_shm s pd) /\
            exists pre post,
              evs = pre ++ position_update_events env cnt_bits info (fe_shm s pd) ++ post
       else fe_shm s' pd = fe_shm s pd).
Proof.
  induction l as [|info0 rest IH]; intros s Hnodup.
  - exists s, []. split; [reflexivity|]. split; [now rewrite app_nil_r|].
    split; [reflexivity|]. intros info pd Hin. inversion Hin.
  - simpl vfe_cmd_handle_rx_list. unfold bind.
    destruct (vfe_cmd_handle_rx_one_frame s info0) as (s1 & evs1 & Hrun1 & Htr1 & Hoth1 & Hown1).
    rewrite Hrun1.
    assert (Hnodup' : NoDup (omap vfe_pos_desc rest)).
    { simpl in Hnodup. destruct (vfe_pos_desc info0); [|exact Hnodup].
      now apply NoDup_cons in Hnodup as [_ ?]. }
    destruct (IH s1 Hnodup') as (s' & evs2 & Hrun2 & Htr2 & Hoth2 & Hown2).
    exists s', (evs1 ++ evs2). split; [exact Hrun2|].
    split; [rewrite Htr2, Htr1; now rewrite app_assoc|].
    split.
    + intros x Hx. simpl in Hx.
      rewrite Hoth2.
      * apply Hoth1. intros Heq. rewrite Heq in Hx. apply Hx. now left.
      * destruct (vfe_pos_desc info0); [|exact Hx].
        intros Hin. apply Hx. now right.
    + intros info pd Hin Hpd.
      apply elem_of_cons in Hin as [-> | Hin].
      * (* the head session *)
        assert (Hfresh : pd ∉ omap vfe_pos_desc rest).
        { simpl in Hnodup. rewrite Hpd in Hnodup.
          now apply NoDup_cons in Hnodup as [? _]. }
        specialize (Hown1 pd Hpd). rewrite (Hoth2 pd Hfresh).
        destruct (needs_update info0 (fe_shm s pd)).
        -- destruct Hown1 as [Hshm Hevs]. split; [exact Hshm|].
           exists [], evs2. simpl. now rewrite Hevs.
        -- now subst s1.
      * (* a later session: the head left its descriptor alone *)
        assert (Hne : vfe_pos_desc info0 <> Some pd).
        { intros Heq. simpl in Hnodup. rewrite Heq in Hnodup.
          apply NoDup_cons in Hnodup as [Hnotin _]. apply Hnotin.
          apply list_elem_of_omap. exists info. split; assumption. }
        specialize (Hown2 info pd Hin Hpd).
        rewrite (Hoth1 pd Hne) in Hown2.
        destruct (needs_update info (fe_shm s pd)); [|exact Hown2].
        destruct Hown2 as [Hshm (pre & post & Hevs)]. split; [exact Hshm|].
        exists (evs1 ++ pre), post. rewrite Hevs. now rewrite <- app_assoc.
Qed.
(** One round of the loop, exactly. *)
Lemma vfe_cmd_handle_rx_one_exact s info :
  exists s',
    vfe_cmd_handle_rx_one env cnt_bits info s = Some (tt, s') /\
    fe_trace s' = fe_trace s ++ session_events env cnt_bits (fe_shm s) info /\
    fe_substr_info_list s' = fe_substr_info_list s /\
    (forall x, vfe_pos_desc info <> Some x -> fe_shm s' x = fe_shm s x) /\
    (forall pd, vfe_pos_desc info = Some pd ->
       fe_shm s' pd
       = if needs_update info (fe_shm s pd)
         then set_fe_irq_cnt (be_irq_cnt (fe_shm s pd)) (fe_shm s pd)
         else fe_shm s pd).
Proof.
  unfold session_events.
  destruct (vfe_pos_desc info) as [pd|] eqn:Hpd.
  - destruct (needs_update info (fe_shm s pd)) eqn:Hneed.
    + eexists. split; [apply vfe_cmd_handle_rx_one_update; eassumption|].
      cbn [fe_trace fe_substr_info_list fe_shm].
      split; [reflexivity|]. split; [reflexivity|]. split.
      * intros x Hx. apply shm_update_other. congruence.
      * intros pd' [= <-]. rewrite Hneed. apply shm_update_same.
    + exists s. split.
      { apply vfe_cmd_handle_rx_one_skip. rewrite Hpd. intros pd' [= <-]. exact Hneed. }
      split; [now rewrite app_nil_r|]. split; [reflexivity|].
      split; [reflexivity|]. intros pd' [= <-]. now rewrite Hneed.
  - exists s. split.
    { apply vfe_cmd_handle_rx_one_skip. rewrite Hpd. discriminate. }
    split; [now rewrite app_nil_r|]. split; [reflexivity|].
    split; [reflexivity | discriminate].
Qed.

Lemma session_events_same_descriptor m m' info :
  (forall pd, vfe_pos_desc info = Some pd -> m' pd = m pd) ->
  session_events env cnt_bits m' info = session_events env cnt_bits m info.
Proof.
  intros Hsame. unfold session_events.
  destruct (vfe_pos_desc info) as [pd|]; [|reflexivity].
  now rewrite (Hsame pd eq_refl).
Qed.

(** The whole loop: every session contributes its own events, in list
    order, and nothing else is logged or called. *)
Lemma vfe_cmd_handle_rx_list_exact l : forall s,
  NoDup (omap vfe_pos_desc l) ->
  exists s',
    vfe_cmd_handle_rx_list env cnt_bits l s = Some (tt, s') /\
    fe_trace s' = fe_trace s ++ flat_map (session_events env cnt_bits (fe_shm s)) l /\
    fe_substr_info_list s' = fe_substr_info_list s /\
    (forall x, x ∉ omap vfe_pos_desc l -> fe_shm s' x = fe_shm s x) /\
    (forall info pd, info ∈ l -> vfe_pos_desc info = Some pd ->
       fe_shm s' pd
       = if needs_update info (fe_shm s pd)
         then set_fe_irq_cnt (be_irq_cnt (fe_shm s pd)) (fe_shm s pd)
         else fe_shm s pd).
Proof.
  induction l as [|info0 rest IH]; intros s Hnodup.
  - exists s. split; [reflexivity|]. split; [now rewrite app_nil_r|].
    split; [reflexivity|]. split; [reflexivity|].
    intros info pd Hin. inversion Hin.
  - destruct (vfe_cmd_handle_rx_one_exact s info0)
      as (s1 & Hrun1 & Htr1 & Hlist1 & Hoth1 & Hown1).
    assert (Hnodup' : NoDup (omap vfe_pos_desc rest)).
    { simpl in Hnodup. destruct (vfe_pos_desc info0); [|exact Hnodup].
      now apply NoDup_cons in Hnodup as [_ ?]. }
    assert (Hapart : forall info pd, info ∈ rest -> vfe_pos_desc info = Some pd ->
                       vfe_pos_desc info0 <> Some pd).
    { intros info pd Hin Hpd Heq. simpl in Hnodup. rewrite Heq in Hnodup.
      apply NoDup_cons in Hnodup as [Hnotin _]. apply Hnotin.
      apply list_elem_of_omap. exists info. split; assumption. }
    destruct (IH s1 Hnodup') as (s' & Hrun2 & Htr2 & Hlist2 & Hoth2 & Hown2).
    exists s'. split.
    { cbn [vfe_cmd_handle_rx_list]. unfold bind. rewrite Hrun1. exact Hrun2. }
    split.
    { rewrite Htr2, Htr1. cbn [flat_map]. rewrite <- app_assoc. do 2 f_equal.
      rewrite !flat_map_concat_map. f_equal. apply map_ext_in.
      intros info Hin. apply session_events_same_descriptor.
      intros pd Hpd. apply Hoth1.
      apply (Hapart info pd); [now apply list_elem_of_In | exact Hpd]. }
    split; [congruence|].
    split.
    + intros x Hx. simpl in Hx.
      rewrite Hoth2.
      * apply Hoth1. intros Heq. rewrite Heq in Hx. apply Hx. now left.
      * destruct (vfe_pos_desc info0); [|exact Hx].
        intros Hin. apply Hx. now right.
    + intros info pd Hin Hpd.
      apply elem_of_cons in Hin as [-> | Hin].
      * assert (Hfresh : pd ∉ omap vfe_pos_desc rest).
        { simpl in Hnodup. rewrite Hpd in Hnodup.
          now apply NoDup_cons in Hnodup as [? _]. }
        rewrite (Hoth2 pd Hfresh). now apply Hown1.
      * rewrite (Hown2 info pd Hin Hpd).
        now rewrite (Hoth1 pd (Hapart info pd Hin Hpd)).
Qed.

Lemma vfe_cmd_handle_rx_exact s :
  NoDup (omap vfe_pos_desc (fe_substr_info_list s)) ->
  exists s',
    vfe_cmd_handle_rx env cnt_bits s = Some (tt, s') /\
    fe_trace s'
    = fe_trace s
      ++ FeRmb :: flat_map (session_events env cnt_bits (fe_shm s))
                    (fe_substr_info_list s) /\
    fe_substr_info_list s' = fe_substr_info_list s /\
    (forall x, x ∉ omap vfe_pos_desc (fe_substr_info_list s) ->
       fe_shm s' x = fe_shm s x) /\
    (forall info pd, info ∈ fe_substr_info_list s -> vfe_pos_desc info = Some pd ->
       fe_shm s' pd
       = if needs_update info (fe_shm s pd)
         then set_fe_irq_cnt (be_irq_cnt (fe_shm s pd)) (fe_shm s pd)
         else fe_shm s pd).
Proof.
  intros Hnodup.
  unfold vfe_cmd_handle_rx, bind, get, fe_emit. cbn [fe_substr_info_list].
  set (s0 := mk_vfe _ _ _ _ _ _ _ _ _).
  destruct (vfe_cmd_handle_rx_list_exact (fe_substr_info_list s) s0 Hnodup)
    as (s' & Hrun & Htr & Hlist & Hoth & Hown).
  exists s'. split; [exact Hrun|].
  split; [rewrite Htr; subst s0; simpl; now rewrite <- app_assoc|].
  split; [exact Hlist|]. split; [exact Hoth | exact Hown].
Qed.

(** What the handler logs and calls for a session it updates: the warning
    when its gap exceeds 1, the period-elapsed call once, and the events of
    the recovery when that call fails. *)
Lemma position_update_events_shape info d :
  exists recovery,
    position_update_events env cnt_bits info d
    = (if 1 <? irq_diff cnt_bits d
       then [FeWarnMissed (irq_diff cnt_bits d) (vfe_pcm_id info)] else [])
      ++ FePeriodElapsed (vfe_pcm_id info, vfe_direction info) :: recovery /\
    forallb is_recovery_event recovery = true.
Proof.
  unfold position_update_events.
  eexists. split; [reflexivity|].
  destruct (period_elapsed_ret env info (set_fe_irq_cnt (be_irq_cnt d) d) <? 0);
    [|reflexivity].
  destruct (queue_work_ret env (vfe_pcm_id info, vfe_direction info)); reflexivity.
Qed.
End PositionHandlerProps.




(** ** Requests that time out on the front end *)

Lemma find_msg_app_fresh l m id :
  Forall (fun x => msg_id x <> id) l -> msg_id m = id ->
  find_msg (l ++ [m]) id = Some m.
Proof.
  intros Hl <-. induction Hl as [|x l Hx _ IH]; simpl.
  - now rewrite Z.eqb_refl.
  - apply Z.eqb_neq in Hx. now rewrite Hx.
Qed.

Lemma remove_msg_app_fresh l m id :
  Forall (fun x => msg_id x <> id) l -> msg_id m = id ->
  remove_msg (l ++ [m]) id = l.
Proof.
  intros Hl <-. induction Hl as [|x l Hx _ IH]; simpl.
  - now rewrite Z.eqb_refl.
  - apply Z.eqb_neq in Hx. rewrite Hx. now f_equal.
Qed.

Lemma update_msg_app_fresh l m id f :
  Forall (fun x => msg_id x <> id) l -> msg_id m = id ->
  update_msg (l ++ [m]) id f = l ++ [f m].
Proof.
  intros Hl <-. induction Hl as [|x l Hx _ IH]; simpl.
  - now rewrite Z.eqb_refl.
  - apply Z.eqb_neq in Hx. rewrite Hx. now f_equal.
Qed.

Lemma bind_run {S A B} (c : St S A) (k : A -> St S B) s a s' :
  c s = Some (a, s') -> bind c k s = k a s'.
Proof. intros H. unfold bind. now rewrite H. Qed.

Ltac fe_fields :=
  cbn [fe_shm fe_substr_info_list not_tx_vq not_tx_used expired_msg_list
       caller_rx completed next_id fe_trace].
Ltac fe_fields_in H :=
  cbn [fe_shm fe_substr_info_list not_tx_vq not_tx_used expired_msg_list
       caller_rx completed next_id fe_trace] in H.

(** The reply of the device as it sits in the request afterwards. *)
Lemma device_returns_last s l m id rx :
  not_tx_vq s = l ++ [m] ->
  Forall (fun x => msg_id x <> id) l -> msg_id m = id ->
  device_returns id rx s
  = Some (tt, mk_vfe (fe_shm s) (fe_substr_info_list s) l
                (not_tx_used s ++ [match msg_rx_buf m with
                                   | Some _ => set_msg_rx_buf (Some rx) m
                                   | None => m
                                   end])
                (expired_msg_list s) (caller_rx s) (completed s) (next_id s)
                (fe_trace s)).
Proof.
  intros Hvq Hfresh Hid.
  unfold device_returns, bind, get. rewrite Hvq.
  rewrite (find_msg_app_fresh l m id Hfresh Hid).
  unfold set_not_tx_vq, set_not_tx_used. fe_fields.
  rewrite (remove_msg_app_fresh l m id Hfresh Hid). reflexivity.
Qed.

(** A request whose status is TimedOut goes to the expired list: nothing
    is copied to the caller and nobody is woken. *)
Lemma vfe_tx_message_one_timed_out s m :
  msg_status m = VFE_MSG_TIMED_OUT ->
  vfe_tx_message_one m s
  = Some (tt, mk_vfe (fe_shm s) (fe_substr_info_list s) (not_tx_vq s) (not_tx_used s)
                (expired_msg_list s ++ [m]) (caller_rx s) (completed s) (next_id s)
                (fe_trace s ++ [FeScheduleWork msg_timeout_work])).
Proof.
  intros Hst. unfold vfe_tx_message_one. rewrite Hst. reflexivity.
Qed.

Lemma vfe_tx_message_loop_single s m :
  not_tx_used s = [m] ->
  vfe_tx_message_loop s
  = vfe_tx_message_one m
      (mk_vfe (fe_shm s) (fe_substr_info_list s) (not_tx_vq s) []
              (expired_msg_list s) (caller_rx s) (completed s) (next_id s) (fe_trace s)).
Proof.
  intros Hused.
  unfold vfe_tx_message_loop, bind at 1, get at 1. rewrite Hused. simpl length.
  unfold tx_message_loop, bind at 1, get at 1. rewrite Hused.
  unfold bind at 1, set_not_tx_used at 1.
  unfold bind. destruct (vfe_tx_message_one m _) as [[[] s']|]; reflexivity.
Qed.

Section TimeoutProps.
Variable env : vfe_env.

(** The state a request leaves when nobody answers before its deadline. *)
Lemma vfe_send_msg_with_timeout_expires s hdr tx buf rx_size timeout :
  timeout <> 0 ->
  msg_alloc_ok env = true ->
  0 <= virtqueue_add_ret env ->
  Forall (fun m => msg_id m <> next_id s) (not_tx_vq s) ->
  peer_reply env (stamp_header env hdr) tx = None ->
  let id := next_id s in
  let msg := new_request id (stamp_header env hdr) tx (Some buf) rx_size in
  vfe_send_msg_with_timeout env (Some hdr) tx (Some buf) rx_size timeout s
  = Some ((- ETIMEDOUT, id),
          mk_vfe (fe_shm s) (fe_substr_info_list s)
            (not_tx_vq s ++ [set_msg_status VFE_MSG_TIMED_OUT msg])
            (not_tx_used s) (expired_msg_list s)
            (<[id := buf]> (caller_rx s)) (completed s ∖ {[ id ]}) (next_id s + 1)
            (fe_trace s ++ [FeSent msg; FeWarn "Response from backend timed out"])).
Proof.
  intros Htimeout Halloc Hadd Hfresh Hpeer id msg.
  assert (Hneg : (virtqueue_add_ret env <? 0) = false) by (apply Z.ltb_ge; lia).
  apply Z.eqb_neq in Htimeout.
  unfold vfe_send_msg_with_timeout, vfe_wait_for_msg_response,
    bind, get, fresh_id, set_caller_rx, set_completed, set_not_tx_vq, fe_emit, ret.
  rewrite Halloc, Hneg, Hpeer, Htimeout.
  cbn [negb fe_shm fe_substr_info_list not_tx_vq not_tx_used expired_msg_list
       caller_rx completed next_id fe_trace].
  fold id. fold msg.
  destruct (decide (id ∈ completed s ∖ {[id]})) as [Hin|Hnotin].
  { apply elem_of_difference in Hin as [_ Hin]. exfalso. apply Hin.
    now apply elem_of_singleton. }
  change (- ETIMEDOUT <? 0) with true.
  cbn [fe_shm fe_substr_info_list not_tx_vq not_tx_used expired_msg_list
       caller_rx completed next_id fe_trace].
  rewrite (update_msg_app_fresh (not_tx_vq s) msg id) by (exact Hfresh || reflexivity).
  rewrite <- app_assoc. reflexivity.
Qed.

(** The state a request leaves when the peer answers in time. *)
Lemma vfe_send_msg_with_timeout_answered s hdr tx buf rx rx_size timeout :
  msg_alloc_ok env = true ->
  0 <= virtqueue_add_ret env ->
  not_tx_used s = [] ->
  Forall (fun m => msg_id m <> next_id s) (not_tx_vq s) ->
  peer_reply env (stamp_header env hdr) tx = Some rx ->
  let id := next_id s in
  let msg := new_request id (stamp_header env hdr) tx (Some buf) rx_size in
  vfe_send_msg_with_timeout env (Some hdr) tx (Some buf) rx_size timeout s
  = Some ((0, id),
          mk_vfe (fe_shm s) (fe_substr_info_list s) (not_tx_vq s) []
            (expired_msg_list s)
            (<[id := rx]> (<[id := buf]> (caller_rx s)))
            ({[ id ]} ∪ completed s ∖ {[ id ]}) (next_id s + 1)
            (fe_trace s ++ [FeSent msg; FeCopyBack id rx; FeWake id])).
Proof.
  intros Halloc Hadd Hused Hfresh Hpeer id msg.
  assert (Hneg : (virtqueue_add_ret env <? 0) = false) by (apply Z.ltb_ge; lia).
  unfold vfe_send_msg_with_timeout.
  rewrite Halloc, Hneg, Hpeer. cbn [negb].
  unfold bind at 1, fresh_id at 1. unfold bind at 1, get at 1.
  unfold bind at 1. unfold bind at 1, set_caller_rx at 1, set_completed at 1.
  fe_fields. fold id.
  unfold bind at 1, get at 1. unfold bind at 1, set_not_tx_vq at 1.
  unfold bind at 1, fe_emit at 1. fe_fields. fold msg.
  unfold bind at 1. unfold bind at 1.
  erewrite device_returns_last;
    [| fe_fields; reflexivity | exact Hfresh | reflexivity].
  fe_fields. rewrite Hused. subst msg. unfold new_request. cbn [app msg_rx_buf].
  erewrite vfe_tx_message_loop_single by (fe_fields; reflexivity).
  fe_fields.
  unfold vfe_tx_message_one, set_msg_rx_buf.
  cbn [msg_status msg_rx_buf msg_rx_data msg_waiter msg_id msg_header msg_tx_buf
       msg_rx_size].
  unfold bind, get, set_caller_rx, set_completed, fe_emit, ret. fe_fields.
  unfold vfe_wait_for_msg_response, bind, get, ret. fe_fields.
  destruct (decide (id ∈ {[id]} ∪ completed s ∖ {[id]})) as [Hin|Hnotin];
    [|exfalso; apply Hnotin; apply elem_of_union; left; now apply elem_of_singleton].
  destruct (timeout =? 0); cbn [Z.ltb Z.compare];
    repeat rewrite <- app_assoc; reflexivity.
Qed.

(** With a deadline every request returns, answered or not, and the
    request is on the queue. *)
Lemma vfe_send_msg_with_timeout_returns s hdr tx buf rx_size timeout :
  timeout <> 0 ->
  msg_alloc_ok env = true ->
  0 <= virtqueue_add_ret env ->
  not_tx_used s = [] ->
  Forall (fun m => msg_id m < next_id s) (not_tx_vq s) ->
  exists r s' evs,
    vfe_send_msg_with_timeout env (Some hdr) tx (Some buf) rx_size timeout s
    = Some ((r, next_id s), s') /\
    fe_trace s'
    = fe_trace s
      ++ (FeSent (new_request (next_id s) (stamp_header env hdr) tx (Some buf) rx_size)
      :: evs) /\
    fe_substr_info_list s' = fe_substr_info_list s /\
    expired_msg_list s' = expired_msg_list s /\
    not_tx_used s' = [] /\
    next_id s' = next_id s + 1 /\
    Forall (fun m => msg_id m < next_id s') (not_tx_vq s') /\
    is_Some (caller_rx s' !! next_id s) /\
    (forall a, a <> next_id s -> caller_rx s' !! a = caller_rx s !! a).
Proof.
  intros Htimeout Halloc Hadd Hused Hfresh.
  assert (Hfresh' : Forall (fun m => msg_id m <> next_id s) (not_tx_vq s)).
  { eapply Forall_impl; [exact Hfresh|]. simpl. intros; lia. }
  assert (Hfresh1 : Forall (fun m => msg_id m < next_id s + 1) (not_tx_vq s)).
  { eapply Forall_impl; [exact Hfresh|]. simpl. intros; lia. }
  destruct (peer_reply env (stamp_header env hdr) tx) as [rx|] eqn:Hpeer.
  - eexists _, _, _. split.
    { apply vfe_send_msg_with_timeout_answered; eassumption. }
    fe_fields. repeat split; try reflexivity; try assumption.
    + rewrite lookup_insert_eq. eauto.
    + intros a Ha. rewrite !lookup_insert_ne by congruence. reflexivity.
  - eexists _, _, _. split.
    { apply vfe_send_msg_with_timeout_expires; eassumption. }
    fe_fields. repeat split; try reflexivity; try assumption.
    + apply Forall_app. split; [exact Hfresh1|].
      apply Forall_singleton. simpl. lia.
    + rewrite lookup_insert_eq. eauto.
    + intros a Ha. rewrite lookup_insert_ne by congruence. reflexivity.
Qed.

Lemma find_pcm_id_eq l n pcm : find_pcm_id l n = Some pcm -> pcm = n.
Proof.
  induction l as [|id rest IH]; simpl; [discriminate|].
  unfold pcm_id_eqb. destruct (String.eqb id n) eqn:E.
  - intros [= <-]. now apply String.eqb_eq.
  - exact IH.
Qed.

Lemma vfe_skl_find_pcm_by_name_valid n pcm :
  vfe_skl_find_pcm_by_name env n = Some pcm ->
  pcm = n /\ vfe_is_valid_pcm_id n = 0.
Proof.
  unfold vfe_skl_find_pcm_by_name, vfe_is_valid_pcm_id.
  destruct ((String.length n =? 0)%nat || String.eqb n "((null))").
  - discriminate.
  - simpl. intros H. split; [eapply find_pcm_id_eq; eauto | reflexivity].
Qed.

(** vfe_pcm_close on a valid substream: the session is marked closed and
    a Close request goes to the back end. *)
Lemma vfe_pcm_close_sends s key :
  vfe_is_valid_fe_substream key = 0 ->
  VFE_MSG_MSEC_TIMEOUT env <> 0 ->
  msg_alloc_ok env = true ->
  0 <= virtqueue_add_ret env ->
  not_tx_used s = [] ->
  Forall (fun m => msg_id m < next_id s) (not_tx_vq s) ->
  exists r s' evs,
    vfe_pcm_close env key s = Some (r, s') /\
    fe_trace s'
    = fe_trace s
      ++ (FeSent (new_request (next_id s)
                   (stamp_header env (vfe_fill_pcm_msg_header VFE_MSG_PCM_CLOSE key))
                   (Some (stack_garbage env)) (Some (stack_garbage env))
                   sizeof_vfe_pcm_result)
      :: evs) /\
    expired_msg_list s' = expired_msg_list s /\
    (forall a, a <> next_id s -> caller_rx s' !! a = caller_rx s !! a).
Proof.
  intros Hvalid Htimeout Halloc Hadd Hused Hfresh.
  unfold vfe_pcm_close. rewrite Hvalid. cbn [Z.eqb negb].
  unfold bind at 1, vfe_update_info at 1, bind at 1, get at 1,
    set_fe_substr_info_list at 1.
  unfold vfe_send_msg.
  match goal with |- context [bind _ _ ?s0] =>
    destruct (vfe_send_msg_with_timeout_returns s0
                (vfe_fill_pcm_msg_header VFE_MSG_PCM_CLOSE key)
                (Some (stack_garbage env)) (stack_garbage env)
                sizeof_vfe_pcm_result (VFE_MSG_MSEC_TIMEOUT env))
      as (r & s' & evs & Hrun & Htr & _ & Hexp & _ & _ & _ & Hbuf & Hrx);
      try assumption
  end.
  fe_fields_in Htr. fe_fields_in Hexp. fe_fields_in Hbuf. fe_fields_in Hrx.
  destruct Hbuf as [b Hb].
  exists (if r <? 0 then r else hd 0 b), s', evs.
  split; [|repeat split; assumption].
  rewrite (bind_run _ _ _ _ _ Hrun). cbn [fst snd].
  destruct (r <? 0); [reflexivity|].
  unfold read_result, bind, get. fe_fields. now rewrite Hb.
Qed.

(** The timeout work for a single expired PCM Open: a Close follows. *)
Lemma vfe_not_tx_timeout_handler_open s m pcm :
  expired_msg_list s = [m] ->
  cmd (msg_header m) = VFE_MSG_PCM_OPEN ->
  vfe_skl_find_pcm_by_name env (desc_pcm_id (msg_header m)) = Some pcm ->
  fe_has_substream env (pcm, desc_direction (msg_header m)) = true ->
  VFE_MSG_MSEC_TIMEOUT env <> 0 ->
  msg_alloc_ok env = true ->
  0 <= virtqueue_add_ret env ->
  not_tx_used s = [] ->
  Forall (fun x => msg_id x < next_id s) (not_tx_vq s) ->
  exists s' evs,
    vfe_not_tx_timeout_handler env s = Some (tt, s') /\
    expired_msg_list s' = [] /\
    fe_trace s'
    = fe_trace s
      ++ (FeSent (new_request (next_id s)
                   (stamp_header env
                      (vfe_fill_pcm_msg_header VFE_MSG_PCM_CLOSE
                         (pcm, desc_direction (msg_header m))))
                   (Some (stack_garbage env)) (Some (stack_garbage env))
                   sizeof_vfe_pcm_result)
      :: evs) /\
    (forall a, a <> next_id s -> caller_rx s' !! a = caller_rx s !! a).
Proof.
  intros Hexp Hcmd Hfind Hsub Htimeout Halloc Hadd Hused Hfresh.
  destruct (vfe_skl_find_pcm_by_name_valid _ _ Hfind) as [-> Hvalid].
  destruct (vfe_pcm_close_sends s
              (desc_pcm_id (msg_header m), desc_direction (msg_header m)))
    as (r & s1 & evs & Hrun & Htr & Hexp1 & Hrx); try assumption.
  unfold vfe_not_tx_timeout_handler, bind at 1, get at 1.
  rewrite Hexp. cbn [length not_tx_timeout_loop].
  unfold bind at 1, get at 1. rewrite Hexp.
  unfold vfe_handle_timedout_not_tx_msg, vfe_handle_timedout_pcm_msg.
  rewrite Hcmd. cbn [msg_class]. rewrite Hfind, Hsub.
  unfold bind at 1. unfold bind at 1. rewrite Hrun.
  unfold ret at 1. unfold bind at 1, get at 1.
  rewrite Hexp1, Hexp. cbn [remove_msg]. rewrite Z.eqb_refl.
  unfold bind, set_expired_msg_list, ret.
  eexists _, evs. split; [reflexivity|]. fe_fields.
  repeat split; assumption.
Qed.

(** Any other expired request is logged and dropped. *)
Lemma vfe_not_tx_timeout_handler_other s m :
  expired_msg_list s = [m] ->
  cmd (msg_header m) <> VFE_MSG_PCM_OPEN ->
  exists evs,
    vfe_not_tx_timeout_handler env s
    = Some (tt, mk_vfe (fe_shm s) (fe_substr_info_list s) (not_tx_vq s)
                  (not_tx_used s) [] (caller_rx s) (completed s) (next_id s)
                  (fe_trace s ++ evs)) /\
    Forall (fun e => exists w, e = FeWarn w) evs.
Proof.
  intros Hexp Hcmd.
  unfold vfe_not_tx_timeout_handler, bind at 1, get at 1.
  rewrite Hexp. cbn [length not_tx_timeout_loop].
  unfold bind at 1, get at 1. rewrite Hexp.
  unfold vfe_handle_timedout_not_tx_msg, vfe_handle_timedout_pcm_msg.
  assert (Hdone : forall evs,
    (s' <- get ;;
     set_expired_msg_list (remove_msg (expired_msg_list s') (msg_id m)) ;;
     ret tt)
      (mk_vfe (fe_shm s) (fe_substr_info_list s) (not_tx_vq s) (not_tx_used s)
         (expired_msg_list s) (caller_rx s) (completed s) (next_id s)
         (fe_trace s ++ evs))
    = Some (tt, mk_vfe (fe_shm s) (fe_substr_info_list s) (not_tx_vq s)
                  (not_tx_used s) [] (caller_rx s) (completed s) (next_id s)
                  (fe_trace s ++ evs))).
  { intros evs. unfold bind, get, set_expired_msg_list, ret. fe_fields.
    rewrite Hexp. cbn [remove_msg]. now rewrite Z.eqb_refl. }
  assert (Hwarn : forall w k,
    k = (fun _ : unit =>
           s' <- get ;;
           set_expired_msg_list (remove_msg (expired_msg_list s') (msg_id m)) ;;
           ret tt) ->
    exists evs,
      bind (fe_emit (FeWarn w)) k s
      = Some (tt, mk_vfe (fe_shm s) (fe_substr_info_list s) (not_tx_vq s)
                    (not_tx_used s) [] (caller_rx s) (completed s) (next_id s)
                    (fe_trace s ++ evs)) /\
      Forall (fun e => exists w, e = FeWarn w) evs).
  { intros w k ->. exists [FeWarn w]. split.
    - unfold bind at 1, fe_emit at 1. apply Hdone.
    - apply Forall_singleton. eauto. }
  assert (Hquiet : forall k,
    k = (fun _ : unit =>
           s' <- get ;;
           set_expired_msg_list (remove_msg (expired_msg_list s') (msg_id m)) ;;
           ret tt) ->
    exists evs,
      bind (ret tt) k s
      = Some (tt, mk_vfe (fe_shm s) (fe_substr_info_list s) (not_tx_vq s)
                    (not_tx_used s) [] (caller_rx s) (completed s) (next_id s)
                    (fe_trace s ++ evs)) /\
      Forall (fun e => exists w, e = FeWarn w) evs).
  { intros k ->. exists []. split; [|constructor].
    unfold bind at 1, ret at 1. specialize (Hdone []).
    rewrite app_nil_r in *. destruct s. exact Hdone. }
  destruct (msg_class (cmd (msg_header m))) eqn:Hclass;
    try (apply Hwarn; reflexivity).
  destruct (vfe_skl_find_pcm_by_name env (desc_pcm_id (msg_header m)));
    [|apply Hquiet; reflexivity].
  destruct (cmd (msg_header m)) eqn:Hc;
    try congruence; apply Hwarn; reflexivity.
Qed.
(** The lookup of the timeout work, from the data: a name that is valid
    and on the card is found; any other name is not. *)
Lemma find_pcm_id_found l n : n ∈ l -> find_pcm_id l n = Some n.
Proof.
  induction l as [|id rest IH]; intros Hin; [now apply elem_of_nil in Hin|].
  cbn [find_pcm_id]. unfold pcm_id_eqb.
  destruct (String.eqb id n) eqn:E.
  - apply String.eqb_eq in E. now subst.
  - apply elem_of_cons in Hin as [-> | Hin]; [|now apply IH].
    now rewrite String.eqb_refl in E.
Qed.

Lemma find_pcm_id_missing l n : n ∉ l -> find_pcm_id l n = None.
Proof.
  induction l as [|id rest IH]; intros Hout; [reflexivity|].
  apply not_elem_of_cons in Hout as [Hne Hout].
  cbn [find_pcm_id]. unfold pcm_id_eqb.
  destruct (String.eqb id n) eqn:E; [|now apply IH].
  apply String.eqb_eq in E. congruence.
Qed.

Lemma vfe_skl_find_pcm_by_name_found n :
  vfe_is_valid_pcm_id n = 0 -> n ∈ fe_rtd_list env ->
  vfe_skl_find_pcm_by_name env n = Some n.
Proof.
  intros Hvalid Hin. unfold vfe_skl_find_pcm_by_name. rewrite Hvalid.
  change (0 <? 0) with false. cbv iota. now apply find_pcm_id_found.
Qed.

Lemma vfe_skl_find_pcm_by_name_missing n :
  vfe_is_valid_pcm_id n <> 0 \/ n ∉ fe_rtd_list env ->
  vfe_skl_find_pcm_by_name env n = None.
Proof.
  intros Hcase. unfold vfe_skl_find_pcm_by_name.
  destruct (vfe_is_valid_pcm_id n <? 0) eqn:E; [reflexivity|].
  destruct Hcase as [Hinvalid | Hout]; [|now apply find_pcm_id_missing].
  exfalso. apply Hinvalid. unfold vfe_is_valid_pcm_id in *.
  destruct ((String.length n =? 0)%nat || String.eqb n "((null))");
    [discriminate | reflexivity].
Qed.

(** An expired PCM request whose PCM is not found is dropped without a
    word: nothing is sent and nothing is logged. *)
Lemma vfe_not_tx_timeout_handler_missing s m :
  expired_msg_list s = [m] ->
  msg_class (cmd (msg_header m)) = VFE_MSG_PCM ->
  vfe_skl_find_pcm_by_name env (desc_pcm_id (msg_header m)) = None ->
  vfe_not_tx_timeout_handler env s
  = Some (tt, mk_vfe (fe_shm s) (fe_substr_info_list s) (not_tx_vq s)
                (not_tx_used s) [] (caller_rx s) (completed s) (next_id s)
                (fe_trace s)).
Proof.
  intros Hexp Hclass Hfind.
  unfold vfe_not_tx_timeout_handler, bind at 1, get at 1.
  rewrite Hexp. cbn [length not_tx_timeout_loop].
  unfold bind at 1, get at 1. rewrite Hexp.
  unfold vfe_handle_timedout_not_tx_msg, vfe_handle_timedout_pcm_msg.
  rewrite Hclass, Hfind.
  unfold bind, get, set_expired_msg_list, ret. fe_fields.
  rewrite Hexp. cbn [remove_msg]. now rewrite Z.eqb_refl.
Qed.
End TimeoutProps.

(** C3.  A request with a deadline that the peer has not answered by then
    is tagged TimedOut and its caller gets -ETIMEDOUT; when the completion
    arrives afterwards nothing is copied to the caller and nobody is woken:
    the request goes to the expired list, and the timeout work then runs the
    compensation of its opcode only.  For a late PCM Open of a named PCM of
    the card that is a Close request for the same substream; a PCM Open
    naming no PCM of the card is dropped with nothing sent, and anything
    else gets at most a log entry. *)
Theorem vfe_timed_out_request_is_compensated (env : vfe_env) (s : vfe_state)
    (hdr : vfe_msg_header) (tx : option (list Z)) (buf : list Z)
    (rx_size timeout : Z) (late_rx : list Z) :
  timeout <> 0 ->
  msg_alloc_ok env = true ->
  0 <= virtqueue_add_ret env ->
  not_tx_used s = [] ->
  expired_msg_list s = [] ->
  Forall (fun m => msg_id m < next_id s) (not_tx_vq s) ->
  peer_reply env (stamp_header env hdr) tx = None ->
  let id := next_id s in
  let msg := set_msg_status VFE_MSG_TIMED_OUT
               (new_request id (stamp_header env hdr) tx (Some buf) rx_size) in
  exists s1 s3,
    (* at the deadline *)
    vfe_send_msg_with_timeout env (Some hdr) tx (Some buf) rx_size timeout s
    = Some ((- ETIMEDOUT, id), s1) /\
    find_msg (not_tx_vq s1) id = Some msg /\
    caller_rx s1 !! id = Some buf /\
    (* the completion arrives late *)
    (device_returns id late_rx ;; vfe_tx_message_loop) s1 = Some (tt, s3) /\
    caller_rx s3 = caller_rx s1 /\
    completed s3 = completed s1 /\
    (id ∉ completed s3) /\
    expired_msg_list s3 = [set_msg_rx_buf (Some late_rx) msg] /\
    fe_trace s3 = fe_trace s1 ++ [FeScheduleWork msg_timeout_work] /\
    (* the compensation: a late Open of a PCM of the card is closed *)
    (cmd hdr = VFE_MSG_PCM_OPEN ->
     vfe_is_valid_pcm_id (desc_pcm_id hdr) = 0 ->
     desc_pcm_id hdr ∈ fe_rtd_list env ->
     fe_has_substream env (desc_pcm_id hdr, desc_direction hdr) = true ->
     VFE_MSG_MSEC_TIMEOUT env <> 0 ->
     exists s4 evs,
       vfe_not_tx_timeout_handler env s3 = Some (tt, s4) /\
       expired_msg_list s4 = [] /\
       fe_trace s4
       = fe_trace s3
         ++ (FeSent (new_request (next_id s3)
                      (stamp_header env
                         (vfe_fill_pcm_msg_header VFE_MSG_PCM_CLOSE
                            (desc_pcm_id hdr, desc_direction hdr)))
                      (Some (stack_garbage env)) (Some (stack_garbage env))
                      sizeof_vfe_pcm_result)
         :: evs) /\
       caller_rx s4 !! id = Some buf) /\
    (* a late Open that names no PCM of the card is dropped *)
    (cmd hdr = VFE_MSG_PCM_OPEN ->
     vfe_is_valid_pcm_id (desc_pcm_id hdr) <> 0 \/ desc_pcm_id hdr ∉ fe_rtd_list env ->
     exists s4,
       vfe_not_tx_timeout_handler env s3 = Some (tt, s4) /\
       expired_msg_list s4 = [] /\
       fe_trace s4 = fe_trace s3 /\
       not_tx_vq s4 = not_tx_vq s3 /\
       caller_rx s4 = caller_rx s3 /\ completed s4 = completed s3) /\
    (* anything else *)
    (cmd hdr <> VFE_MSG_PCM_OPEN ->
     exists s4 evs,
       vfe_not_tx_timeout_handler env s3 = Some (tt, s4) /\
       expired_msg_list s4 = [] /\
       fe_trace s4 = fe_trace s3 ++ evs /\
       Forall (fun e => exists w, e = FeWarn w) evs /\
       not_tx_vq s4 = not_tx_vq s3 /\
       caller_rx s4 = caller_rx s3 /\ completed s4 = completed s3).
Proof.
  intros Htimeout Halloc Hadd Hused Hexp Hfresh Hpeer id msg.
  assert (Hfresh' : Forall (fun m => msg_id m <> id) (not_tx_vq s)).
  { eapply Forall_impl; [exact Hfresh|]. simpl. subst id. intros; lia. }
  assert (Hfresh1 : Forall (fun m => msg_id m < id + 1) (not_tx_vq s)).
  { eapply Forall_impl; [exact Hfresh|]. simpl. subst id. intros; lia. }
  eexists _, _.
  split; [apply vfe_send_msg_with_timeout_expires; assumption|].
  fe_fields. fold id. fold msg.
  split; [apply find_msg_app_fresh; [exact Hfresh' | reflexivity]|].
  split; [apply lookup_insert_eq|].
  split.
  { unfold bind at 1.
    erewrite device_returns_last;
      [| fe_fields; reflexivity | exact Hfresh' | reflexivity].
    fe_fields. rewrite Hused. cbn [app].
    erewrite vfe_tx_message_loop_single by (fe_fields; reflexivity).
    fe_fields. rewrite vfe_tx_message_one_timed_out by reflexivity.
    fe_fields. rewrite Hexp. reflexivity. }
  fe_fields.
  split; [reflexivity|]. split; [reflexivity|].
  split.
  { intros Hin. apply elem_of_difference in Hin as [_ Hin]. apply Hin.
    now apply elem_of_singleton. }
  split; [reflexivity|].
  split; [now rewrite <- app_assoc|].
  split; [|split].
  - intros Hcmd Hvalid Hcard Hsub Hmsec.
    pose proof (vfe_skl_find_pcm_by_name_found env _ Hvalid Hcard) as Hfind.
    match goal with |- context [vfe_not_tx_timeout_handler env ?s3] =>
      destruct (vfe_not_tx_timeout_handler_open env s3
                  (set_msg_rx_buf (Some late_rx) msg) (desc_pcm_id hdr))
        as (s4 & evs & Hrun & Hexp4 & Htr4 & Hrx4);
        try assumption; try reflexivity
    end.
    exists s4, evs. fe_fields_in Htr4. fe_fields_in Hrx4.
    split; [exact Hrun|]. split; [exact Hexp4|]. split; [exact Htr4|].
    rewrite Hrx4 by lia. apply lookup_insert_eq.
  - intros Hcmd Hmissing.
    pose proof (vfe_skl_find_pcm_by_name_missing env _ Hmissing) as Hfind.
    eexists. split.
    { apply vfe_not_tx_timeout_handler_missing with
        (m := set_msg_rx_buf (Some late_rx) msg).
      - reflexivity.
      - cbn [msg_header set_msg_rx_buf set_msg_status new_request msg stamp_header cmd].
        now rewrite Hcmd.
      - exact Hfind. }
    fe_fields. repeat split.
  - intros Hcmd.
    match goal with |- context [vfe_not_tx_timeout_handler env ?s3] =>
      destruct (vfe_not_tx_timeout_handler_other env s3
                  (set_msg_rx_buf (Some late_rx) msg))
        as (evs & Hrun & Hwarn); try assumption; try reflexivity
    end.
    eexists _, evs. split; [exact Hrun|]. fe_fields.
    repeat split. exact Hwarn.
Qed.

Lemma vfe_timed_out_request_is_compensated_witness :
  exists s1 s3 s4 evs,
    vfe_send_msg_with_timeout vfe_env_quiet (Some open_pcm0_header) (Some [0])
      (Some [- EIO]) sizeof_vfe_pcm_result 500 vfe_two_sessions
    = Some ((- ETIMEDOUT, 1000), s1) /\
    (device_returns 1000 [0] ;; vfe_tx_message_loop) s1 = Some (tt, s3) /\
    vfe_not_tx_timeout_handler vfe_env_quiet s3 = Some (tt, s4) /\
    fe_trace s4
    = fe_trace s3
      ++ (FeSent (new_request (next_id s3)
                   (stamp_header vfe_env_quiet
                      (vfe_fill_pcm_msg_header VFE_MSG_PCM_CLOSE ("pcm0"%string, 0)))
                   (Some [0]) (Some [0]) sizeof_vfe_pcm_result)
      :: evs) /\
    caller_rx s4 !! 1000 = Some [- EIO].
Proof.
  destruct (vfe_timed_out_request_is_compensated vfe_env_quiet vfe_two_sessions
              open_pcm0_header (Some [0]) [- EIO] sizeof_vfe_pcm_result 500 [0])
    as (s1 & s3 & Hrun & _ & _ & Hlate & _ & _ & _ & _ & _ & Hopen & _).
  - lia.
  - reflexivity.
  - simpl. lia.
  - reflexivity.
  - reflexivity.
  - simpl. constructor.
  - reflexivity.
  - destruct Hopen as (s4 & evs & Hcomp & _ & Htr & Hbuf).
    + reflexivity.
    + reflexivity.
    + cbn. apply elem_of_cons. now left.
    + reflexivity.
    + simpl. lia.
    + exists s1, s3, s4, evs.
      split; [exact Hrun|]. split; [exact Hlate|]. split; [exact Hcomp|].
      split; [exact Htr | exact Hbuf].
Defined.

(** With a request naming a PCM the card does not have, the same run ends
    with nothing sent by the timeout work. *)
Example vfe_timed_out_open_of_unknown_pcm :
  option_map (fun r => (length (not_tx_vq (snd r)), expired_msg_list (snd r),
                        fe_trace (snd r)))
    ((vfe_send_msg_with_timeout vfe_env_quiet (Some open_pcm9_header) (Some [0])
        (Some [- EIO]) sizeof_vfe_pcm_result 500 ;;
      device_returns 1000 [0] ;; vfe_tx_message_loop ;;
      vfe_not_tx_timeout_handler vfe_env_quiet) vfe_two_sessions)
  = Some (0%nat, [],
          [FeSent (new_request 1000 (stamp_header vfe_env_quiet open_pcm9_header)
                     (Some [0]) (Some [- EIO]) sizeof_vfe_pcm_result);
           FeWarn "Response from backend timed out";
           FeScheduleWork msg_timeout_work]).
Proof. vm_compute. reflexivity. Qed.

(** ** PCM callbacks of the front end on substreams without a PCM *)

Lemma vfe_is_valid_fe_substream_sentinel (key : stream_key) :
  fst key = ""%string \/ fst key = "((null))"%string ->
  vfe_is_valid_fe_substream key = - EINVAL.
Proof.
  unfold vfe_is_valid_fe_substream, vfe_is_valid_pcm_id.
  intros [-> | ->]; reflexivity.
Qed.

(** C10.  On a substream whose pcm id is empty or the sentinel "((null))"
    every PCM callback returns 0 once its local platform call (open and
    trigger have one) has succeeded; nothing is sent to the back end and the
    sessions, queues and buffers of the front end stay as they are. *)
Theorem vfe_pcm_callbacks_ignore_unnamed (env : vfe_env) (s : vfe_state)
    (substream : stream_key) (params : list Z) (trigger_cmd : Z) :
  fst substream = ""%string \/ fst substream = "((null))"%string ->
  let with_event e :=
    mk_vfe (fe_shm s) (fe_substr_info_list s) (not_tx_vq s) (not_tx_used s)
      (expired_msg_list s) (caller_rx s) (completed s) (next_id s)
      (fe_trace s ++ [e]) in
  (0 <= skl_platform_open env substream ->
   vfe_pcm_open env substream s = Some (0, with_event (FePlatformOpen substream))) /\
  vfe_pcm_close env substream s = Some (0, s) /\
  vfe_pcm_hw_params env substream params s = Some (0, s) /\
  vfe_pcm_prepare env substream s = Some (0, s) /\
  (0 <= skl_platform_pcm_trigger env substream trigger_cmd ->
   vfe_pcm_trigger env substream trigger_cmd s
   = Some (0, with_event (FePlatformTrigger substream trigger_cmd))).
Proof.
  intros Hid with_event.
  pose proof (vfe_is_valid_fe_substream_sentinel substream Hid) as Hinvalid.
  repeat split.
  - intros Hplat. apply Z.ltb_ge in Hplat.
    unfold vfe_pcm_open, bind, fe_emit. rewrite Hplat, Hinvalid. reflexivity.
  - unfold vfe_pcm_close. rewrite Hinvalid. reflexivity.
  - unfold vfe_pcm_hw_params. rewrite Hinvalid. reflexivity.
  - unfold vfe_pcm_prepare, bind, get. rewrite Hinvalid. reflexivity.
  - intros Hplat. apply Z.ltb_ge in Hplat.
    unfold vfe_pcm_trigger, bind, fe_emit. rewrite Hplat, Hinvalid. reflexivity.
Qed.

Lemma vfe_pcm_callbacks_ignore_unnamed_witness :
  vfe_pcm_close vfe_env_quiet ("((null))"%string, 0) vfe_two_sessions
  = Some (0, vfe_two_sessions) /\
  vfe_pcm_prepare vfe_env_quiet (""%string, 1) vfe_two_sessions
  = Some (0, vfe_two_sessions).
Proof.
  split.
  - apply (vfe_pcm_callbacks_ignore_unnamed vfe_env_quiet vfe_two_sessions
             ("((null))"%string, 0) [] 0).
    right. reflexivity.
  - apply (vfe_pcm_callbacks_ignore_unnamed vfe_env_quiet vfe_two_sessions
             (""%string, 1) [] 0).
    left. reflexivity.
Defined.

(** ** The pending queue of the back end *)

Ltac be_fields :=
  cbn [shm client_list substreams pending_msg_list vq_avail guest_mem trace].
Ltac be_fields_in H :=
  cbn [shm client_list substreams pending_msg_list vq_avail guest_mem trace] in H.

Lemma vq_eqb_refl vq : vq_eqb vq vq = true.
Proof. destruct vq; reflexivity. Qed.

Lemma delivered_msgs_app a b :
  delivered_msgs (a ++ b) = delivered_msgs a ++ delivered_msgs b.
Proof. unfold delivered_msgs. apply omap_app. Qed.

(** vbe_skl_try_send, case by case. *)
Lemma vbe_skl_try_send_spec vq m s :
  exists sent s' evs,
    vbe_skl_try_send vq m s = Some (sent, s') /\
    trace s' = trace s ++ evs /\
    delivered_msgs evs = (if sent then [m] else []) /\
    pending_msg_list s' = pending_msg_list s /\
    vq_avail s' vq = tail (vq_avail s vq) /\
    (forall q, q <> vq -> vq_avail s' q = vq_avail s q) /\
    sent = match vq_avail s vq with
           | [] => false
           | c :: _ => 0 <? chain_ret c
           end.
Proof.
  unfold vbe_skl_try_send, bind, get.
  destruct (vq_avail s vq) as [|c rest] eqn:Havail.
  - exists false, s, []. rewrite Havail, app_nil_r. repeat split.
  - unfold set_vq_avail at 1.
    assert (Hother : forall q, q <> vq ->
              (if vq_eqb q vq then rest else vq_avail s q) = vq_avail s q).
    { intros q Hq. destruct q, vq; try reflexivity; congruence. }
    destruct (0 <? chain_ret c).
    + destruct (iov_len c <? sizeof_msg m);
        unfold emit, ret; be_fields;
        eexists true, _, _; (split; [reflexivity|]); be_fields;
        rewrite ?vq_eqb_refl, <- ?app_assoc;
        (split; [simpl; reflexivity|]); repeat split; try exact Hother.
    + eexists false, _, []. unfold ret. split; [reflexivity|]. be_fields.
      rewrite vq_eqb_refl, app_nil_r. repeat split. exact Hother.
Qed.

(** The drain goes head-first and stops at the first failure. *)
Lemma not_reply_loop_spec vq fuel : forall s,
  (length (pending_msg_list s) <= fuel)%nat ->
  exists s' evs,
    not_reply_loop fuel vq s = Some (tt, s') /\
    trace s' = trace s ++ evs /\
    delivered_msgs evs
    = take (drain_count (pending_msg_list s) (vq_avail s vq)) (pending_msg_list s) /\
    pending_msg_list s'
    = drop (drain_count (pending_msg_list s) (vq_avail s vq)) (pending_msg_list s) /\
    vq_avail s' vq = drain_avail (pending_msg_list s) (vq_avail s vq).
Proof.
  induction fuel as [|fuel IH]; intros s Hlen.
  - destruct (pending_msg_list s) eqn:Hp; [|simpl in Hlen; lia].
    exists s, []. rewrite app_nil_r. simpl. rewrite Hp. repeat split.
  - cbn [not_reply_loop]. unfold bind at 1, get at 1.
    destruct (pending_msg_list s) as [|entry rest] eqn:Hp.
    + exists s, []. rewrite app_nil_r. simpl. rewrite Hp. repeat split.
    + destruct (vbe_skl_try_send_spec vq entry s)
        as (sent & s1 & evs1 & Hrun & Htr1 & Hdel1 & Hp1 & Hav1 & _ & Hsent).
      rewrite (bind_run _ _ _ _ _ Hrun).
      destruct (vq_avail s vq) as [|c avail'] eqn:Hav; cbn [tail] in Hav1.
      * subst sent. exists s1, evs1. unfold ret. simpl.
        rewrite Hp1, Hp. repeat split; assumption.
      * cbn [drain_count drain_avail]. rewrite <- Hsent.
        destruct sent.
        -- unfold bind at 1, get at 1. unfold bind at 1, set_pending_msg_list at 1.
           rewrite Hp1, Hp. cbn [tail].
           match goal with |- context [not_reply_loop fuel vq ?s2] =>
             destruct (IH s2) as (s' & evs2 & Hrun2 & Htr2 & Hdel2 & Hp2 & Hav2)
           end.
           { be_fields. simpl in Hlen. lia. }
           be_fields_in Htr2. be_fields_in Hdel2. be_fields_in Hp2. be_fields_in Hav2.
           rewrite Hav1 in Hdel2, Hp2, Hav2.
           exists s', (evs1 ++ evs2). split; [exact Hrun2|].
           split; [rewrite Htr2, Htr1; now rewrite app_assoc|].
           split; [rewrite delivered_msgs_app, Hdel1, Hdel2; reflexivity|].
           split; assumption.
        -- exists s1, evs1. unfold ret. simpl. rewrite Hp1, Hp.
           repeat split; assumption.
Qed.

Lemma vbe_skl_ipc_fe_not_reply_get_spec vq s :
  exists s' evs,
    vbe_skl_ipc_fe_not_reply_get vq s = Some (tt, s') /\
    trace s' = trace s ++ evs /\
    delivered_msgs evs
    = take (drain_count (pending_msg_list s) (vq_avail s vq)) (pending_msg_list s) /\
    pending_msg_list s'
    = drop (drain_count (pending_msg_list s) (vq_avail s vq)) (pending_msg_list s) /\
    vq_avail s' vq = drain_avail (pending_msg_list s) (vq_avail s vq).
Proof.
  unfold vbe_skl_ipc_fe_not_reply_get, bind at 1, get at 1.
  apply not_reply_loop_spec. lia.
Qed.

(** A send never fails towards its caller; what cannot be delivered at
    once is appended to the pending list. *)
Lemma vbe_skl_send_or_enqueue_spec vq m s :
  exists s' evs,
    vbe_skl_send_or_enqueue vq m s = Some (tt, s') /\
    trace s' = trace s ++ evs /\
    (match vq_avail s vq with
     | [] => false
     | c :: _ => 0 <? chain_ret c
     end = false ->
     pending_msg_list s' = pending_msg_list s ++ [m] /\ delivered_msgs evs = []) /\
    (match vq_avail s vq with
     | [] => false
     | c :: _ => 0 <? chain_ret c
     end = true ->
     pending_msg_list s' = pending_msg_list s /\ delivered_msgs evs = [m]).
Proof.
  unfold vbe_skl_send_or_enqueue.
  destruct (vbe_skl_try_send_spec vq m s)
    as (sent & s1 & evs1 & Hrun & Htr1 & Hdel1 & Hp1 & _ & _ & Hsent).
  rewrite (bind_run _ _ _ _ _ Hrun). rewrite <- Hsent.
  destruct sent.
  - exists s1, evs1. split; [reflexivity|]. split; [exact Htr1|].
    split; [discriminate|]. intros _. split; assumption.
  - unfold bind, get, set_pending_msg_list.
    eexists _, evs1. split; [reflexivity|]. be_fields.
    split; [exact Htr1|]. split; [|discriminate].
    intros _. rewrite Hp1. split; [reflexivity | exact Hdel1].
Qed.

Lemma be_run_fifo acts : forall s,
  exists enqueued drained s',
    be_run acts s = Some (enqueued, drained, s') /\
    pending_msg_list s ++ enqueued = drained ++ pending_msg_list s'.
Proof.
  induction acts as [|a rest IH]; intros s.
  - exists [], [], s. split; [reflexivity|]. now rewrite app_nil_r.
  - cbn [be_run].
    destruct a as [m| |c]; cbn [be_step].
    + destruct (vbe_skl_send_or_enqueue_spec SKL_VIRTIO_IPC_NOT_RX_VQ m s)
        as (s1 & evs & Hrun & _ & Hfull & Hfree).
      rewrite Hrun.
      destruct (IH s1) as (e & d & s2 & Hrest & Hfifo). rewrite Hrest.
      eexists _, _, s2. split; [reflexivity|].
      destruct (match vq_avail s SKL_VIRTIO_IPC_NOT_RX_VQ with
                | [] => false
                | c :: _ => 0 <? chain_ret c
                end).
      * destruct (Hfree eq_refl) as [Hp _]. rewrite Hp in *.
        rewrite Nat.ltb_irrefl. simpl. exact Hfifo.
      * destruct (Hfull eq_refl) as [Hp _]. rewrite Hp in *.
        assert (Hlt : (length (pending_msg_list s)
                       <? length (pending_msg_list s ++ [m]))%nat = true).
        { apply Nat.ltb_lt. rewrite length_app. simpl. lia. }
        rewrite Hlt. cbn [app]. rewrite <- Hfifo. now rewrite <- app_assoc.
    + destruct (vbe_skl_ipc_fe_not_reply_get_spec SKL_VIRTIO_IPC_NOT_RX_VQ s)
        as (s1 & evs & Hrun & Htr & Hdel & Hp & _).
      rewrite Hrun.
      destruct (IH s1) as (e & d & s2 & Hrest & Hfifo). rewrite Hrest.
      eexists _, _, s2. split; [reflexivity|].
      rewrite Htr, drop_app_length, Hdel. simpl.
      rewrite Hp in Hfifo.
      set (n := drain_count (pending_msg_list s) (vq_avail s SKL_VIRTIO_IPC_NOT_RX_VQ))
        in *.
      transitivity ((take n (pending_msg_list s) ++ drop n (pending_msg_list s)) ++ e);
        [now rewrite take_drop|].
      rewrite <- !app_assoc. now rewrite Hfifo.
    + unfold bind at 1, get at 1, set_vq_avail at 1.
      match goal with |- context [be_run rest ?s1] =>
        destruct (IH s1) as (e & d & s2 & Hrest & Hfifo)
      end.
      rewrite Hrest. be_fields_in Hfifo.
      eexists _, _, s2. split; [reflexivity|]. simpl. exact Hfifo.
Qed.

(** C4.  A notification that cannot be submitted at once is appended to
    the pending queue and the send still reports success; every kick of
    the queue drains head-first and stops at the first submission that
    fails; over any interleaving of sends, kicks and chains made available
    the drained messages come out in the order they were enqueued. *)
Theorem vbe_pending_queue_is_fifo :
  (forall s kcontrol value size,
      exists s',
        vbe_send_kctl_msg kcontrol value size s = Some ((0, 0), s') /\
        (match vq_avail s SKL_VIRTIO_IPC_NOT_RX_VQ with
         | [] => false
         | c :: _ => 0 <? chain_ret c
         end = false ->
         pending_msg_list s'
         = pending_msg_list s ++ [mk_pending kcontrol value size] /\
         trace s' = trace s)) /\
  (forall s,
      exists s' evs,
        vbe_skl_ipc_fe_not_reply_get SKL_VIRTIO_IPC_NOT_RX_VQ s = Some (tt, s') /\
        trace s' = trace s ++ evs /\
        let n := drain_count (pending_msg_list s)
                   (vq_avail s SKL_VIRTIO_IPC_NOT_RX_VQ) in
        delivered_msgs evs = take n (pending_msg_list s) /\
        pending_msg_list s' = drop n (pending_msg_list s) /\
        vq_avail s' SKL_VIRTIO_IPC_NOT_RX_VQ
        = drain_avail (pending_msg_list s) (vq_avail s SKL_VIRTIO_IPC_NOT_RX_VQ)) /\
  (forall acts s,
      exists enqueued drained s',
        be_run acts s = Some (enqueued, drained, s') /\
        pending_msg_list s ++ enqueued = drained ++ pending_msg_list s').
Proof.
  split; [|split].
  - intros s kcontrol value size.
    unfold vbe_send_kctl_msg.
    destruct (vbe_skl_try_send_spec SKL_VIRTIO_IPC_NOT_RX_VQ
                (mk_pending kcontrol value size) s)
      as (sent & s1 & evs1 & Hrun & Htr1 & Hdel1 & Hp1 & _ & _ & Hsent).
    unfold vbe_skl_send_or_enqueue.
    unfold bind at 1. rewrite (bind_run _ _ _ _ _ Hrun).
    rewrite <- Hsent. destruct sent.
    + exists s1. split; [reflexivity | discriminate].
    + unfold bind, get, set_pending_msg_list, ret.
      eexists. split; [reflexivity|]. intros _. be_fields.
      rewrite Hp1. split; [reflexivity|].
      revert Hrun. unfold vbe_skl_try_send, bind, get.
      destruct (vq_avail s SKL_VIRTIO_IPC_NOT_RX_VQ) as [|c rest].
      * now intros [= <-].
      * destruct (0 <? chain_ret c); [discriminate|].
        unfold set_vq_avail, ret. now intros [= <-].
  - intros s. apply vbe_skl_ipc_fe_not_reply_get_spec.
  - intros acts s. apply be_run_fifo.
Qed.

(** Three notifications against a queue that frees one slot, then two. *)
Example be_run_three_notifications :
  option_map (fun r => (fst (fst r), snd (fst r), pending_msg_list (snd r)))
    (be_run [ActSend (noti "A"); ActSend (noti "B"); ActPeerPosts good_chain; ActKick;
             ActSend (noti "C"); ActPeerPosts good_chain; ActPeerPosts good_chain;
             ActKick]
       (mk_vbe zero_shm [] ∅ [] (fun _ => []) (fun _ => 0) []))
  = Some ([noti "A"; noti "B"; noti "C"], [noti "A"; noti "B"; noti "C"], []).
Proof. vm_compute. reflexivity. Qed.

(** ** Resource transfer *)

Lemma write_bytes_inside addr data g x :
  addr <= x < addr + Z.of_nat (length data) ->
  write_bytes addr data g x = nth (Z.to_nat (x - addr)) data 0.
Proof.
  intros Hx. unfold write_bytes.
  destruct (addr <=? x) eqn:E1; [|apply Z.leb_gt in E1; lia].
  destruct (x <? addr + Z.of_nat (length data)) eqn:E2; [|apply Z.ltb_ge in E2; lia].
  reflexivity.
Qed.

Lemma write_bytes_outside addr data g x :
  x < addr \/ addr + Z.of_nat (length data) <= x ->
  write_bytes addr data g x = g x.
Proof.
  intros Hx. unfold write_bytes.
  destruct (addr <=? x) eqn:E1; [|reflexivity].
  destruct (x <? addr + Z.of_nat (length data)) eqn:E2; [|reflexivity].
  apply Z.leb_le in E1. apply Z.ltb_lt in E2. lia.
Qed.

(** C8.  For a resource that resolves to the same blob at the Info and at
    the Descriptor request, Info reports its size and a Descriptor request
    carrying that size answers with status 0 after copying exactly that many
    bytes to the destination; a Descriptor request whose size differs from
    the size of the blob fails with -EINVAL and copies nothing. *)
Theorem vbe_resource_transfer (env : vbe_env) (sdev : skl)
    (s1 s2 : vbe_state) (info_msg desc_msg : vbe_ipc_msg)
    (res_info res_desc : rx_buffer) (fw : firmware) :
  rx_data info_msg = Some res_info ->
  rx_size info_msg = sizeof_vfe_resource_info env ->
  rx_data desc_msg = Some res_desc ->
  rx_size desc_msg = sizeof_vfe_resource_desc env ->
  vbe_find_res_hndl sdev (rx_res_type res_info) (rx_res_name res_info) s1
  = Some (Some fw, s1) ->
  vbe_find_res_hndl sdev (rx_res_type res_desc) (rx_res_name res_desc) s2
  = Some (Some fw, s2) ->
  is_Some (map_guest_phys env (rx_res_phys_addr res_desc) (rx_res_size res_desc)) ->
  (* phase one *)
  vbe_skl_cfg_resource_info env sdev info_msg s1
  = Some ((0, Some (set_rx_res_size (fw_size fw) res_info)), s1) /\
  (* phase two, with the size phase one reported *)
  (rx_res_size res_desc = fw_size fw ->
   exists s2',
     vbe_skl_cfg_resource_desc env sdev desc_msg s2
     = Some ((0, Some (set_rx_ret 0 res_desc)), s2') /\
     (forall x, rx_res_phys_addr res_desc <= x
                < rx_res_phys_addr res_desc + fw_size fw ->
        guest_mem s2' x
        = nth (Z.to_nat (x - rx_res_phys_addr res_desc)) (fw_data fw) 0) /\
     (forall x, x < rx_res_phys_addr res_desc \/
                rx_res_phys_addr res_desc + fw_size fw <= x ->
        guest_mem s2' x = guest_mem s2 x)) /\
  (* phase two, with any other size *)
  (rx_res_size res_desc <> fw_size fw ->
   vbe_skl_cfg_resource_desc env sdev desc_msg s2
   = Some ((- EINVAL, Some (set_rx_ret (- EINVAL) res_desc)), s2)).
Proof.
  intros Hrx1 Hsz1 Hrx2 Hsz2 Hres1 Hres2 [mapped Hmap].
  split; [|split].
  - unfold vbe_skl_cfg_resource_info.
    rewrite Hrx1, Hsz1, Z.eqb_refl. cbn [negb].
    change (rx_res_type (set_rx_res_size 0 res_info)) with (rx_res_type res_info).
    change (rx_res_name (set_rx_res_size 0 res_info)) with (rx_res_name res_info).
    rewrite (bind_run _ _ _ _ _ Hres1). reflexivity.
  - intros Hsize.
    unfold vbe_skl_cfg_resource_desc.
    rewrite Hrx2, Hsz2, Z.eqb_refl. cbn [negb].
    rewrite (bind_run _ _ _ _ _ Hres2).
    rewrite Hsize in Hmap |- *. rewrite Z.eqb_refl. cbn [negb].
    rewrite Hmap.
    unfold bind, get, set_guest_mem, emit, ret. be_fields.
    eexists. split; [reflexivity|]. be_fields.
    split; intros x Hx.
    + apply write_bytes_inside. unfold fw_size in Hx. exact Hx.
    + apply write_bytes_outside. unfold fw_size in Hx. exact Hx.
  - intros Hsize.
    unfold vbe_skl_cfg_resource_desc.
    rewrite Hrx2, Hsz2, Z.eqb_refl. cbn [negb].
    rewrite (bind_run _ _ _ _ _ Hres2).
    assert (Hne : (fw_size fw =? rx_res_size res_desc) = false)
      by (apply Z.eqb_neq; congruence).
    rewrite Hne. reflexivity.
Qed.

Lemma vbe_resource_transfer_witness :
  vbe_skl_cfg_resource_info vbe_env_simple sdev_simple
    (mk_ipc_msg (cfg_header VFE_MSG_CFG_RES_INFO) None 0 (Some (fw_request 0)) 72)
    vbe_one_session
  = Some ((0, Some (fw_request 3)), vbe_one_session) /\
  (exists s',
      vbe_skl_cfg_resource_desc vbe_env_simple sdev_simple
        (mk_ipc_msg (cfg_header VFE_MSG_CFG_RES_DESC) None 0 (Some (fw_request 3)) 88)
        vbe_one_session
      = Some ((0, Some (fw_request 3)), s') /\
      guest_mem s' 20481 = 2).
Proof.
  destruct (vbe_resource_transfer vbe_env_simple sdev_simple
              vbe_one_session vbe_one_session
              (mk_ipc_msg (cfg_header VFE_MSG_CFG_RES_INFO) None 0 (Some (fw_request 0)) 72)
              (mk_ipc_msg (cfg_header VFE_MSG_CFG_RES_DESC) None 0 (Some (fw_request 3)) 88)
              (fw_request 0) (fw_request 3) base_fw)
    as (Hinfo & Hdesc & _).
  - reflexivity.
  - reflexivity.
  - reflexivity.
  - reflexivity.
  - reflexivity.
  - reflexivity.
  - simpl. eauto.
  - split; [exact Hinfo|].
    destruct (Hdesc eq_refl) as (s' & Hrun & Hin & _).
    exists s'. split; [exact Hrun|].
    rewrite (Hin 20481) by (unfold fw_request, fw_size, base_fw; simpl; lia).
    reflexivity.
Defined.

(** ** Access control of the back end *)

Lemma find_rtd_id l n rtd : find_rtd l n = Some rtd -> rtd_pcm_id rtd = n.
Proof.
  induction l as [|r rest IH]; simpl; [discriminate|].
  unfold pcm_id_eqb. destruct (String.eqb (rtd_pcm_id r) n) eqn:E.
  - intros [= <-]. now apply String.eqb_eq.
  - exact IH.
Qed.

Lemma vbe_skl_find_rtd_by_pcm_id_found sdev n rtd :
  vbe_skl_find_rtd_by_pcm_id sdev n = Some rtd ->
  rtd_pcm_id rtd = n /\ vbe_skl_find_pcm_by_name sdev n = Some n.
Proof.
  intros Hfind. unfold vbe_skl_find_pcm_by_name. rewrite Hfind.
  revert Hfind. unfold vbe_skl_find_rtd_by_pcm_id, vbe_skl_is_valid_pcm_id.
  destruct (String.length n =? 0)%nat; simpl; [discriminate|].
  destruct (String.eqb n "((null))"); simpl; [discriminate|].
  destruct (has_card sdev); simpl; [|discriminate].
  intros Hrtd. apply find_rtd_id in Hrtd. now rewrite Hrtd.
Qed.

(** An Open that access control turns down changes nothing. *)
Lemma vbe_skl_pcm_open_denied env sdev s msg rtd :
  vbe_skl_find_rtd_by_pcm_id sdev (desc_pcm_id (header msg)) = Some rtd ->
  let perm := vbe_skl_pcm_check_permission sdev (to_int (hdr_domain_id (header msg)))
                (desc_pcm_id (header msg)) (desc_direction (header msg)) in
  perm < 0 ->
  vbe_skl_pcm_open env sdev msg s = Some ((perm, write_result (rx_data msg) perm), s).
Proof.
  intros Hrtd perm Hperm.
  destruct (vbe_skl_find_rtd_by_pcm_id_found _ _ _ Hrtd) as [_ Hpcm].
  unfold vbe_skl_pcm_open, vbe_skl_pcm_open_body. rewrite Hpcm.
  fold perm. apply Z.ltb_lt in Hperm. rewrite Hperm. reflexivity.
Qed.

(** C7 (amended).  A PCM Open on a stream whose owner resolves passes
    access control exactly when the sender's domain id is the owner's; with
    another id the Open fails with -EACCES and nothing reaches the stream.
    Close, Prepare, HwParams and Trigger are not checked against the domain
    id: they are handled the same whatever id the message carries. *)
Theorem vbe_pcm_access_control (env : vbe_env) (sdev : skl) (s : vbe_state)
    (msg : vbe_ipc_msg) (rtd : snd_soc_pcm_runtime) (owner : Z) :
  vbe_skl_find_rtd_by_pcm_id sdev (desc_pcm_id (header msg)) = Some rtd ->
  rtd_cpr_domain rtd (desc_direction (header msg)) = Some owner ->
  0 <= owner < 2 ^ 32 ->
  0 <= hdr_domain_id (header msg) < 2 ^ 32 ->
  let perm := vbe_skl_pcm_check_permission sdev (to_int (hdr_domain_id (header msg)))
                (desc_pcm_id (header msg)) (desc_direction (header msg)) in
  (perm = 0 <-> hdr_domain_id (header msg) = owner) /\
  (hdr_domain_id (header msg) <> owner ->
   perm = - EACCES /\
   vbe_skl_pcm_open env sdev msg s
   = Some ((- EACCES, write_result (rx_data msg) (- EACCES)), s)) /\
  (cmd (header msg) <> VFE_MSG_PCM_OPEN ->
   forall d,
     vbe_skl_msg_pcm_handle env sdev (with_domain_id d msg) s
     = vbe_skl_msg_pcm_handle env sdev msg s).
Proof.
  intros Hrtd Howner Hrange Hsender perm.
  assert (Hperm : perm = if negb (to_int (hdr_domain_id (header msg)) =? to_int owner)
                         then - EACCES else 0).
  { subst perm. unfold vbe_skl_pcm_check_permission, vbe_skl_pcm_get_domain_id.
    rewrite Hrtd, Howner. reflexivity. }
  split; [|split].
  - rewrite Hperm.
    destruct (to_int (hdr_domain_id (header msg)) =? to_int owner) eqn:E; simpl.
    + apply Z.eqb_eq in E. split; [intros _|reflexivity].
      now apply to_int_inj_u32.
    + apply Z.eqb_neq in E. split; [discriminate|]. intros Heq. now rewrite Heq in E.
  - intros Hne.
    assert (Hdenied : perm = - EACCES).
    { rewrite Hperm.
      destruct (to_int (hdr_domain_id (header msg)) =? to_int owner) eqn:E;
        [|reflexivity].
      apply Z.eqb_eq in E. apply to_int_inj_u32 in E; [contradiction|lia|lia]. }
    split; [exact Hdenied|].
    rewrite <- Hdenied. apply vbe_skl_pcm_open_denied with (rtd := rtd);
      [exact Hrtd|]. fold perm. rewrite Hdenied. reflexivity.
  - intros Hcmd d.
    unfold vbe_skl_msg_pcm_handle, with_domain_id. cbn [header cmd rx_data].
    destruct (cmd (header msg)); try congruence; reflexivity.
Qed.

(** C7, as stated, fails for the operations after Open: a Trigger sent
    under domain id 2 on the stream of domain 1 is not turned down but
    forwarded to the stream. *)
Lemma vbe_trigger_is_not_access_checked :
  vbe_skl_pcm_get_domain_id sdev_simple "pcm0" 0 = (0, Some 1) /\
  option_map (fun r => (fst r, trace (snd r)))
    (vbe_skl_msg_pcm_handle vbe_env_simple sdev_simple
       (mk_ipc_msg (pcm_header VFE_MSG_PCM_TRIGGER 2) (Some trigger_start) 4 None 0)
       vbe_one_session)
  = Some ((0, None), [EvOpsTrigger pcm0_playback SNDRV_PCM_TRIGGER_START]).
Proof. split; reflexivity. Qed.

Lemma vbe_pcm_access_control_witness :
  vbe_skl_pcm_open vbe_env_simple sdev_simple
    (mk_ipc_msg (pcm_header VFE_MSG_PCM_OPEN 3) None 0 (Some pcm_result_buf) 4)
    vbe_one_session
  = Some ((- EACCES, Some (set_rx_ret (- EACCES) pcm_result_buf)), vbe_one_session).
Proof.
  destruct (vbe_pcm_access_control vbe_env_simple sdev_simple vbe_one_session
              (mk_ipc_msg (pcm_header VFE_MSG_PCM_OPEN 3) None 0 (Some pcm_result_buf) 4)
              (mk_rtd "pcm0" (fun _ => Some 1)) 1)
    as (_ & Hdenied & _).
  - reflexivity.
  - reflexivity.
  - split; [lia | reflexivity].
  - simpl. split; [lia | reflexivity].
  - destruct Hdenied as [_ Hopen]; [vm_compute; discriminate | exact Hopen].
Defined.

(** ** Admission of PCM Open *)

(** C6 (amended).  A PCM Open for a substream that is in use fails and
    leaves the back end as it is, no session added: with -EBUSY when the
    request passes the permission check, with the error of that check
    (which comes first) otherwise. *)
Theorem vbe_skl_pcm_open_busy (env : vbe_env) (sdev : skl) (s : vbe_state)
    (msg : vbe_ipc_msg) (rtd : snd_soc_pcm_runtime) (substream : snd_pcm_substream) :
  vbe_skl_find_rtd_by_pcm_id sdev (desc_pcm_id (header msg)) = Some rtd ->
  substreams s
    !! ((desc_pcm_id (header msg), desc_direction (header msg)) : stream_key)
  = Some substream ->
  0 < ref_count substream ->
  let perm := vbe_skl_pcm_check_permission sdev (to_int (hdr_domain_id (header msg)))
                (desc_pcm_id (header msg)) (desc_direction (header msg)) in
  let status := if perm <? 0 then perm else - EBUSY in
  vbe_skl_pcm_open env sdev msg s
  = Some ((status, write_result (rx_data msg) status), s) /\
  status < 0.
Proof.
  intros Hrtd Hsub Hbusy perm status.
  destruct (vbe_skl_find_rtd_by_pcm_id_found _ _ _ Hrtd) as [_ Hpcm].
  subst status.
  destruct (perm <? 0) eqn:Hperm.
  - split; [|now apply Z.ltb_lt].
    apply vbe_skl_pcm_open_denied with (rtd := rtd); [exact Hrtd|].
    now apply Z.ltb_lt.
  - split; [|reflexivity].
    unfold vbe_skl_pcm_open, vbe_skl_pcm_open_body. rewrite Hpcm.
    fold perm. rewrite Hperm.
    unfold bind at 1. unfold bind at 1, get_substream at 1, bind at 1, get at 1.
    rewrite Hsub. unfold ret at 1.
    apply Z.ltb_lt in Hbusy. rewrite Hbusy. reflexivity.
Qed.

(** C6, as stated, fails when the sender is not the owner of the stream:
    the Open of the busy playback stream of "pcm0" under domain id 2 ends
    with -EACCES, not with -EBUSY. *)
Lemma vbe_skl_pcm_open_busy_foreign_domain :
  (exists sub, substreams vbe_one_session !! pcm0_playback = Some sub /\
               0 < ref_count sub) /\
  vbe_skl_pcm_open vbe_env_simple sdev_simple
    (mk_ipc_msg (pcm_header VFE_MSG_PCM_OPEN 2) None 0 (Some pcm_result_buf) 4)
    vbe_one_session
  = Some ((- EACCES, Some (set_rx_ret (- EACCES) pcm_result_buf)), vbe_one_session) /\
  - EACCES <> - EBUSY.
Proof.
  split; [eexists; split; [reflexivity | reflexivity]|].
  split; [reflexivity | discriminate].
Qed.

Lemma vbe_skl_pcm_open_busy_witness :
  vbe_skl_pcm_open vbe_env_simple sdev_simple
    (mk_ipc_msg (pcm_header VFE_MSG_PCM_OPEN 1) None 0 (Some pcm_result_buf) 4)
    vbe_one_session
  = Some ((- EBUSY, Some (set_rx_ret (- EBUSY) pcm_result_buf)), vbe_one_session).
Proof.
  apply (vbe_skl_pcm_open_busy vbe_env_simple sdev_simple vbe_one_session
           (mk_ipc_msg (pcm_header VFE_MSG_PCM_OPEN 1) None 0 (Some pcm_result_buf) 4)
           (mk_rtd "pcm0" (fun _ => Some 1)) (mk_substream 1 true (Some [8192]))).
  - reflexivity.
  - reflexivity.
  - simpl. lia.
Defined.

(** ** The session registry of the back end *)

Lemma get_substream_run s (key : stream_key) sub :
  substreams s !! key = Some sub -> get_substream key s = Some (sub, s).
Proof. intros H. unfold get_substream, bind, get. now rewrite H. Qed.

Lemma vbe_skl_allocate_runtime_ok env s (key : stream_key) sub :
  runtime_alloc_ok env = true ->
  substreams s !! key = Some sub ->
  vbe_skl_allocate_runtime env key s
  = Some (0, mk_vbe (shm s) (client_list s)
               (<[key := mk_substream (ref_count sub) true (sg_table sub)]> (substreams s))
               (pending_msg_list s) (vq_avail s) (guest_mem s) (trace s)).
Proof.
  intros Halloc Hsub. unfold vbe_skl_allocate_runtime. rewrite Halloc.
  rewrite (bind_run _ _ _ _ _ (get_substream_run s key sub Hsub)).
  reflexivity.
Qed.

Lemma vbe_skl_add_substream_info_ok env s (key : stream_key) client rest :
  info_alloc_ok env = true ->
  client_list s = client :: rest ->
  vbe_skl_add_substream_info env key s
  = Some (0, mk_vbe (shm s)
               (mk_client (new_session key :: substr_info_list client) (tplg client)
                :: rest)
               (substreams s) (pending_msg_list s) (vq_avail s) (guest_mem s) (trace s)).
Proof.
  intros Halloc Hclient.
  unfold vbe_skl_add_substream_info. unfold bind at 1. unfold get at 1.
  cbv beta iota. unfold first_client. rewrite Hclient, Halloc.
  unfold update_first_client. unfold bind at 1. unfold bind at 1. unfold get at 1.
  cbv beta iota. rewrite Hclient. reflexivity.
Qed.

(** An Open that passes lookup, permission and admission. *)
Lemma vbe_skl_pcm_open_admitted env sdev s msg rtd substream client rest :
  vbe_skl_find_rtd_by_pcm_id sdev (desc_pcm_id (header msg)) = Some rtd ->
  vbe_skl_pcm_check_permission sdev (to_int (hdr_domain_id (header msg)))
    (desc_pcm_id (header msg)) (desc_direction (header msg)) = 0 ->
  let key : stream_key := (desc_pcm_id (header msg), desc_direction (header msg)) in
  substreams s !! key = Some substream ->
  ref_count substream <= 0 ->
  runtime_alloc_ok env = true ->
  info_alloc_ok env = true ->
  client_list s = client :: rest ->
  vbe_skl_pcm_open env sdev msg s
  = Some ((ops_open env key, write_result (rx_data msg) (ops_open env key)),
          mk_vbe (shm s)
            (mk_client (new_session key :: substr_info_list client) (tplg client) :: rest)
            (<[key := mk_substream (to_int (ref_count substream + 1)) true
                        (sg_table substream)]>
               (<[key := mk_substream (ref_count substream) true (sg_table substream)]>
                  (substreams s)))
            (pending_msg_list s) (vq_avail s) (guest_mem s)
            (trace s ++ [EvOpsOpen key])).
Proof.
  intros Hrtd Hperm key Hsub Hfree Hralloc Hialloc Hclient.
  destruct (vbe_skl_find_rtd_by_pcm_id_found _ _ _ Hrtd) as [_ Hpcm].
  assert (Hnotbusy : (0 <? ref_count substream) = false) by (apply Z.ltb_ge; lia).
  unfold vbe_skl_pcm_open, vbe_skl_pcm_open_body.
  rewrite Hpcm, Hperm. change (0 <? 0) with false. cbv iota. fold key.
  unfold bind at 1.
  rewrite (bind_run _ _ _ _ _ (get_substream_run s key substream Hsub)).
  rewrite Hnotbusy.
  rewrite (bind_run _ _ _ _ _
             (vbe_skl_allocate_runtime_ok env s key substream Hralloc Hsub)).
  change (0 <? 0) with false. cbv iota.
  erewrite bind_run;
    [| apply vbe_skl_add_substream_info_ok with (client := client) (rest := rest);
       [exact Hialloc | exact Hclient]].
  change (0 <? 0) with false. cbv iota.
  erewrite bind_run; [| apply get_substream_run; be_fields; apply lookup_insert_eq].
  reflexivity.
Qed.

Lemma vbe_find_substream_info_by_pcm_key l id dir info :
  vbe_find_substream_info_by_pcm l id dir = Some info ->
  info_pcm_id info = id /\ info_direction info = dir.
Proof.
  induction l as [|i rest IH]; simpl; [discriminate|].
  destruct (info_direction i =? dir) eqn:Ed; simpl; [|exact IH].
  unfold pcm_id_eqb. destruct (String.eqb (info_pcm_id i) id) eqn:Ei; [|exact IH].
  intros [= <-]. split; [now apply String.eqb_eq | now apply Z.eqb_eq].
Qed.

Lemma vbe_find_new_session l key :
  vbe_find_substream_info_by_pcm (new_session key :: l) (fst key) (snd key)
  = Some (new_session key).
Proof.
  simpl. unfold pcm_id_eqb. now rewrite Z.eqb_refl, String.eqb_refl.
Qed.

Lemma update_first_client_run f s client rest :
  client_list s = client :: rest ->
  update_first_client f s
  = Some (tt, mk_vbe (shm s) (f client :: rest) (substreams s) (pending_msg_list s)
                (vq_avail s) (guest_mem s) (trace s)).
Proof.
  intros Hclient. unfold update_first_client. unfold bind at 1. unfold get at 1.
  cbv beta iota. rewrite Hclient. reflexivity.
Qed.

(** The part of Close after the scatter table is restored. *)
Lemma vbe_skl_pcm_close_tail env (msg : vbe_ipc_msg) info s1 sub1 client rest
    (k : St vbe_state (Z * option rx_buffer)) :
  let key : stream_key := (info_pcm_id info, info_direction info) in
  substreams s1 !! key = Some sub1 ->
  client_list s1 = client :: rest ->
  k = (match info_pos_desc info with
       | Some a => emit (EvUnmapGuest a)
       | None => ret tt
       end ;;
       update_first_client (fun c =>
         mk_client (update_found (substr_info_list c) (info_pcm_id info)
                      (info_direction info) (fun _ => None))
                   (tplg c)) ;;
       sub <- get_substream key ;;
       put_substream key (mk_substream 0 (runtime_allocated sub) (sg_table sub)) ;;
       emit (EvOpsClose key) ;;
       ret (ops_close env key, write_result (rx_data msg) (ops_close env key))) ->
  exists s',
    k s1 = Some ((ops_close env key, write_result (rx_data msg) (ops_close env key)), s') /\
    client_list s'
    = mk_client (update_found (substr_info_list client) (info_pcm_id info)
                   (info_direction info) (fun _ => None)) (tplg client) :: rest /\
    (exists sub', substreams s' !! key = Some sub' /\ ref_count sub' = 0) /\
    exists evs, trace s' = trace s1 ++ evs ++ [EvOpsClose key].
Proof.
  intros key Hsub Hclient ->.
  destruct (info_pos_desc info) as [pd|].
  - unfold bind at 1, emit at 1.
    erewrite bind_run; [| apply update_first_client_run; be_fields; exact Hclient].
    erewrite bind_run; [| apply get_substream_run; be_fields; exact Hsub].
    eexists. split; [reflexivity|]. be_fields.
    split; [reflexivity|].
    split; [eexists; split; [apply lookup_insert_eq | reflexivity]|].
    exists [EvUnmapGuest pd]. now rewrite <- app_assoc.
  - unfold bind at 1, ret at 1.
    erewrite bind_run; [| apply update_first_client_run; exact Hclient].
    erewrite bind_run; [| apply get_substream_run; be_fields; exact Hsub].
    eexists. split; [reflexivity|]. be_fields.
    split; [reflexivity|].
    split; [eexists; split; [apply lookup_insert_eq | reflexivity]|].
    exists []. reflexivity.
Qed.

(** Close unlinks the session it was given and releases the substream. *)
Lemma vbe_skl_pcm_close_run env s msg info sub client rest :
  let key : stream_key := (info_pcm_id info, info_direction info) in
  substreams s !! key = Some sub ->
  sg_table sub <> Some [] ->
  client_list s = client :: rest ->
  exists s',
    vbe_skl_pcm_close env info msg s
    = Some ((ops_close env key, write_result (rx_data msg) (ops_close env key)), s') /\
    client_list s'
    = mk_client (update_found (substr_info_list client) (info_pcm_id info)
                   (info_direction info) (fun _ => None)) (tplg client) :: rest /\
    (exists sub', substreams s' !! key = Some sub' /\ ref_count sub' = 0) /\
    exists evs, trace s' = trace s ++ evs ++ [EvOpsClose key].
Proof.
  intros key Hsub Htable Hclient.
  unfold vbe_skl_pcm_close. fold key.
  rewrite (bind_run _ _ _ _ _ (get_substream_run s key sub Hsub)).
  destruct (sg_table sub) as [[|a table]|] eqn:Hsg; [congruence| |].
  - cbn [remap_table].
    unfold bind at 1, put_substream at 1, bind at 1, get at 1, set_substreams at 1.
    cbv beta iota.
    match goal with |- context [bind _ _ ?s1] =>
      eapply (vbe_skl_pcm_close_tail env msg info s1 _ client rest);
        [be_fields; apply lookup_insert_eq | exact Hclient | reflexivity]
    end.
  - unfold bind at 1, ret at 1.
    eapply (vbe_skl_pcm_close_tail env msg info s sub client rest);
      [exact Hsub | exact Hclient | reflexivity].
Qed.

(** C5 (amended).  With a client attached, Close, Prepare, HwParams and
    Trigger go to their handlers only when the registry of that client
    holds a session for (pcm id, direction) and are turned down with
    -ENODEV otherwise; without a client every PCM command ends with
    -EINVAL.  The registry records that a session exists and nothing more:
    an Open that succeeds adds the session, Close unlinks it, and no
    command is turned down for the order in which it arrives after Open. *)
Theorem vbe_skl_msg_pcm_handle_sessions (env : vbe_env) (sdev : skl)
    (s : vbe_state) (msg : vbe_ipc_msg) :
  let h := header msg in
  let key : stream_key := (desc_pcm_id h, desc_direction h) in
  let logged e :=
    mk_vbe (shm s) (client_list s) (substreams s) (pending_msg_list s) (vq_avail s)
      (guest_mem s) (trace s ++ [EvDevErr e]) in
  (client_list s = [] ->
   vbe_skl_msg_pcm_handle env sdev msg s
   = Some ((- EINVAL, rx_data msg), logged "Can not find active client"%string)) /\
  (forall client rest,
      client_list s = client :: rest ->
      (needs_session (cmd h) = true ->
       match vbe_find_substream_info_by_pcm (substr_info_list client) (fst key) (snd key)
       with
       | None =>
           vbe_skl_msg_pcm_handle env sdev msg s
           = Some ((- ENODEV, rx_data msg),
                   logged "Can not find active substream"%string)
       | Some info =>
           (info_pcm_id info, info_direction info) = key /\
           vbe_skl_msg_pcm_handle env sdev msg s
           = match cmd h with
             | VFE_MSG_PCM_CLOSE => vbe_skl_pcm_close env info msg s
             | VFE_MSG_PCM_PREPARE => vbe_skl_pcm_prepare env info msg s
             | VFE_MSG_PCM_HW_PARAMS => vbe_skl_pcm_hw_params env info msg s
             | _ => vbe_skl_pcm_trigger env info msg s
             end
       end) /\
      (cmd h = VFE_MSG_PCM_OPEN ->
       forall rtd sub,
         vbe_skl_find_rtd_by_pcm_id sdev (fst key) = Some rtd ->
         vbe_skl_pcm_check_permission sdev (to_int (hdr_domain_id h)) (fst key) (snd key)
         = 0 ->
         substreams s !! key = Some sub ->
         ref_count sub <= 0 ->
         runtime_alloc_ok env = true ->
         info_alloc_ok env = true ->
         0 <= ops_open env key ->
         exists s' client',
           vbe_skl_msg_pcm_handle env sdev msg s
           = Some ((ops_open env key, write_result (rx_data msg) (ops_open env key)), s') /\
           client_list s' = client' :: rest /\
           vbe_find_substream_info_by_pcm (substr_info_list client') (fst key) (snd key)
           = Some (new_session key)) /\
      (cmd h = VFE_MSG_PCM_CLOSE ->
       forall info sub,
         vbe_find_substream_info_by_pcm (substr_info_list client) (fst key) (snd key)
         = Some info ->
         substreams s !! key = Some sub ->
         sg_table sub <> Some [] ->
         exists s',
           vbe_skl_msg_pcm_handle env sdev msg s
           = Some ((ops_close env key, write_result (rx_data msg) (ops_close env key)),
                   s') /\
           client_list s'
           = mk_client (update_found (substr_info_list client) (fst key) (snd key)
                          (fun _ => None)) (tplg client) :: rest)).
Proof.
  intros h key logged.
  split.
  - intros Hnone.
    unfold vbe_skl_msg_pcm_handle, bind at 1, get at 1, first_client.
    rewrite Hnone. reflexivity.
  - intros client rest Hclient.
    assert (Heq :
      vbe_skl_msg_pcm_handle env sdev msg s
      = match cmd h with
        | VFE_MSG_PCM_OPEN => vbe_skl_pcm_open env sdev msg s
        | c =>
            match vbe_find_substream_info_by_pcm (substr_info_list client)
                    (fst key) (snd key) with
            | None => Some ((- ENODEV, rx_data msg),
                            logged "Can not find active substream"%string)
            | Some info =>
                match c with
                | VFE_MSG_PCM_CLOSE => vbe_skl_pcm_close env info msg s
                | VFE_MSG_PCM_PREPARE => vbe_skl_pcm_prepare env info msg s
                | VFE_MSG_PCM_HW_PARAMS => vbe_skl_pcm_hw_params env info msg s
                | VFE_MSG_PCM_TRIGGER => vbe_skl_pcm_trigger env info msg s
                | _ => Some ((0, rx_data msg),
                             logged "PCM stream notification not supported"%string)
                end
            end
        end).
    { unfold vbe_skl_msg_pcm_handle. unfold bind at 1. unfold get at 1.
      cbv beta iota. unfold first_client. rewrite Hclient.
      subst h key. cbn [fst snd].
      destruct (cmd (header msg)); try reflexivity;
        destruct (vbe_find_substream_info_by_pcm _ _ _); reflexivity. }
    split; [|split].
    + intros Hneeds. rewrite Heq.
      destruct (vbe_find_substream_info_by_pcm (substr_info_list client)
                  (fst key) (snd key)) as [info|] eqn:Hfind.
      * apply vbe_find_substream_info_by_pcm_key in Hfind as [Hid Hdir].
        split; [subst key; cbn [fst snd] in *; now rewrite Hid, Hdir|].
        destruct (cmd h); try discriminate; reflexivity.
      * destruct (cmd h); try discriminate; reflexivity.
    + intros Hopen rtd sub Hrtd Hperm Hsub Hfree Hralloc Hialloc _.
      rewrite Heq, Hopen.
      eexists _, _. split.
      { eapply vbe_skl_pcm_open_admitted; eassumption. }
      be_fields. split; [reflexivity|].
      cbn [substr_info_list]. apply vbe_find_new_session.
    + intros Hclose info sub Hfind Hsub Htable.
      rewrite Heq, Hclose, Hfind.
      pose proof (vbe_find_substream_info_by_pcm_key _ _ _ _ Hfind) as [Hid Hdir].
      destruct (vbe_skl_pcm_close_run env s msg info sub client rest)
        as (s' & Hrun & Hlist & _); try assumption.
      { rewrite Hid, Hdir. exact Hsub. }
      exists s'. rewrite Hrun, Hlist, Hid, Hdir. split; reflexivity.
Qed.

(** C5, as stated, fails on the driver: the transition table of the
    specification turns a Trigger away while the stream is only OPENED, but
    the back end hands a Trigger that follows the Open at once to the stream
    and answers 0. *)
Lemma vbe_trigger_right_after_open :
  spec_pcm_transition OPENED VFE_MSG_PCM_TRIGGER SNDRV_PCM_TRIGGER_START = None /\
  option_map (fun r => (fst (fst r), trace (snd r)))
    ((vbe_skl_msg_pcm_handle vbe_env_simple sdev_simple
        (mk_ipc_msg (pcm_header VFE_MSG_PCM_OPEN 1) None 0 (Some pcm_result_buf) 4) ;;
      vbe_skl_msg_pcm_handle vbe_env_simple sdev_simple
        (mk_ipc_msg (pcm_header VFE_MSG_PCM_TRIGGER 1) (Some trigger_start) 4 None 0))
       vbe_idle)
  = Some (0, [EvOpsOpen pcm0_playback;
              EvOpsTrigger pcm0_playback SNDRV_PCM_TRIGGER_START]).
Proof. split; [reflexivity|]. vm_compute. reflexivity. Qed.

Lemma vbe_skl_msg_pcm_handle_sessions_witness :
  vbe_skl_msg_pcm_handle vbe_env_simple sdev_simple
    (mk_ipc_msg (pcm_header VFE_MSG_PCM_PREPARE 1) None 0 (Some pcm_result_buf) 4)
    vbe_idle
  = Some ((- ENODEV, Some pcm_result_buf),
          mk_vbe (shm vbe_idle) (client_list vbe_idle) (substreams vbe_idle)
            (pending_msg_list vbe_idle) (vq_avail vbe_idle) (guest_mem vbe_idle)
            (trace vbe_idle ++ [EvDevErr "Can not find active substream"])).
Proof.
  destruct (vbe_skl_msg_pcm_handle_sessions vbe_env_simple sdev_simple vbe_idle
              (mk_ipc_msg (pcm_header VFE_MSG_PCM_PREPARE 1) None 0
                 (Some pcm_result_buf) 4))
    as [_ Hclient].
  destruct (Hclient (mk_client [] None) [] eq_refl) as (Hneeds & _ & _).
  exact (Hneeds eq_refl).
Defined.

Lemma vbe_pending_queue_is_fifo_witness :
  exists s',
    vbe_send_kctl_msg "Speaker Switch" [1] 8 vbe_idle = Some ((0, 0), s') /\
    pending_msg_list s' = [mk_pending "Speaker Switch" [1] 8].
Proof.
  destruct vbe_pending_queue_is_fifo as (Hsend & _ & _).
  destruct (Hsend vbe_idle "Speaker Switch"%string [1] 8) as (s' & Hrun & Hfull).
  exists s'. split; [exact Hrun|].
  destruct (Hfull eq_refl) as [Hp _]. exact Hp.
Defined.

(** ** Payload sizes *)

(** C9 fails on the PCM path of the back end: no PCM handler looks at the
    lengths of the payloads, so a PCM message is handled the same whatever
    lengths it arrives with, while each configuration handler turns a reply
    buffer of the wrong length down with -EINVAL. *)
Theorem vbe_pcm_payload_size_not_checked (env : vbe_env) (sdev : skl)
    (s : vbe_state) (msg : vbe_ipc_msg) (tx_len rx_len : Z) :
  vbe_skl_msg_pcm_handle env sdev (with_sizes tx_len rx_len msg) s
  = vbe_skl_msg_pcm_handle env sdev msg s /\
  (rx_size msg <> sizeof_vfe_hda_cfg env ->
   vbe_skl_cfg_hda env msg s = Some ((- EINVAL, rx_data msg), s)) /\
  (rx_size msg <> sizeof_vfe_resource_info env ->
   vbe_skl_cfg_resource_info env sdev msg s = Some ((- EINVAL, rx_data msg), s)) /\
  (rx_size msg <> sizeof_vfe_resource_desc env ->
   vbe_skl_cfg_resource_desc env sdev msg s = Some ((- EINVAL, rx_data msg), s)) /\
  (rx_size msg <> sizeof_vfe_domain_info env ->
   vbe_skl_cfg_domain env sdev msg s = Some ((- EINVAL, rx_data msg), s)).
Proof.
  split; [reflexivity|].
  repeat split; intros Hsize; apply Z.eqb_neq in Hsize.
  - unfold vbe_skl_cfg_hda. destruct (rx_data msg); [now rewrite Hsize | reflexivity].
  - unfold vbe_skl_cfg_resource_info.
    destruct (rx_data msg); [now rewrite Hsize | reflexivity].
  - unfold vbe_skl_cfg_resource_desc.
    destruct (rx_data msg); [now rewrite Hsize | reflexivity].
  - unfold vbe_skl_cfg_domain, bind, get.
    destruct (rx_data msg); [now rewrite Hsize | reflexivity].
Qed.

(** HwParams with empty payload lengths on the open session is forwarded
    to the stream and answered with its status. *)
Example vbe_hw_params_without_size_check :
  option_map (fun r => (fst r, trace (snd r)))
    (vbe_skl_msg_pcm_handle vbe_env_simple sdev_simple
       (mk_ipc_msg (pcm_header VFE_MSG_PCM_HW_PARAMS 1) (Some hw_params_48k) 0
          (Some pcm_result_buf) 0)
       vbe_one_session)
  = Some ((0, Some (set_rx_ret 0 pcm_result_buf)),
          [EvOpsHwParams pcm0_playback [2; 48000; 1920]]).
Proof. vm_compute. reflexivity. Qed.

Lemma vbe_pcm_payload_size_not_checked_witness :
  vbe_skl_cfg_hda vbe_env_simple
    (mk_ipc_msg (cfg_header VFE_MSG_CFG_HDA) None 0 (Some pcm_result_buf) 4)
    vbe_idle
  = Some ((- EINVAL, Some pcm_result_buf), vbe_idle).
Proof.
  destruct (vbe_pcm_payload_size_not_checked vbe_env_simple sdev_simple vbe_idle
              (mk_ipc_msg (cfg_header VFE_MSG_CFG_HDA) None 0 (Some pcm_result_buf) 4)
              0 0)
    as (_ & Hhda & _).
  apply Hhda. vm_compute. discriminate.
Defined.

(* ====================================================================== *)
(** * Further properties of the driver *)
(* ====================================================================== *)

(** ** Interrupt hook of the back end *)

Lemma wrap_succ bits x : wrap bits (wrap bits x + 1) = wrap bits (x + 1).
Proof.
  unfold wrap. destruct (Z.eq_dec (2 ^ bits) 0) as [E|E].
  - rewrite E. now rewrite !Z.mod_0_r.
  - now rewrite Z.add_mod_idemp_l.
Qed.

Lemma wrap_add bits x n : wrap bits (wrap bits x + n) = wrap bits (x + n).
Proof.
  unfold wrap. destruct (Z.eq_dec (2 ^ bits) 0) as [E|E].
  - rewrite E. now rewrite !Z.mod_0_r.
  - now rewrite Z.add_mod_idemp_l.
Qed.

(** X1.  An interrupt for a stream without a session, or whose session has
    no position descriptor yet, writes nothing to shared memory and raises
    no interrupt in the front end; the hardware interrupt is acknowledged
    all the same. *)
Theorem vbe_stream_update_without_descriptor (cnt_bits : Z) (s : vbe_state)
    (hs : option stream_key) (pos : Z) :
  (forall k, hs = Some k -> bound_descriptor s k = None) ->
  vbe_stream_update cnt_bits hs pos s
  = Some (tt, mk_vbe (shm s) (client_list s) (substreams s) (pending_msg_list s)
                (vq_avail s) (guest_mem s) (trace s ++ [EvHdaIrqAck])).
Proof.
  intros Hunbound. unfold vbe_stream_update.
  destruct hs as [k|].
  - assert (Hnone : vbe_find_substream_info (client_list s) k = None \/
                    exists info, vbe_find_substream_info (client_list s) k = Some info /\
                                 info_pos_desc info = None).
    { specialize (Hunbound k eq_refl). unfold bound_descriptor in Hunbound.
      destruct (vbe_find_substream_info (client_list s) k) as [info|];
        [right; eauto | now left]. }
    rewrite (bind_run _ _ _ _ _ (skl_notify_stream_update_unbound cnt_bits s k pos Hnone)).
    reflexivity.
  - reflexivity.
Qed.

Lemma vbe_stream_update_without_descriptor_witness :
  vbe_stream_update 64 (Some ("pcm1"%string, 0)) 96 vbe_one_session
  = Some (tt, mk_vbe (shm vbe_one_session) (client_list vbe_one_session)
                (substreams vbe_one_session) (pending_msg_list vbe_one_session)
                (vq_avail vbe_one_session) (guest_mem vbe_one_session)
                [EvHdaIrqAck]).
Proof.
  apply (vbe_stream_update_without_descriptor 64 vbe_one_session
           (Some ("pcm1"%string, 0)) 96).
  intros k [= <-]. reflexivity.
Defined.

(** One interrupt of a stream with a descriptor, state and trace. *)
Lemma vbe_stream_update_bound cnt_bits s k a pos :
  bound_descriptor s k = Some a ->
  vbe_stream_update cnt_bits (Some k) pos s
  = Some (tt,
          let s1 := after_position_update cnt_bits s k a pos in
          mk_vbe (shm s1) (client_list s) (substreams s) (pending_msg_list s)
            (vq_avail s) (guest_mem s) (trace s1 ++ [EvHdaIrqAck])).
Proof.
  intros Hbound. unfold bound_descriptor in Hbound.
  destruct (vbe_find_substream_info (client_list s) k) as [info|] eqn:Hfind;
    [|discriminate].
  unfold vbe_stream_update.
  rewrite (bind_run _ _ _ _ _
             (skl_notify_stream_update_bound cnt_bits s k pos info a Hfind Hbound)).
  reflexivity.
Qed.

Lemma vbe_stream_updates_of_one_stream (cnt_bits : Z) (k : stream_key) (a : Z)
    (positions : list Z) : forall (s : vbe_state) (p0 : Z),
  bound_descriptor s k = Some a ->
  exists s' evs,
    vbe_stream_updates cnt_bits (same_stream_irqs k (p0 :: positions)) s
    = Some (tt, s') /\
    trace s' = trace s ++ evs /\
    hw_ptr (shm s' a) = wrap cnt_bits (List.last (p0 :: positions) 0) /\
    be_irq_cnt (shm s' a)
    = wrap cnt_bits (be_irq_cnt (shm s a) + Z.of_nat (length (p0 :: positions))) /\
    fe_irq_cnt (shm s' a) = fe_irq_cnt (shm s a) /\
    (forall x, x <> a -> shm s' x = shm s x) /\
    client_list s' = client_list s /\
    length (List.filter is_fe_interrupt evs) = length (p0 :: positions) /\
    length (List.filter is_hda_irq_ack evs) = length (p0 :: positions).
Proof.
  induction positions as [|p1 rest IH]; intros s p0 Hbound.
  - cbn [same_stream_irqs map vbe_stream_updates].
    rewrite (bind_run _ _ _ _ _ (vbe_stream_update_bound cnt_bits s k a p0 Hbound)).
    eexists _, _. split; [reflexivity|].
    cbn [shm trace client_list after_position_update].
    split; [now rewrite <- app_assoc|].
    rewrite !shm_update_same. cbn.
    repeat split.
    intros x Hx. now rewrite !shm_update_other.
  - cbn [same_stream_irqs map vbe_stream_updates].
    rewrite (bind_run _ _ _ _ _ (vbe_stream_update_bound cnt_bits s k a p0 Hbound)).
    cbv beta zeta.
    match goal with |- context [bind _ _ ?s1] =>
      destruct (IH s1 p1) as (s' & evs & Hrun & Htr & Hhw & Hbe & Hfe & Hoth & Hcl & Hn1 & Hn2)
    end.
    { unfold bound_descriptor in *. exact Hbound. }
    cbn [shm trace client_list after_position_update] in Htr, Hhw, Hbe, Hfe, Hoth, Hcl.
    rewrite !shm_update_same in Hbe, Hfe. cbn in Hbe, Hfe.
    eexists s', _. split; [exact Hrun|].
    split; [rewrite Htr; rewrite <- !app_assoc; reflexivity|].
    split; [exact Hhw|].
    split.
    { rewrite Hbe, wrap_add. f_equal. cbn [length]. lia. }
    split; [exact Hfe|].
    split.
    { intros x Hx. rewrite Hoth by exact Hx. now rewrite !shm_update_other. }
    split; [exact Hcl|].
    unfold position_update_steps.
    rewrite !List.filter_app, !length_app, Hn1, Hn2.
    split; reflexivity.
Qed.

(** X2.  A run of interrupts of one stream with a descriptor at [a] leaves
    the last hardware position in hw_ptr, adds the number of interrupts to
    be_irq_cnt (modulo the counter width), keeps fe_irq_cnt and every other
    descriptor, and has raised one front-end interrupt and one hardware
    acknowledge per interrupt. *)
Theorem vbe_stream_updates_same_stream (cnt_bits : Z) (k : stream_key) (a : Z)
    (positions : list Z) (s : vbe_state) (p0 : Z) :
  bound_descriptor s k = Some a ->
  exists s' evs,
    vbe_stream_updates cnt_bits (same_stream_irqs k (p0 :: positions)) s
    = Some (tt, s') /\
    trace s' = trace s ++ evs /\
    hw_ptr (shm s' a) = wrap cnt_bits (List.last (p0 :: positions) 0) /\
    be_irq_cnt (shm s' a)
    = wrap cnt_bits (be_irq_cnt (shm s a) + Z.of_nat (length (p0 :: positions))) /\
    fe_irq_cnt (shm s' a) = fe_irq_cnt (shm s a) /\
    (forall x, x <> a -> shm s' x = shm s x) /\
    client_list s' = client_list s /\
    length (List.filter is_fe_interrupt evs) = length (p0 :: positions) /\
    length (List.filter is_hda_irq_ack evs) = length (p0 :: positions).
Proof.
  intros Hbound.
  exact (vbe_stream_updates_of_one_stream cnt_bits k a positions s p0 Hbound).
Qed.

Lemma vbe_stream_updates_same_stream_witness :
  exists s',
    vbe_stream_updates 64 (same_stream_irqs pcm0_playback [128; 256; 384])
      vbe_one_session = Some (tt, s') /\
    hw_ptr (shm s' 4096) = 384 /\ be_irq_cnt (shm s' 4096) = 3.
Proof.
  destruct (vbe_stream_updates_same_stream 64 pcm0_playback 4096 [256; 384]
              vbe_one_session 128 eq_refl)
    as (s' & evs & Hrun & _ & Hhw & Hbe & _).
  exists s'. split; [exact Hrun|]. split; [exact Hhw | exact Hbe].
Defined.

(** ** Wake-ups of the front end *)

Lemma vfe_cmd_handle_rx_list_skip env cnt_bits l : forall s,
  (forall info pd, info ∈ l -> vfe_pos_desc info = Some pd ->
     needs_update info (fe_shm s pd) = false) ->
  vfe_cmd_handle_rx_list env cnt_bits l s = Some (tt, s).
Proof.
  induction l as [|info rest IH]; intros s Hskip; [reflexivity|].
  cbn [vfe_cmd_handle_rx_list].
  assert (Hhead : forall pd, vfe_pos_desc info = Some pd ->
                    needs_update info (fe_shm s pd) = false).
  { intros pd. apply Hskip. now left. }
  rewrite (bind_run _ _ _ _ _ (vfe_cmd_handle_rx_one_skip env cnt_bits s info Hhead)).
  apply IH. intros i pd Hin. apply Hskip. now right.
Qed.

Lemma vfe_cmd_handle_rx_list_sessions env cnt_bits l : forall s s',
  vfe_cmd_handle_rx_list env cnt_bits l s = Some (tt, s') ->
  fe_substr_info_list s' = fe_substr_info_list s /\
  not_tx_vq s' = not_tx_vq s /\ not_tx_used s' = not_tx_used s /\
  expired_msg_list s' = expired_msg_list s /\ caller_rx s' = caller_rx s /\
  completed s' = completed s /\ next_id s' = next_id s.
Proof.
  induction l as [|info rest IH]; intros s s' Hrun.
  - injection Hrun as <-. repeat split.
  - cbn [vfe_cmd_handle_rx_list] in Hrun. unfold bind at 1 in Hrun.
    destruct (vfe_pos_desc info) as [pd|] eqn:Hpd.
    + destruct (needs_update info (fe_shm s pd)) eqn:Hneed.
      * rewrite (vfe_cmd_handle_rx_one_update env cnt_bits s info pd Hpd Hneed) in Hrun.
        apply IH in Hrun. exact Hrun.
      * rewrite (vfe_cmd_handle_rx_one_skip env cnt_bits s info) in Hrun.
        -- now apply IH in Hrun.
        -- intros pd' Hpd'. rewrite Hpd in Hpd'. injection Hpd' as <-. exact Hneed.
    + rewrite (vfe_cmd_handle_rx_one_skip env cnt_bits s info) in Hrun.
      -- now apply IH in Hrun.
      -- intros pd' Hpd'. rewrite Hpd in Hpd'. discriminate.
Qed.

(** X3.  A second wake-up that arrives before the back end has advanced a
    counter does nothing: no descriptor changes, no period-elapsed call,
    only the load barrier is issued. *)
Theorem vfe_cmd_handle_rx_twice (env : vfe_env) (cnt_bits : Z) (s : vfe_state) :
  NoDup (omap vfe_pos_desc (fe_substr_info_list s)) ->
  exists s1,
    vfe_cmd_handle_rx env cnt_bits s = Some (tt, s1) /\
    vfe_cmd_handle_rx env cnt_bits s1
    = Some (tt, mk_vfe (fe_shm s1) (fe_substr_info_list s1) (not_tx_vq s1)
                  (not_tx_used s1) (expired_msg_list s1) (caller_rx s1)
                  (completed s1) (next_id s1) (fe_trace s1 ++ [FeRmb])).
Proof.
  intros Hnodup.
  unfold vfe_cmd_handle_rx at 1. unfold bind at 1. unfold fe_emit at 1.
  unfold bind at 1. unfold get at 1. cbv beta iota. fe_fields.
  match goal with |- context [vfe_cmd_handle_rx_list _ _ _ ?s0] =>
    destruct (vfe_cmd_handle_rx_list_spec env cnt_bits (fe_substr_info_list s) s0 Hnodup)
      as (s1 & evs & Hrun & _ & _ & Hown);
    pose proof (vfe_cmd_handle_rx_list_sessions env cnt_bits _ _ _ Hrun)
      as (Hlist & _)
  end.
  fe_fields_in Hlist. fe_fields_in Hown.
  exists s1. split; [exact Hrun|].
  unfold vfe_cmd_handle_rx. unfold bind at 1. unfold fe_emit at 1.
  unfold bind at 1. unfold get at 1. cbv beta iota. fe_fields.
  apply vfe_cmd_handle_rx_list_skip. fe_fields.
  intros info pd Hin Hpd. rewrite Hlist in Hin.
  specialize (Hown info pd Hin Hpd).
  destruct (needs_update info (fe_shm s pd)) eqn:Hneed.
  - destruct Hown as [Hshm _]. rewrite Hshm.
    unfold needs_update. cbn [be_irq_cnt fe_irq_cnt set_fe_irq_cnt].
    rewrite Z.eqb_refl. cbn [negb]. now rewrite andb_false_r.
  - now rewrite Hown.
Qed.

Lemma vfe_cmd_handle_rx_twice_witness :
  exists s1,
    vfe_cmd_handle_rx vfe_env_quiet 64 vfe_two_sessions = Some (tt, s1) /\
    option_map (fun r => fe_shm (snd r) 100)
      (vfe_cmd_handle_rx vfe_env_quiet 64 s1)
    = Some (fe_shm s1 100).
Proof.
  destruct (vfe_cmd_handle_rx_twice vfe_env_quiet 64 vfe_two_sessions)
    as (s1 & Hrun & Hagain).
  - simpl. apply NoDup_cons. split.
    + intros Hin. apply list_elem_of_singleton in Hin. discriminate.
    + apply NoDup_singleton.
  - exists s1. split; [exact Hrun|]. rewrite Hagain. reflexivity.
Defined.

(** X4.  Back end and front end over the same descriptor.  Take a
    descriptor whose two counters agree, n >= 1 interrupts of its stream
    with n below 2^31 and the counter not wrapping (counters of at least 32
    bits), and a front end whose session list holds an open, running,
    unlocked session on that descriptor.  Then the wake-up that follows
    brings fe_irq_cnt up to be_irq_cnt, finds the last hardware position in
    hw_ptr, and logs and calls for that session exactly: the
    missed-interrupts warning with the gap n when n >= 2, one period-elapsed
    call, and the events of the recovery if that call fails. *)
Theorem vbe_updates_then_vfe_wake (env : vfe_env) (cnt_bits : Z) (k : stream_key)
    (a : Z) (p0 : Z) (positions : list Z) (s : vbe_state) (f : vfe_state)
    (info : vfe_substream_info) :
  let n := Z.of_nat (length (p0 :: positions)) in
  let c := be_irq_cnt (shm s a) in
  bound_descriptor s k = Some a ->
  info ∈ fe_substr_info_list f ->
  NoDup (omap vfe_pos_desc (fe_substr_info_list f)) ->
  vfe_pos_desc info = Some a ->
  vfe_open info = true -> vfe_running info = true -> vfe_locked info = false ->
  fe_irq_cnt (shm s a) = c ->
  0 <= c -> c + n < 2 ^ cnt_bits -> 32 <= cnt_bits -> n < 2 ^ 31 ->
  exists s' f' recovery,
    vbe_stream_updates cnt_bits (same_stream_irqs k (p0 :: positions)) s
    = Some (tt, s') /\
    vfe_cmd_handle_rx env cnt_bits (with_fe_shm (shm s') f) = Some (tt, f') /\
    fe_trace f'
    = fe_trace f
      ++ FeRmb :: flat_map (session_events env cnt_bits (shm s'))
                    (fe_substr_info_list f) /\
    session_events env cnt_bits (shm s') info
    = (if 2 <=? n then [FeWarnMissed n (vfe_pcm_id info)] else [])
      ++ FePeriodElapsed (vfe_pcm_id info, vfe_direction info) :: recovery /\
    forallb is_recovery_event recovery = true /\
    be_irq_cnt (fe_shm f' a) = c + n /\
    fe_irq_cnt (fe_shm f' a) = c + n /\
    hw_ptr (fe_shm f' a) = wrap cnt_bits (List.last (p0 :: positions) 0).
Proof.
  intros n c Hbound Hin Hnodup Hpd Hopen Hrun Hlock Hfe Hc Hmax Hbits Hn.
  destruct (vbe_stream_updates_of_one_stream cnt_bits k a positions s p0 Hbound)
    as (s' & bevs & Hupd & _ & Hhw & Hbe & Hfe' & _).
  fold n c in Hbe.
  assert (Hn1 : 1 <= n) by (subst n; cbn [length]; lia).
  assert (Hbe' : be_irq_cnt (shm s' a) = c + n).
  { rewrite Hbe. unfold wrap. apply Z.mod_small. lia. }
  rewrite Hfe in Hfe'.
  assert (Hneed : needs_update info (shm s' a) = true).
  { unfold needs_update.
    rewrite Hopen, Hrun, Hlock, Hbe', Hfe'. cbn [andb negb].
    rewrite andb_true_r. apply negb_true_iff. apply Z.eqb_neq. lia. }
  assert (Hdiff : irq_diff cnt_bits (shm s' a) = n).
  { rewrite irq_diff_small; [|exact Hbits|rewrite Hbe', Hfe'; lia].
    rewrite Hbe', Hfe'. lia. }
  destruct (vfe_cmd_handle_rx_exact env cnt_bits (with_fe_shm (shm s') f) Hnodup)
    as (f' & Hwake & Htr & _ & _ & Hown).
  specialize (Hown info a Hin Hpd).
  cbn [with_fe_shm fe_shm fe_trace fe_substr_info_list] in Htr, Hown.
  rewrite Hneed in Hown.
  destruct (position_update_events_shape env cnt_bits info (shm s' a))
    as (recovery & Hshape & Hrec).
  exists s', f', recovery. split; [exact Hupd|]. split; [exact Hwake|].
  split; [exact Htr|].
  split.
  { unfold session_events. rewrite Hpd, Hneed, Hshape, Hdiff.
    replace (1 <? n) with (2 <=? n); [reflexivity|].
    destruct (2 <=? n) eqn:E1, (1 <? n) eqn:E2; try reflexivity;
      [apply Z.leb_le in E1; apply Z.ltb_ge in E2
      |apply Z.leb_gt in E1; apply Z.ltb_lt in E2]; lia. }
  split; [exact Hrec|].
  rewrite Hown. cbn [be_irq_cnt fe_irq_cnt hw_ptr set_fe_irq_cnt].
  split; [exact Hbe'|]. split; [exact Hbe' | exact Hhw].
Qed.

Lemma vbe_updates_then_vfe_wake_witness :
  exists s' f' recovery,
    vbe_stream_updates 64 (same_stream_irqs pcm0_playback [128; 256]) vbe_one_session
    = Some (tt, s') /\
    vfe_cmd_handle_rx vfe_env_quiet 64
      (with_fe_shm (shm s')
         (mk_vfe zero_shm [mk_vfe_info "pcm0" 0 true true (Some 4096) false]
            [] [] [] ∅ ∅ 1000 []))
    = Some (tt, f') /\
    fe_trace f'
    = [FeRmb; FeWarnMissed 2 "pcm0"; FePeriodElapsed ("pcm0"%string, 0)] ++ recovery /\
    forallb is_recovery_event recovery = true /\
    fe_irq_cnt (fe_shm f' 4096) = 2.
Proof.
  destruct (vbe_updates_then_vfe_wake vfe_env_quiet 64 pcm0_playback 4096 128 [256]
              vbe_one_session
              (mk_vfe zero_shm [mk_vfe_info "pcm0" 0 true true (Some 4096) false]
                 [] [] [] ∅ ∅ 1000 [])
              (mk_vfe_info "pcm0" 0 true true (Some 4096) false))
    as (s' & f' & recovery & Hupd & Hwake & Htr & Hown & Hrec & _ & Hfe & _).
  - reflexivity.
  - cbn. apply elem_of_cons. now left.
  - cbn. apply NoDup_singleton.
  - reflexivity.
  - reflexivity.
  - reflexivity.
  - reflexivity.
  - reflexivity.
  - cbn. lia.
  - cbn. lia.
  - lia.
  - cbn. lia.
  - exists s', f', recovery. split; [exact Hupd|]. split; [exact Hwake|].
    split; [|split; [exact Hrec | exact Hfe]].
    rewrite Htr. cbn [fe_trace fe_substr_info_list flat_map app].
    rewrite Hown, app_nil_r. reflexivity.
Defined.

(** ** More on the pending queue *)

Lemma be_step_conserves a s :
  exists s',
    be_step a s = Some (tt, s') /\
    delivered_msgs (trace s') ++ pending_msg_list s'
    ≡ₚ delivered_msgs (trace s) ++ pending_msg_list s
       ++ match a with ActSend m => [m] | _ => [] end.
Proof.
  destruct a as [m| |c]; cbn [be_step].
  - destruct (vbe_skl_send_or_enqueue_spec SKL_VIRTIO_IPC_NOT_RX_VQ m s)
      as (s' & evs & Hrun & Htr & Hfull & Hfree).
    exists s'. split; [exact Hrun|]. rewrite Htr, delivered_msgs_app.
    destruct (match vq_avail s SKL_VIRTIO_IPC_NOT_RX_VQ with
              | [] => false
              | c :: _ => 0 <? chain_ret c
              end).
    + destruct (Hfree eq_refl) as [-> ->].
      rewrite <- !app_assoc. apply Permutation_app_head.
      apply Permutation_app_comm.
    + destruct (Hfull eq_refl) as [-> ->]. now rewrite app_nil_r.
  - destruct (vbe_skl_ipc_fe_not_reply_get_spec SKL_VIRTIO_IPC_NOT_RX_VQ s)
      as (s' & evs & Hrun & Htr & Hdel & Hp & _).
    exists s'. split; [exact Hrun|].
    rewrite Htr, delivered_msgs_app, Hdel, Hp, app_nil_r, <- app_assoc.
    now rewrite take_drop.
  - eexists. split; [reflexivity|]. be_fields. now rewrite app_nil_r.
Qed.

Lemma vbe_skl_try_send_usable vq m s c rest :
  vq_avail s vq = c :: rest ->
  0 < chain_ret c ->
  vbe_skl_try_send vq m s
  = Some (true,
          mk_vbe (shm s) (client_list s) (substreams s) (pending_msg_list s)
            (fun q => if vq_eqb q vq then rest else vq_avail s q) (guest_mem s)
            (trace s
             ++ (if iov_len c <? sizeof_msg m
                 then [EvDevErr "iov len too short"; EvRelChain vq (iov_len c)]
                 else [])
             ++ [EvDelivered vq m])).
Proof.
  intros Havail Hret. apply Z.ltb_lt in Hret.
  unfold vbe_skl_try_send, bind, get. rewrite Havail.
  unfold set_vq_avail at 1. rewrite Hret.
  destruct (iov_len c <? sizeof_msg m); unfold emit, ret; be_fields;
    rewrite <- ?app_assoc; reflexivity.
Qed.

(** X5.  Over any interleaving of sends, kicks and chains made available
    no notification is lost and none is copied into more than one chain:
    the messages copied so far together with those still pending are the
    ones copied and pending before together with the messages sent.  What
    the guest is handed per copy depends on the chain: a chain at least as
    long as the message is released once, after the copy; a shorter one is
    logged and released before the copy and released again after it, so it
    appears twice on the used ring. *)
Theorem be_run_conserves_messages :
  (forall (acts : list be_action) (s : vbe_state),
      exists enqueued drained s',
        be_run acts s = Some (enqueued, drained, s') /\
        delivered_msgs (trace s') ++ pending_msg_list s'
        ≡ₚ delivered_msgs (trace s) ++ pending_msg_list s ++ sent_msgs acts) /\
  (forall (vq : vq_index) (m : vfe_pending_msg) (s : vbe_state) (c : vq_chain)
          (rest : list vq_chain),
      vq_avail s vq = c :: rest ->
      0 < chain_ret c ->
      exists s' evs,
        vbe_skl_try_send vq m s = Some (true, s') /\
        trace s' = trace s ++ evs /\
        delivered_msgs evs = [m] /\
        evs = (if iov_len c <? sizeof_msg m
               then [EvDevErr "iov len too short"; EvRelChain vq (iov_len c)]
               else [])
              ++ [EvDelivered vq m] /\
        used_entries evs = if iov_len c <? sizeof_msg m then 2%nat else 1%nat).
Proof.
  split.
  - induction acts as [|a rest IH]; intros s.
    + exists [], [], s. split; [reflexivity|]. cbn. now rewrite app_nil_r.
    + cbn [be_run].
      destruct (be_step_conserves a s) as (s1 & Hstep & Hperm1).
      rewrite Hstep.
      destruct (IH s1) as (e & d & s2 & Hrun & Hperm2). rewrite Hrun.
      eexists _, _, s2. split; [reflexivity|].
      rewrite Hperm2, app_assoc, Hperm1.
      rewrite <- !app_assoc. do 2 apply Permutation_app_head.
      destruct a; reflexivity.
  - intros vq m s c rest Havail Hret.
    eexists _, _. split; [exact (vbe_skl_try_send_usable vq m s c rest Havail Hret)|].
    be_fields. split; [reflexivity|].
    split; [destruct (iov_len c <? sizeof_msg m); reflexivity|].
    split; [reflexivity|].
    destruct (iov_len c <? sizeof_msg m); reflexivity.
Qed.

Lemma be_run_conserves_messages_witness :
  exists s',
    vbe_skl_try_send SKL_VIRTIO_IPC_NOT_RX_VQ (noti "Speaker Switch")
      (mk_vbe zero_shm [] ∅ []
         (fun q => if vq_eqb q SKL_VIRTIO_IPC_NOT_RX_VQ then [short_chain] else [])
         (fun _ => 0) [])
    = Some (true, s') /\
    trace s'
    = [EvDevErr "iov len too short"; EvRelChain SKL_VIRTIO_IPC_NOT_RX_VQ 4;
       EvDelivered SKL_VIRTIO_IPC_NOT_RX_VQ (noti "Speaker Switch")].
Proof.
  destruct be_run_conserves_messages as [_ Hsend].
  destruct (Hsend SKL_VIRTIO_IPC_NOT_RX_VQ (noti "Speaker Switch")
              (mk_vbe zero_shm [] ∅ []
                 (fun q => if vq_eqb q SKL_VIRTIO_IPC_NOT_RX_VQ then [short_chain] else [])
                 (fun _ => 0) [])
              short_chain [])
    as (s' & evs & Hrun & Htr & _ & Hevs & _).
  - reflexivity.
  - reflexivity.
  - exists s'. split; [exact Hrun|]. rewrite Htr, Hevs. reflexivity.
Defined.

Lemma drain_count_all pending : forall avail,
  (length pending <= length avail)%nat ->
  forallb usable_chain (take (length pending) avail) = true ->
  drain_count pending avail = length pending /\
  drain_avail pending avail = drop (length pending) avail.
Proof.
  induction pending as [|m rest IH]; intros avail Hlen Hok.
  - split; reflexivity.
  - destruct avail as [|c avail']; [simpl in Hlen; lia|].
    cbn [length take forallb] in Hok.
    apply andb_prop in Hok as [Hc Hrest].
    unfold usable_chain in Hc.
    cbn [drain_count drain_avail length drop]. rewrite Hc.
    destruct (IH avail') as [-> ->]; [simpl in Hlen; lia | exact Hrest |].
    split; reflexivity.
Qed.

(** X6.  When the queue offers at least as many usable chains as there are
    pending notifications, one kick delivers all of them in queue order,
    empties the pending list and uses up exactly that many chains. *)
Theorem vbe_kick_with_enough_chains (s : vbe_state) :
  let vq := SKL_VIRTIO_IPC_NOT_RX_VQ in
  let n := length (pending_msg_list s) in
  (n <= length (vq_avail s vq))%nat ->
  forallb usable_chain (take n (vq_avail s vq)) = true ->
  exists s' evs,
    vbe_skl_ipc_fe_not_reply_get vq s = Some (tt, s') /\
    trace s' = trace s ++ evs /\
    delivered_msgs evs = pending_msg_list s /\
    pending_msg_list s' = [] /\
    vq_avail s' vq = drop n (vq_avail s vq).
Proof.
  intros vq n Hlen Hok.
  destruct (vbe_skl_ipc_fe_not_reply_get_spec vq s)
    as (s' & evs & Hrun & Htr & Hdel & Hp & Hav).
  destruct (drain_count_all (pending_msg_list s) (vq_avail s vq) Hlen Hok)
    as [Hcount Hrest].
  exists s', evs. split; [exact Hrun|]. split; [exact Htr|].
  rewrite Hcount in Hdel, Hp. rewrite Hrest in Hav.
  rewrite firstn_all in Hdel. rewrite drop_all in Hp.
  repeat split; assumption.
Qed.

Lemma vbe_kick_with_enough_chains_witness :
  option_map (fun r => (delivered_msgs (trace (snd r)), pending_msg_list (snd r)))
    (vbe_skl_ipc_fe_not_reply_get SKL_VIRTIO_IPC_NOT_RX_VQ
       (mk_vbe zero_shm [] ∅ [noti "A"; noti "B"]
          (fun _ => [good_chain; good_chain; good_chain]) (fun _ => 0) []))
  = Some ([noti "A"; noti "B"], []).
Proof.
  destruct (vbe_kick_with_enough_chains
              (mk_vbe zero_shm [] ∅ [noti "A"; noti "B"]
                 (fun _ => [good_chain; good_chain; good_chain]) (fun _ => 0) []))
    as (s' & evs & Hrun & Htr & Hdel & Hp & _).
  - simpl. lia.
  - reflexivity.
  - rewrite Hrun. cbn [option_map snd]. rewrite Htr, Hp.
    cbn [trace app]. now rewrite Hdel.
Defined.

(** X7.  A kick that finds no chain on the queue changes nothing: the
    pending notifications stay queued in their order for the next kick. *)
Theorem vbe_kick_without_chain (s : vbe_state) :
  vq_avail s SKL_VIRTIO_IPC_NOT_RX_VQ = [] ->
  vbe_skl_ipc_fe_not_reply_get SKL_VIRTIO_IPC_NOT_RX_VQ s = Some (tt, s).
Proof.
  intros Hempty.
  unfold vbe_skl_ipc_fe_not_reply_get. unfold bind at 1. unfold get at 1.
  cbv beta iota.
  destruct (pending_msg_list s) as [|entry rest] eqn:Hp; [reflexivity|].
  assert (Htry : vbe_skl_try_send SKL_VIRTIO_IPC_NOT_RX_VQ entry s = Some (false, s)).
  { unfold vbe_skl_try_send. unfold bind at 1. unfold get at 1. cbv beta iota.
    now rewrite Hempty. }
  cbn [length not_reply_loop]. unfold bind at 1. unfold get at 1.
  cbv beta iota. rewrite Hp.
  rewrite (bind_run _ _ _ _ _ Htry). reflexivity.
Qed.

Lemma vbe_kick_without_chain_witness :
  vbe_skl_ipc_fe_not_reply_get SKL_VIRTIO_IPC_NOT_RX_VQ
    (mk_vbe zero_shm [] ∅ [noti "A"] (fun _ => []) (fun _ => 0) [])
  = Some (tt, mk_vbe zero_shm [] ∅ [noti "A"] (fun _ => []) (fun _ => 0) []).
Proof.
  apply (vbe_kick_without_chain
           (mk_vbe zero_shm [] ∅ [noti "A"] (fun _ => []) (fun _ => 0) [])).
  reflexivity.
Defined.

(** ** More on the session registry *)

(** The dispatch of vbe_skl_msg_pcm_handle once a client is attached. *)
Lemma vbe_skl_msg_pcm_handle_dispatch env sdev s msg client rest :
  client_list s = client :: rest ->
  vbe_skl_msg_pcm_handle env sdev msg s
  = match cmd (header msg) with
    | VFE_MSG_PCM_OPEN => vbe_skl_pcm_open env sdev msg s
    | c =>
        match vbe_find_substream_info_by_pcm (substr_info_list client)
                (desc_pcm_id (header msg)) (desc_direction (header msg)) with
        | None =>
            Some ((- ENODEV, rx_data msg),
                  mk_vbe (shm s) (client_list s) (substreams s) (pending_msg_list s)
                    (vq_avail s) (guest_mem s)
                    (trace s ++ [EvDevErr "Can not find active substream"]))
        | Some info =>
            match c with
            | VFE_MSG_PCM_CLOSE => vbe_skl_pcm_close env info msg s
            | VFE_MSG_PCM_PREPARE => vbe_skl_pcm_prepare env info msg s
            | VFE_MSG_PCM_HW_PARAMS => vbe_skl_pcm_hw_params env info msg s
            | VFE_MSG_PCM_TRIGGER => vbe_skl_pcm_trigger env info msg s
            | _ =>
                Some ((0, rx_data msg),
                      mk_vbe (shm s) (client_list s) (substreams s)
                        (pending_msg_list s) (vq_avail s) (guest_mem s)
                        (trace s ++ [EvDevErr "PCM stream notification not supported"]))
            end
        end
    end.
Proof.
  intros Hclient.
  assert (Hfirst : first_client s = Some client)
    by (unfold first_client; now rewrite Hclient).
  unfold vbe_skl_msg_pcm_handle. unfold bind at 1. unfold get at 1.
  cbv beta iota. rewrite Hfirst.
  destruct (cmd (header msg)); try reflexivity;
    destruct (vbe_find_substream_info_by_pcm _ _ _); reflexivity.
Qed.

Lemma update_found_head key l :
  update_found (new_session key :: l) (fst key) (snd key) (fun _ => None) = l.
Proof.
  cbn [update_found new_session info_direction info_pcm_id].
  unfold pcm_id_eqb. now rewrite Z.eqb_refl, String.eqb_refl.
Qed.

(** X8.  Open followed by Close of the same stream: both are forwarded to
    the stream in this order, the registry of the client is back to what it
    was, and the substream is free again (ref_count 0). *)
Theorem vbe_open_then_close (env : vbe_env) (sdev : skl) (s : vbe_state)
    (open_msg close_msg : vbe_ipc_msg) (rtd : snd_soc_pcm_runtime)
    (sub : snd_pcm_substream) (client : snd_skl_vbe_client)
    (rest : list snd_skl_vbe_client) :
  let key : stream_key :=
    (desc_pcm_id (header open_msg), desc_direction (header open_msg)) in
  cmd (header open_msg) = VFE_MSG_PCM_OPEN ->
  cmd (header close_msg) = VFE_MSG_PCM_CLOSE ->
  desc_pcm_id (header close_msg) = desc_pcm_id (header open_msg) ->
  desc_direction (header close_msg) = desc_direction (header open_msg) ->
  client_list s = client :: rest ->
  vbe_skl_find_rtd_by_pcm_id sdev (fst key) = Some rtd ->
  vbe_skl_pcm_check_permission sdev (to_int (hdr_domain_id (header open_msg)))
    (fst key) (snd key) = 0 ->
  substreams s !! key = Some sub ->
  ref_count sub <= 0 ->
  sg_table sub <> Some [] ->
  runtime_alloc_ok env = true ->
  info_alloc_ok env = true ->
  exists s1 s2 evs,
    vbe_skl_msg_pcm_handle env sdev open_msg s
    = Some ((ops_open env key, write_result (rx_data open_msg) (ops_open env key)), s1) /\
    vbe_skl_msg_pcm_handle env sdev close_msg s1
    = Some ((ops_close env key, write_result (rx_data close_msg) (ops_close env key)),
            s2) /\
    client_list s2 = client_list s /\
    (exists sub2, substreams s2 !! key = Some sub2 /\ ref_count sub2 = 0) /\
    trace s2 = trace s ++ [EvOpsOpen key] ++ evs ++ [EvOpsClose key].
Proof.
  intros key Hopen Hclose Hid Hdir Hclient Hrtd Hperm Hsub Hfree Htable Hralloc Hialloc.
  pose proof (vbe_skl_pcm_open_admitted env sdev s open_msg rtd sub client rest
                Hrtd Hperm Hsub Hfree Hralloc Hialloc Hclient) as Hadmit.
  cbv zeta in Hadmit. fold key in Hadmit.
  match type of Hadmit with _ = Some (_, ?st) => set (s1 := st) in * end.
  pose proof (vbe_skl_msg_pcm_handle_dispatch env sdev s1 close_msg
                (mk_client (new_session key :: substr_info_list client) (tplg client))
                rest eq_refl) as Hdisp.
  destruct (vbe_skl_pcm_close_run env s1 close_msg (new_session key)
              (mk_substream (to_int (ref_count sub + 1)) true (sg_table sub))
              (mk_client (new_session key :: substr_info_list client) (tplg client))
              rest)
    as (s2 & Hrun & Hlist & Hsub2 & evs & Htr).
  { subst s1. be_fields. apply lookup_insert_eq. }
  { exact Htable. }
  { reflexivity. }
  assert (Hfind :
    vbe_find_substream_info_by_pcm (new_session key :: substr_info_list client)
      (desc_pcm_id (header open_msg)) (desc_direction (header open_msg))
    = Some (new_session key)) by apply (vbe_find_new_session _ key).
  assert (Hupd :
    update_found (new_session key :: substr_info_list client)
      (info_pcm_id (new_session key)) (info_direction (new_session key))
      (fun _ => None)
    = substr_info_list client) by apply (update_found_head key).
  rewrite Hclose, Hid, Hdir in Hdisp. cbn [substr_info_list] in Hdisp.
  rewrite Hfind in Hdisp.
  cbn [substr_info_list tplg] in Hlist. rewrite Hupd in Hlist.
  exists s1, s2, evs.
  split.
  { rewrite (vbe_skl_msg_pcm_handle_dispatch env sdev s open_msg client rest Hclient).
    rewrite Hopen. exact Hadmit. }
  split; [rewrite Hdisp; exact Hrun|].
  split; [rewrite Hlist, Hclient; now destruct client|].
  split; [exact Hsub2|].
  rewrite Htr. subst s1. be_fields. now rewrite <- app_assoc.
Qed.

Lemma vbe_open_then_close_witness :
  exists s1 s2,
    vbe_skl_msg_pcm_handle vbe_env_simple sdev_simple
      (mk_ipc_msg (pcm_header VFE_MSG_PCM_OPEN 1) None 0 (Some pcm_result_buf) 4)
      vbe_idle
    = Some ((0, Some (set_rx_ret 0 pcm_result_buf)), s1) /\
    vbe_skl_msg_pcm_handle vbe_env_simple sdev_simple
      (mk_ipc_msg (pcm_header VFE_MSG_PCM_CLOSE 1) None 0 (Some pcm_result_buf) 4) s1
    = Some ((0, Some (set_rx_ret 0 pcm_result_buf)), s2) /\
    client_list s2 = [mk_client [] None].
Proof.
  destruct (vbe_open_then_close vbe_env_simple sdev_simple vbe_idle
              (mk_ipc_msg (pcm_header VFE_MSG_PCM_OPEN 1) None 0 (Some pcm_result_buf) 4)
              (mk_ipc_msg (pcm_header VFE_MSG_PCM_CLOSE 1) None 0 (Some pcm_result_buf) 4)
              (mk_rtd "pcm0" (fun _ => Some 1)) (mk_substream 0 false (Some [8192]))
              (mk_client [] None) [])
    as (s1 & s2 & evs & Hopen & Hclose & Hlist & _).
  - reflexivity.
  - reflexivity.
  - reflexivity.
  - reflexivity.
  - reflexivity.
  - reflexivity.
  - reflexivity.
  - reflexivity.
  - cbn. lia.
  - discriminate.
  - reflexivity.
  - reflexivity.
  - exists s1, s2. split; [exact Hopen|]. split; [exact Hclose | exact Hlist].
Defined.

Lemma vbe_skl_pcm_open_refused_busy env sdev s msg rtd sub :
  vbe_skl_find_rtd_by_pcm_id sdev (desc_pcm_id (header msg)) = Some rtd ->
  vbe_skl_pcm_check_permission sdev (to_int (hdr_domain_id (header msg)))
    (desc_pcm_id (header msg)) (desc_direction (header msg)) = 0 ->
  substreams s
    !! ((desc_pcm_id (header msg), desc_direction (header msg)) : stream_key)
  = Some sub ->
  0 < ref_count sub ->
  vbe_skl_pcm_open env sdev msg s
  = Some ((- EBUSY, write_result (rx_data msg) (- EBUSY)), s).
Proof.
  intros Hrtd Hperm Hsub Hbusy.
  destruct (vbe_skl_find_rtd_by_pcm_id_found _ _ _ Hrtd) as [_ Hpcm].
  unfold vbe_skl_pcm_open, vbe_skl_pcm_open_body. rewrite Hpcm, Hperm.
  change (0 <? 0) with false. cbv iota.
  unfold bind at 1.
  rewrite (bind_run _ _ _ _ _ (get_substream_run s _ sub Hsub)).
  apply Z.ltb_lt in Hbusy. rewrite Hbusy. reflexivity.
Qed.

(** X9.  When the open callback of the stream fails, Open answers with
    that error but the session it registered stays in the registry and the
    substream stays marked as used: the same Open sent again is refused
    with -EBUSY. *)
Theorem vbe_open_failure_keeps_session (env : vbe_env) (sdev : skl) (s : vbe_state)
    (msg : vbe_ipc_msg) (rtd : snd_soc_pcm_runtime) (sub : snd_pcm_substream)
    (client : snd_skl_vbe_client) (rest : list snd_skl_vbe_client) :
  let key : stream_key := (desc_pcm_id (header msg), desc_direction (header msg)) in
  cmd (header msg) = VFE_MSG_PCM_OPEN ->
  client_list s = client :: rest ->
  vbe_skl_find_rtd_by_pcm_id sdev (fst key) = Some rtd ->
  vbe_skl_pcm_check_permission sdev (to_int (hdr_domain_id (header msg)))
    (fst key) (snd key) = 0 ->
  substreams s !! key = Some sub ->
  ref_count sub = 0 ->
  runtime_alloc_ok env = true ->
  info_alloc_ok env = true ->
  ops_open env key < 0 ->
  exists s1,
    vbe_skl_msg_pcm_handle env sdev msg s
    = Some ((ops_open env key, write_result (rx_data msg) (ops_open env key)), s1) /\
    client_list s1
    = mk_client (new_session key :: substr_info_list client) (tplg client) :: rest /\
    (exists sub1, substreams s1 !! key = Some sub1 /\ ref_count sub1 = 1) /\
    vbe_skl_msg_pcm_handle env sdev msg s1
    = Some ((- EBUSY, write_result (rx_data msg) (- EBUSY)), s1).
Proof.
  intros key Hopen Hclient Hrtd Hperm Hsub Hzero Hralloc Hialloc Hfail.
  assert (Hfree : ref_count sub <= 0) by lia.
  pose proof (vbe_skl_pcm_open_admitted env sdev s msg rtd sub client rest
                Hrtd Hperm Hsub Hfree Hralloc Hialloc Hclient) as Hadmit.
  cbv zeta in Hadmit. fold key in Hadmit.
  match type of Hadmit with _ = Some (_, ?st) => set (s1 := st) in * end.
  exists s1.
  split.
  { rewrite (vbe_skl_msg_pcm_handle_dispatch env sdev s msg client rest Hclient).
    rewrite Hopen. exact Hadmit. }
  split; [reflexivity|].
  assert (Hsub1 : substreams s1 !! key
                  = Some (mk_substream (to_int (ref_count sub + 1)) true (sg_table sub))).
  { subst s1. be_fields. apply lookup_insert_eq. }
  split.
  { eexists. split; [exact Hsub1|]. cbn [ref_count]. rewrite Hzero. reflexivity. }
  rewrite (vbe_skl_msg_pcm_handle_dispatch env sdev s1 msg
             (mk_client (new_session key :: substr_info_list client) (tplg client))
             rest eq_refl).
  rewrite Hopen.
  eapply vbe_skl_pcm_open_refused_busy; [exact Hrtd | exact Hperm | exact Hsub1 |].
  cbn [ref_count]. rewrite Hzero. reflexivity.
Qed.

Lemma vbe_open_failure_keeps_session_witness :
  exists s1,
    vbe_skl_msg_pcm_handle vbe_env_failing_open sdev_simple
      (mk_ipc_msg (pcm_header VFE_MSG_PCM_OPEN 1) None 0 None 0) vbe_idle
    = Some ((- EIO, None), s1) /\
    vbe_skl_msg_pcm_handle vbe_env_failing_open sdev_simple
      (mk_ipc_msg (pcm_header VFE_MSG_PCM_OPEN 1) None 0 None 0) s1
    = Some ((- EBUSY, None), s1).
Proof.
  destruct (vbe_open_failure_keeps_session vbe_env_failing_open sdev_simple vbe_idle
              (mk_ipc_msg (pcm_header VFE_MSG_PCM_OPEN 1) None 0 None 0)
              (mk_rtd "pcm0" (fun _ => Some 1)) (mk_substream 0 false (Some [8192]))
              (mk_client [] None) [])
    as (s1 & Hfirst & _ & _ & Hsecond).
  - reflexivity.
  - reflexivity.
  - reflexivity.
  - reflexivity.
  - reflexivity.
  - reflexivity.
  - reflexivity.
  - reflexivity.
  - vm_compute. reflexivity.
  - exists s1. split; [exact Hfirst | exact Hsecond].
Defined.

Lemma vbe_skl_add_substream_info_nomem env s key client rest :
  info_alloc_ok env = false ->
  client_list s = client :: rest ->
  vbe_skl_add_substream_info env key s = Some (- ENOMEM, s).
Proof.
  intros Hialloc Hclient.
  unfold vbe_skl_add_substream_info, bind, get, first_client.
  rewrite Hclient, Hialloc. reflexivity.
Qed.

(** X10.  The failures of Open before the session is registered: an
    unknown or malformed PCM name gives -ENODEV and a failed allocation
    gives -ENOMEM; in none of these cases a session is registered, the
    stream is opened or ref_count is raised.  When it is the allocation of
    the session that fails, the runtime allocated just before stays
    attached to the substream. *)
Theorem vbe_open_failures (env : vbe_env) (sdev : skl) (s : vbe_state)
    (msg : vbe_ipc_msg) :
  let key : stream_key := (desc_pcm_id (header msg), desc_direction (header msg)) in
  (vbe_skl_find_pcm_by_name sdev (fst key) = None ->
   vbe_skl_pcm_open env sdev msg s
   = Some ((- ENODEV, write_result (rx_data msg) (- ENODEV)),
           mk_vbe (shm s) (client_list s) (substreams s) (pending_msg_list s)
             (vq_avail s) (guest_mem s) (trace s ++ [EvDevErr "Can not find PCM"]))) /\
  (forall rtd sub,
      vbe_skl_find_rtd_by_pcm_id sdev (fst key) = Some rtd ->
      vbe_skl_pcm_check_permission sdev (to_int (hdr_domain_id (header msg)))
        (fst key) (snd key) = 0 ->
      substreams s !! key = Some sub ->
      ref_count sub <= 0 ->
      (runtime_alloc_ok env = false ->
       vbe_skl_pcm_open env sdev msg s
       = Some ((- ENOMEM, write_result (rx_data msg) (- ENOMEM)), s)) /\
      (runtime_alloc_ok env = true -> info_alloc_ok env = false ->
       forall client rest, client_list s = client :: rest ->
       vbe_skl_pcm_open env sdev msg s
       = Some ((- ENOMEM, write_result (rx_data msg) (- ENOMEM)),
               mk_vbe (shm s) (client_list s)
                 (<[key := mk_substream (ref_count sub) true (sg_table sub)]>
                    (substreams s))
                 (pending_msg_list s) (vq_avail s) (guest_mem s) (trace s)))).
Proof.
  intros key. split.
  - intros Hnone. unfold vbe_skl_pcm_open, vbe_skl_pcm_open_body.
    cbn [fst key] in Hnone. rewrite Hnone. reflexivity.
  - intros rtd sub Hrtd Hperm Hsub Hfree.
    destruct (vbe_skl_find_rtd_by_pcm_id_found _ _ _ Hrtd) as [_ Hpcm].
    assert (Hnotbusy : (0 <? ref_count sub) = false) by (apply Z.ltb_ge; lia).
    cbn [fst snd key] in Hperm, Hpcm.
    split.
    + intros Hralloc.
      unfold vbe_skl_pcm_open, vbe_skl_pcm_open_body. rewrite Hpcm, Hperm.
      change (0 <? 0) with false. cbv iota. fold key.
      unfold bind at 1.
      rewrite (bind_run _ _ _ _ _ (get_substream_run s key sub Hsub)).
      rewrite Hnotbusy.
      unfold vbe_skl_allocate_runtime. rewrite Hralloc. reflexivity.
    + intros Hralloc Hialloc client rest Hclient.
      unfold vbe_skl_pcm_open, vbe_skl_pcm_open_body. rewrite Hpcm, Hperm.
      change (0 <? 0) with false. cbv iota. fold key.
      unfold bind at 1.
      rewrite (bind_run _ _ _ _ _ (get_substream_run s key sub Hsub)).
      rewrite Hnotbusy.
      rewrite (bind_run _ _ _ _ _
                 (vbe_skl_allocate_runtime_ok env s key sub Hralloc Hsub)).
      change (0 <? 0) with false. cbv iota.
      erewrite bind_run;
        [| apply vbe_skl_add_substream_info_nomem with (client := client) (rest := rest);
           [exact Hialloc | exact Hclient]].
      reflexivity.
Qed.

Lemma vbe_open_failures_witness :
  vbe_skl_pcm_open vbe_env_simple sdev_simple
    (mk_ipc_msg (mk_header VFE_MSG_PCM_OPEN 1 "GuestOS" "((null))" 0 "") None 0
       (Some pcm_result_buf) 4)
    vbe_idle
  = Some ((- ENODEV, Some (set_rx_ret (- ENODEV) pcm_result_buf)),
          mk_vbe (shm vbe_idle) (client_list vbe_idle) (substreams vbe_idle)
            (pending_msg_list vbe_idle) (vq_avail vbe_idle) (guest_mem vbe_idle)
            [EvDevErr "Can not find PCM"]).
Proof.
  destruct (vbe_open_failures vbe_env_simple sdev_simple vbe_idle
              (mk_ipc_msg (mk_header VFE_MSG_PCM_OPEN 1 "GuestOS" "((null))" 0 "")
                 None 0 (Some pcm_result_buf) 4))
    as [Hnodev _].
  apply Hnodev. reflexivity.
Defined.

Lemma vbe_skl_prepare_dma_run env s info dma sub native tail client rest :
  let key : stream_key := (info_pcm_id info, info_direction info) in
  let hpa := vhm_vm_gpa2hpa env (tx_dma_addr dma) in
  let pos_desc := map_guest_phys env (tx_stream_pos_addr dma) (tx_stream_pos_size dma) in
  hpa <> 0 ->
  substreams s !! key = Some sub ->
  sg_table sub = Some (native :: tail) ->
  client_list s = client :: rest ->
  vbe_skl_prepare_dma env info dma s
  = Some (match pos_desc with None => - EINVAL | Some _ => 0 end,
          after_prepare_dma s info sub hpa native tail pos_desc client rest).
Proof.
  intros key hpa pos_desc Hhpa Hsub Htable Hclient.
  unfold vbe_skl_prepare_dma. fold key. fold hpa.
  apply Z.eqb_neq in Hhpa. rewrite Hhpa.
  rewrite (bind_run _ _ _ _ _ (get_substream_run s key sub Hsub)).
  rewrite Htable. cbn [remap_table].
  unfold put_substream. unfold bind at 1. unfold bind at 1. unfold get at 1.
  cbv beta iota. unfold set_substreams at 1. cbv beta iota.
  erewrite bind_run; [| apply update_first_client_run with (client := client) (rest := rest);
                        exact Hclient].
  be_fields. fold pos_desc. unfold after_prepare_dma, prepared_session. fold key.
  destruct pos_desc; reflexivity.
Qed.

Lemma update_found_lookup l id dir f info info' :
  vbe_find_substream_info_by_pcm l id dir = Some info ->
  f info = Some info' ->
  info_pcm_id info' = info_pcm_id info ->
  info_direction info' = info_direction info ->
  vbe_find_substream_info_by_pcm (update_found l id dir f) id dir = Some info'.
Proof.
  intros Hfind Hf Hid Hdir.
  induction l as [|i rest IH]; simpl in *; [discriminate|].
  destruct ((info_direction i =? dir) && pcm_id_eqb (info_pcm_id i) id) eqn:E.
  - injection Hfind as ->. rewrite Hf. simpl. now rewrite Hid, Hdir, E.
  - simpl. rewrite E. now apply IH.
Qed.

(** X11.  Prepare fails with -EINVAL without calling the prepare callback
    of the stream and without writing the reply buffer when the guest
    buffer does not translate, when the substream has no scatter table, or
    when the position descriptor cannot be mapped; in the first two cases
    nothing is changed, in the last one the scatter table has already been
    redirected to the guest buffer and the session keeps no descriptor. *)
Theorem vbe_prepare_failures (env : vbe_env) (s : vbe_state)
    (info : vbe_substream_info) (msg : vbe_ipc_msg) (dma : tx_buffer)
    (sub : snd_pcm_substream) :
  let key : stream_key := (info_pcm_id info, info_direction info) in
  let hpa := vhm_vm_gpa2hpa env (tx_dma_addr dma) in
  tx_data msg = Some dma ->
  substreams s !! key = Some sub ->
  (hpa = 0 \/ sg_table sub = None ->
   vbe_skl_pcm_prepare env info msg s = Some ((- EINVAL, rx_data msg), s)) /\
  (forall native tail client rest,
      hpa <> 0 ->
      sg_table sub = Some (native :: tail) ->
      client_list s = client :: rest ->
      map_guest_phys env (tx_stream_pos_addr dma) (tx_stream_pos_size dma) = None ->
      vbe_skl_pcm_prepare env info msg s
      = Some ((- EINVAL, rx_data msg),
              after_prepare_dma s info sub hpa native tail None client rest)).
Proof.
  intros key hpa Htx Hsub. split.
  - intros Hcase. unfold vbe_skl_pcm_prepare. rewrite Htx.
    assert (Hdma : vbe_skl_prepare_dma env info dma s = Some (- EINVAL, s)).
    { unfold vbe_skl_prepare_dma. fold key. fold hpa.
      destruct (hpa =? 0) eqn:E; [reflexivity|].
      destruct Hcase as [Hz | Hnone]; [apply Z.eqb_neq in E; contradiction|].
      rewrite (bind_run _ _ _ _ _ (get_substream_run s key sub Hsub)).
      now rewrite Hnone. }
    rewrite (bind_run _ _ _ _ _ Hdma). reflexivity.
  - intros native tail client rest Hhpa Htable Hclient Hmap.
    unfold vbe_skl_pcm_prepare. rewrite Htx.
    pose proof (vbe_skl_prepare_dma_run env s info dma sub native tail client rest
                  Hhpa Hsub Htable Hclient) as Hdma.
    cbv zeta in Hdma. rewrite Hmap in Hdma.
    rewrite (bind_run _ _ _ _ _ Hdma). reflexivity.
Qed.

Lemma vbe_prepare_failures_witness :
  vbe_skl_pcm_prepare
    (mk_env (fun _ => 0) (fun _ => 0) (fun _ => 0) (fun _ _ => 0) (fun _ _ => 0)
       true true (fun _ => 0) (fun addr _ => Some addr) (fun _ => (0, None))
       (fun _ _ => 0) [] 112 40 72 88 8)
    (mk_vbe_info "pcm0" 0 None 0)
    (mk_ipc_msg (pcm_header VFE_MSG_PCM_PREPARE 1) (Some dma_conf_guest) 24
       (Some pcm_result_buf) 4)
    vbe_opened
  = Some ((- EINVAL, Some pcm_result_buf), vbe_opened).
Proof.
  destruct (vbe_prepare_failures
              (mk_env (fun _ => 0) (fun _ => 0) (fun _ => 0) (fun _ _ => 0)
                 (fun _ _ => 0) true true (fun _ => 0) (fun addr _ => Some addr)
                 (fun _ => (0, None)) (fun _ _ => 0) [] 112 40 72 88 8)
              vbe_opened (mk_vbe_info "pcm0" 0 None 0)
              (mk_ipc_msg (pcm_header VFE_MSG_PCM_PREPARE 1) (Some dma_conf_guest) 24
                 (Some pcm_result_buf) 4)
              dma_conf_guest (mk_substream 1 true (Some [8192; 12288])))
    as [Hnothing _].
  - reflexivity.
  - reflexivity.
  - apply Hnothing. left. reflexivity.
Defined.

(** X12.  A Prepare request that succeeds binds the mapped position
    descriptor to the session, redirects the scatter table to the guest
    buffer (first entry the translated address, the following ones page by
    page from its page), remembers the native address, and calls the
    prepare callback once; the next interrupt of that stream is then
    published in exactly that descriptor. *)
Theorem vbe_prepare_binds_descriptor (env : vbe_env) (sdev : skl) (cnt_bits : Z)
    (s : vbe_state) (msg : vbe_ipc_msg) (dma : tx_buffer)
    (info : vbe_substream_info) (sub : snd_pcm_substream) (native : Z)
    (tail : list Z) (client : snd_skl_vbe_client) (rest : list snd_skl_vbe_client)
    (a pos : Z) :
  let key : stream_key := (desc_pcm_id (header msg), desc_direction (header msg)) in
  let hpa := vhm_vm_gpa2hpa env (tx_dma_addr dma) in
  cmd (header msg) = VFE_MSG_PCM_PREPARE ->
  tx_data msg = Some dma ->
  client_list s = client :: rest ->
  vbe_find_substream_info_by_pcm (substr_info_list client) (fst key) (snd key)
  = Some info ->
  substreams s !! key = Some sub ->
  sg_table sub = Some (native :: tail) ->
  hpa <> 0 ->
  map_guest_phys env (tx_stream_pos_addr dma) (tx_stream_pos_size dma) = Some a ->
  exists s1 s2,
    vbe_skl_msg_pcm_handle env sdev msg s
    = Some ((ops_prepare env key, write_result (rx_data msg) (ops_prepare env key)), s1) /\
    trace s1 = trace s ++ [EvOpsPrepare key] /\
    bound_descriptor s1 key = Some a /\
    option_map info_native_dma_addr (vbe_find_substream_info (client_list s1) key)
    = Some native /\
    option_map sg_table (substreams s1 !! key)
    = Some (Some (hpa :: remap_pages (Z.ldiff hpa 4095) tail)) /\
    vbe_stream_update cnt_bits (Some key) pos s1 = Some (tt, s2) /\
    hw_ptr (shm s2 a) = wrap cnt_bits pos /\
    be_irq_cnt (shm s2 a) = wrap cnt_bits (be_irq_cnt (shm s a) + 1).
Proof.
  intros key hpa Hcmd Htx Hclient Hfind Hsub Htable Hhpa Hmap.
  destruct (vbe_find_substream_info_by_pcm_key _ _ _ _ Hfind) as [Hid Hdir].
  cbn [fst snd key] in Hid, Hdir, Hfind.
  assert (Hkey : ((info_pcm_id info, info_direction info) : stream_key) = key)
    by (unfold key; now rewrite Hid, Hdir).
  assert (Hsub' : substreams s !! ((info_pcm_id info, info_direction info) : stream_key)
                  = Some sub) by (rewrite Hkey; exact Hsub).
  pose proof (vbe_skl_prepare_dma_run env s info dma sub native tail client rest
                Hhpa Hsub' Htable Hclient) as Hdma.
  cbv zeta in Hdma. rewrite Hmap in Hdma. fold hpa in Hdma.
  set (s0 := after_prepare_dma s info sub hpa native tail (Some a) client rest) in *.
  set (s1 := mk_vbe (shm s0) (client_list s0) (substreams s0) (pending_msg_list s0)
               (vq_avail s0) (guest_mem s0) (trace s0 ++ [EvOpsPrepare key])).
  assert (Hrun : vbe_skl_msg_pcm_handle env sdev msg s
                 = Some ((ops_prepare env key,
                          write_result (rx_data msg) (ops_prepare env key)), s1)).
  { rewrite (vbe_skl_msg_pcm_handle_dispatch env sdev s msg client rest Hclient).
    rewrite Hcmd, Hfind. unfold vbe_skl_pcm_prepare. rewrite Htx.
    rewrite (bind_run _ _ _ _ _ Hdma). change (0 <? 0) with false. cbv iota.
    rewrite Hkey. reflexivity. }
  assert (Hsession : vbe_find_substream_info (client_list s1) key
                     = Some (mk_vbe_info (info_pcm_id info) (info_direction info)
                               (Some a) native)).
  { subst s1 s0. unfold after_prepare_dma. be_fields.
    cbn [vbe_find_substream_info substr_info_list fst snd key].
    rewrite Hid, Hdir.
    erewrite update_found_lookup; [reflexivity | exact Hfind | | |].
    - unfold prepared_session. now rewrite Hid, Hdir.
    - now rewrite Hid.
    - now rewrite Hdir. }
  assert (Hbound : bound_descriptor s1 key = Some a)
    by (unfold bound_descriptor; now rewrite Hsession).
  pose proof (vbe_stream_update_bound cnt_bits s1 key a pos Hbound) as Hupd.
  cbv zeta in Hupd.
  match type of Hupd with _ = Some (_, ?st) => set (s2 := st) in * end.
  exists s1, s2.
  split; [exact Hrun|]. split; [reflexivity|]. split; [exact Hbound|].
  split; [now rewrite Hsession|].
  split.
  { subst s1 s0. unfold after_prepare_dma. be_fields. rewrite Hkey.
    now rewrite lookup_insert_eq. }
  split; [exact Hupd|].
  subst s2. be_fields.
  unfold after_position_update, position_update_steps. be_fields.
  rewrite !shm_update_same. cbn [hw_ptr be_irq_cnt set_be_irq_cnt set_hw_ptr].
  split; reflexivity.
Qed.

Lemma vbe_prepare_binds_descriptor_witness :
  exists s1 s2,
    vbe_skl_msg_pcm_handle vbe_env_simple sdev_simple
      (mk_ipc_msg (pcm_header VFE_MSG_PCM_PREPARE 1) (Some dma_conf_guest) 24
         (Some pcm_result_buf) 4) vbe_opened
    = Some ((0, Some (set_rx_ret 0 pcm_result_buf)), s1) /\
    option_map sg_table (substreams s1 !! pcm0_playback)
    = Some (Some [20580; 24576]) /\
    vbe_stream_update 32 (Some pcm0_playback) 960 s1 = Some (tt, s2) /\
    hw_ptr (shm s2 36864) = 960 /\
    be_irq_cnt (shm s2 36864) = 1.
Proof.
  destruct (vbe_prepare_binds_descriptor vbe_env_simple sdev_simple 32 vbe_opened
              (mk_ipc_msg (pcm_header VFE_MSG_PCM_PREPARE 1) (Some dma_conf_guest) 24
                 (Some pcm_result_buf) 4)
              dma_conf_guest (mk_vbe_info "pcm0" 0 None 0)
              (mk_substream 1 true (Some [8192; 12288])) 8192 [12288]
              (mk_client [mk_vbe_info "pcm0" 0 None 0] None) [] 36864 960)
    as (s1 & s2 & Hrun & _ & _ & _ & Htable & Hupd & Hptr & Hcnt).
  - reflexivity.
  - reflexivity.
  - reflexivity.
  - reflexivity.
  - reflexivity.
  - reflexivity.
  - vm_compute. discriminate.
  - reflexivity.
  - exists s1, s2.
    split; [exact Hrun|]. split; [exact Htable|]. split; [exact Hupd|].
    split; [exact Hptr | exact Hcnt].
Defined.

Lemma remap_pages_length page tail :
  length (remap_pages page tail) = length tail.
Proof.
  revert page. induction tail as [|x tail IH]; intros page; simpl; [reflexivity|].
  now rewrite IH.
Qed.

Lemma remap_pages_lookup page tail (i : nat) :
  (i < length tail)%nat ->
  remap_pages page tail !! i = Some (page + (Z.of_nat i + 1) * PAGE_SIZE).
Proof.
  revert page i. induction tail as [|x tail IH]; intros page i Hi; simpl in Hi; [lia|].
  destruct i as [|i]; simpl.
  - f_equal; lia.
  - rewrite IH by lia. f_equal; lia.
Qed.

Lemma remap_pages_same_length page t1 t2 :
  length t1 = length t2 -> remap_pages page t1 = remap_pages page t2.
Proof.
  revert page t2. induction t1 as [|x t1 IH]; intros page [|y t2] Hlen;
    simpl in *; try discriminate; [reflexivity|].
  f_equal. apply IH. lia.
Qed.

(** X13.  The scatter table written by Prepare and by Close: it keeps its
    number of entries, entry 0 is the given address and entry i the page of
    that address plus i pages; the result depends on the old table only
    through its length, so Close, which starts from the remembered native
    address, writes the same table whatever Prepare had put there. *)
Theorem remap_table_shape (base : Z) (table : list Z) :
  table <> [] ->
  exists t,
    remap_table base table = Some t /\
    length t = length table /\
    t !! 0%nat = Some base /\
    (forall i : nat, (0 < i < length table)%nat ->
       t !! i = Some (Z.ldiff base 4095 + Z.of_nat i * PAGE_SIZE)) /\
    (forall hpa t', remap_table hpa table = Some t' ->
       remap_table base t' = Some t).
Proof.
  intros Hne. destruct table as [|x tail]; [congruence|].
  exists (base :: remap_pages (Z.ldiff base 4095) tail).
  split; [reflexivity|].
  split; [simpl; now rewrite remap_pages_length|].
  split; [reflexivity|].
  split.
  - intros i [Hpos Hlt]. destruct i as [|i]; [lia|]. simpl in Hlt.
    change ((base :: remap_pages (Z.ldiff base 4095) tail) !! S i)
      with (remap_pages (Z.ldiff base 4095) tail !! i).
    rewrite remap_pages_lookup by lia. f_equal. lia.
  - intros hpa t' Ht'. simpl in Ht'. injection Ht' as <-. simpl.
    f_equal. f_equal. apply remap_pages_same_length. apply remap_pages_length.
Qed.

Lemma remap_table_shape_witness :
  exists t,
    remap_table 20580 [8192; 12288; 16384] = Some t /\
    t !! 2%nat = Some 28672 /\
    remap_table 8192 t = Some [8192; 12288; 16384].
Proof.
  destruct (remap_table_shape 20580 [8192; 12288; 16384]) as (t & Ht & _ & _ & Hi & _).
  - discriminate.
  - destruct (remap_table_shape 8192 [8192; 12288; 16384]) as (u & Hu & _ & _ & _ & Hback).
    + discriminate.
    + exists t. split; [exact Ht|]. split.
      * rewrite (Hi 2%nat) by (simpl; lia). reflexivity.
      * rewrite (Hback 20580 t Ht). rewrite <- Hu. reflexivity.
Defined.

(** ** What the request dispatcher leaves alone *)

Lemma be_frame_refl s : be_frame s s.
Proof.
  repeat split. exists []. now rewrite app_nil_r.
Qed.

Lemma be_frame_trans s1 s2 s3 : be_frame s1 s2 -> be_frame s2 s3 -> be_frame s1 s3.
Proof.
  intros (H1 & H2 & H3 & e1 & H4) (K1 & K2 & K3 & e2 & K4).
  repeat split; try congruence.
  exists (e1 ++ e2). rewrite K4, H4. now rewrite app_assoc.
Qed.

Lemma keeps_frame_ret {A} (a : A) : keeps_frame (ret a).
Proof. intros s b s' H. injection H as _ <-. apply be_frame_refl. Qed.

Lemma keeps_frame_fault {A} : keeps_frame (@fault vbe_state A).
Proof. intros s b s' H. discriminate. Qed.

Lemma keeps_frame_get : keeps_frame (@get vbe_state).
Proof. intros s b s' H. injection H as _ <-. apply be_frame_refl. Qed.

Lemma keeps_frame_bind {A B} (c : M A) (k : A -> M B) :
  keeps_frame c -> (forall a, keeps_frame (k a)) -> keeps_frame (bind c k).
Proof.
  intros Hc Hk s b s' H. unfold bind in H.
  destruct (c s) as [[a s1]|] eqn:E; [|discriminate].
  eapply be_frame_trans; [eapply Hc; exact E | eapply Hk; exact H].
Qed.

Lemma keeps_frame_emit e : keeps_frame (emit e).
Proof.
  intros s b s' H. injection H as _ <-. repeat split. now exists [e].
Qed.

Lemma keeps_frame_set_client_list l : keeps_frame (set_client_list l).
Proof.
  intros s b s' H. injection H as _ <-. repeat split. exists []. be_fields.
  now rewrite app_nil_r.
Qed.

Lemma keeps_frame_set_substreams m : keeps_frame (set_substreams m).
Proof.
  intros s b s' H. injection H as _ <-. repeat split. exists []. be_fields.
  now rewrite app_nil_r.
Qed.

Lemma keeps_frame_set_guest_mem g : keeps_frame (set_guest_mem g).
Proof.
  intros s b s' H. injection H as _ <-. repeat split. exists []. be_fields.
  now rewrite app_nil_r.
Qed.

Ltac keeps_frame_step :=
  first
    [ apply keeps_frame_ret
    | apply keeps_frame_fault
    | apply keeps_frame_get
    | apply keeps_frame_emit
    | apply keeps_frame_set_client_list
    | apply keeps_frame_set_substreams
    | apply keeps_frame_set_guest_mem
    | apply keeps_frame_bind; [|intros]
    | match goal with
      | |- keeps_frame (match ?x with _ => _ end) => destruct x
      | |- keeps_frame (if ?b then _ else _) => destruct b
      | |- keeps_frame (let '(_, _) := ?x in _) => destruct x
      end ].

Ltac keeps_frame_auto := repeat keeps_frame_step.

Lemma keeps_frame_update_first_client f : keeps_frame (update_first_client f).
Proof. unfold update_first_client. keeps_frame_auto. Qed.

Lemma keeps_frame_get_substream key : keeps_frame (get_substream key).
Proof. unfold get_substream. keeps_frame_auto. Qed.

Lemma keeps_frame_put_substream key sub : keeps_frame (put_substream key sub).
Proof. unfold put_substream. keeps_frame_auto. Qed.

Ltac keeps_frame_all :=
  repeat first
    [ apply keeps_frame_update_first_client
    | apply keeps_frame_get_substream
    | apply keeps_frame_put_substream
    | keeps_frame_step ].

Lemma keeps_frame_pcm_handle env sdev msg :
  keeps_frame (vbe_skl_msg_pcm_handle env sdev msg).
Proof.
  unfold vbe_skl_msg_pcm_handle, vbe_skl_pcm_open, vbe_skl_pcm_open_body,
    vbe_skl_pcm_close, vbe_skl_pcm_prepare, vbe_skl_prepare_dma,
    vbe_skl_pcm_hw_params, vbe_skl_pcm_trigger, vbe_skl_allocate_runtime,
    vbe_skl_add_substream_info.
  keeps_frame_all.
Qed.

Lemma keeps_frame_cfg_handle env sdev msg :
  keeps_frame (vbe_skl_msg_cfg_handle env sdev msg).
Proof.
  unfold vbe_skl_msg_cfg_handle, vbe_skl_cfg_hda, vbe_skl_cfg_resource_info,
    vbe_skl_cfg_resource_desc, vbe_skl_cfg_domain, vbe_find_res_hndl.
  keeps_frame_all.
Qed.

Lemma keeps_frame_not_fwd_class env sdev header_len msg :
  msg_class (cmd (header msg)) <> VFE_MSG_KCTL ->
  keeps_frame (vbe_skl_not_fwd env sdev header_len msg).
Proof.
  intros Hclass. unfold vbe_skl_not_fwd.
  destruct (negb (sizeof_vfe_msg_header env =? header_len)); [keeps_frame_auto|].
  destruct (msg_class (cmd (header msg))); try contradiction.
  - apply keeps_frame_pcm_handle.
  - apply keeps_frame_cfg_handle.
  - apply keeps_frame_ret.
Qed.

(** X14.  The request dispatcher: a header whose length is not that of the
    message header is refused with -EINVAL before any handler runs, whatever
    the command and the state, with the reply buffer untouched and one log
    entry; and a PCM or configuration request, whatever it is and however it
    ends, leaves the position descriptors, the pending notifications and
    the rings untouched. *)
Theorem vbe_skl_not_fwd_frame (env : vbe_env) (sdev : skl) (header_len : Z)
    (msg : vbe_ipc_msg) (s : vbe_state) :
  (sizeof_vfe_msg_header env <> header_len ->
   vbe_skl_not_fwd env sdev header_len msg s
   = Some ((- EINVAL, rx_data msg),
           mk_vbe (shm s) (client_list s) (substreams s) (pending_msg_list s)
             (vq_avail s) (guest_mem s)
             (trace s ++ [EvDevErr "Mismatch of IPC header size"]))) /\
  (msg_class (cmd (header msg)) <> VFE_MSG_KCTL ->
   forall r s',
     vbe_skl_not_fwd env sdev header_len msg s = Some (r, s') ->
     shm s' = shm s /\ pending_msg_list s' = pending_msg_list s /\
     vq_avail s' = vq_avail s /\ exists evs, trace s' = trace s ++ evs).
Proof.
  split.
  - intros Hlen. unfold vbe_skl_not_fwd.
    apply Z.eqb_neq in Hlen. rewrite Hlen. cbn [negb]. reflexivity.
  - intros Hclass r s' Hrun.
    exact (keeps_frame_not_fwd_class env sdev header_len msg Hclass s r s' Hrun).
Qed.

Lemma vbe_skl_not_fwd_frame_witness :
  vbe_skl_not_fwd vbe_env_simple sdev_simple 100
    (mk_ipc_msg (pcm_header VFE_MSG_PCM_OPEN 1) None 0 (Some pcm_result_buf) 4)
    vbe_idle
  = Some ((- EINVAL, Some pcm_result_buf),
          mk_vbe (shm vbe_idle) (client_list vbe_idle) (substreams vbe_idle)
            (pending_msg_list vbe_idle) (vq_avail vbe_idle) (guest_mem vbe_idle)
            [EvDevErr "Mismatch of IPC header size"]).
Proof.
  destruct (vbe_skl_not_fwd_frame vbe_env_simple sdev_simple 100
              (mk_ipc_msg (pcm_header VFE_MSG_PCM_OPEN 1) None 0
                 (Some pcm_result_buf) 4) vbe_idle) as [Hlen _].
  apply Hlen. vm_compute. discriminate.
Defined.

Lemma vbe_skl_find_tplg_domain_by_name_first l name d :
  vbe_skl_find_tplg_domain_by_name l name = Some d ->
  exists before after,
    l = before ++ d :: after /\ domain_name d = name /\
    Forall (fun d' => domain_name d' <> name) before.
Proof.
  induction l as [|x l IH]; simpl; [discriminate|].
  destruct (String.eqb (domain_name x) name) eqn:E.
  - intros H. injection H as <-. apply String.eqb_eq in E.
    exists [], l. split; [reflexivity|]. split; [exact E | constructor].
  - intros H. destruct (IH H) as (before & after & -> & Hname & Hall).
    exists (x :: before), after. split; [reflexivity|]. split; [exact Hname|].
    constructor; [|exact Hall]. now apply String.eqb_neq in E.
Qed.

(** X15.  A domain request with a reply buffer of the right size always
    returns, and the status it returns is the one it writes to the reply:
    -EINVAL without a client, -EACCES when no topology domain has the
    requested name (nothing else is changed in both cases), and otherwise
    the status of the firmware request for the first domain of that name,
    whose id is written to the reply and whose image, loaded or not,
    replaces the topology of the first client. *)
Theorem vbe_skl_cfg_domain_reply (env : vbe_env) (sdev : skl) (msg : vbe_ipc_msg)
    (s : vbe_state) (domain_info : rx_buffer) :
  rx_data msg = Some domain_info ->
  rx_size msg = sizeof_vfe_domain_info env ->
  exists r out s',
    vbe_skl_cfg_domain env sdev msg s = Some ((r, Some out), s') /\
    rx_ret out = r /\
    (client_list s = [] ->
     r = - EINVAL /\ s' = s /\ rx_domain_id out = rx_domain_id domain_info) /\
    (client_list s <> [] ->
     vbe_skl_find_tplg_domain_by_name (tplg_domains sdev)
       (hdr_domain_name (header msg)) = None ->
     r = - EACCES /\ s' = s /\ rx_domain_id out = rx_domain_id domain_info) /\
    (forall client rest d,
        client_list s = client :: rest ->
        vbe_skl_find_tplg_domain_by_name (tplg_domains sdev)
          (hdr_domain_name (header msg)) = Some d ->
        r = fst (request_firmware env (tplg_name d)) /\
        rx_domain_id out = tplg_domain_id d /\
        domain_name d = hdr_domain_name (header msg) /\
        client_list s'
        = mk_client (substr_info_list client)
            (snd (request_firmware env (tplg_name d))) :: rest /\
        substreams s' = substreams s /\ trace s' = trace s).
Proof.
  intros Hrx Hsize.
  unfold vbe_skl_cfg_domain. unfold bind at 1. unfold get at 1. cbv beta iota.
  rewrite Hrx, Hsize, Z.eqb_refl. cbn [negb]. unfold first_client.
  destruct (client_list s) as [|client rest] eqn:Hclient.
  - eexists _, _, _. split; [reflexivity|]. split; [reflexivity|].
    split; [intros _; repeat split|].
    split; [intros Hne; contradiction | intros; discriminate].
  - destruct (vbe_skl_find_tplg_domain_by_name (tplg_domains sdev)
                (hdr_domain_name (header msg))) as [d|] eqn:Hfind.
    + destruct (request_firmware env (tplg_name d)) as [r fw] eqn:Hreq.
      erewrite bind_run;
        [| apply update_first_client_run with (client := client) (rest := rest);
           exact Hclient].
      eexists _, _, _. split; [reflexivity|]. split; [reflexivity|].
      split; [intros Hnil; discriminate|].
      split; [intros _ Hnone; discriminate|].
      intros client' rest' d' Hc Hd. injection Hc as <- <-. injection Hd as <-.
      rewrite Hreq.
      destruct (vbe_skl_find_tplg_domain_by_name_first _ _ _ Hfind)
        as (_ & _ & _ & Hname & _).
      repeat split; try reflexivity. exact Hname.
    + eexists _, _, _. split; [reflexivity|]. split; [reflexivity|].
      split; [intros Hnil; discriminate|].
      split; [intros _ _; repeat split | intros; discriminate].
Qed.

Lemma vbe_skl_cfg_domain_reply_witness :
  exists r out s',
    vbe_skl_cfg_domain vbe_env_simple sdev_libs domain_request vbe_idle
    = Some ((r, Some out), s') /\
    rx_ret out = r /\ r = 0 /\ rx_domain_id out = 1.
Proof.
  destruct (vbe_skl_cfg_domain_reply vbe_env_simple sdev_libs domain_request vbe_idle
              (mk_rx 0 (VFE_UNKNOWN_RES 0) "" 0 0 77 []))
    as (r & out & s' & Hrun & Hret & _ & _ & Hfound).
  - reflexivity.
  - reflexivity.
  - destruct (Hfound (mk_client [] None) [] (mk_tplg_domain "GuestOS" 1 "dfw_guest.bin"))
      as (Hr & Hid & _).
    + reflexivity.
    + reflexivity.
    + exists r, out, s'. split; [exact Hrun|]. split; [exact Hret|].
      split; [exact Hr | exact Hid].
Defined.

Lemma find_lib_first libs name fw :
  find_lib libs name = Some fw ->
  exists (i : nat) lib,
    libs !! i = Some lib /\ lib_name lib = name /\ lib_fw lib = Some fw /\
    forall (j : nat) lib', (j < i)%nat -> libs !! j = Some lib' -> lib_name lib' <> name.
Proof.
  induction libs as [|x libs IH]; simpl; [discriminate|].
  destruct (String.eqb (lib_name x) name) eqn:E.
  - intros Hfw. apply String.eqb_eq in E.
    exists 0%nat, x. repeat split; try assumption. intros j lib' Hj. lia.
  - intros Hfind. destruct (IH Hfind) as (i & lib & Hi & Hname & Hfw & Hbefore).
    exists (S i), lib. repeat split; try assumption.
    intros [|j] lib' Hj Hlook.
    + simpl in Hlook. injection Hlook as <-. now apply String.eqb_neq in E.
    + simpl in Hlook. apply (Hbefore j lib'); [lia | exact Hlook].
Qed.

(** X16.  The size query for a library: either it answers 0 and reports
    the size of the image of the first library entry of that name, counted
    from index 1 (entry 0, the base firmware, is never looked at), or it
    answers -EBADF, reports size 0 whatever the guest had put there, and
    logs the failure.  Nothing else is changed. *)
Theorem vbe_library_info (env : vbe_env) (sdev : skl) (msg : vbe_ipc_msg)
    (s : vbe_state) (res_info : rx_buffer) :
  rx_data msg = Some res_info ->
  rx_size msg = sizeof_vfe_resource_info env ->
  rx_res_type res_info = VFE_LIBRARY_RES ->
  (exists (i : nat) lib fw,
      (1 <= i)%nat /\ lib_info sdev !! i = Some lib /\
      lib_name lib = rx_res_name res_info /\ lib_fw lib = Some fw /\
      (forall (j : nat) lib', (1 <= j < i)%nat -> lib_info sdev !! j = Some lib' ->
         lib_name lib' <> rx_res_name res_info) /\
      vbe_skl_cfg_resource_info env sdev msg s
      = Some ((0, Some (set_rx_res_size (fw_size fw) res_info)), s)) \/
  vbe_skl_cfg_resource_info env sdev msg s
  = Some ((- EBADF, Some (set_rx_res_size 0 res_info)),
          mk_vbe (shm s) (client_list s) (substreams s) (pending_msg_list s)
            (vq_avail s) (guest_mem s)
            (trace s ++ [EvDevErr "Unable to find resource"])).
Proof.
  intros Hrx Hsize Htype.
  unfold vbe_skl_cfg_resource_info. rewrite Hrx, Hsize, Z.eqb_refl. cbn [negb].
  change (rx_res_type (set_rx_res_size 0 res_info)) with (rx_res_type res_info).
  change (rx_res_name (set_rx_res_size 0 res_info)) with (rx_res_name res_info).
  rewrite Htype. unfold vbe_find_res_hndl.
  destruct (vbe_find_lib_fw sdev (rx_res_name res_info)) as [fw|] eqn:Hfind.
  - left. unfold vbe_find_lib_fw in Hfind.
    destruct (find_lib_first _ _ _ Hfind) as (i & lib & Hi & Hname & Hfw & Hbefore).
    destruct (lib_info sdev) as [|base libs] eqn:Hlibs; [discriminate|].
    cbn [tail] in Hi, Hbefore.
    exists (S i), lib, fw. split; [lia|]. split; [exact Hi|].
    split; [exact Hname|]. split; [exact Hfw|]. split; [|reflexivity].
    intros [|j] lib' Hj Hlook; [lia|].
    apply (Hbefore j lib'); [lia | exact Hlook].
  - right. reflexivity.
Qed.

Lemma vbe_library_info_witness :
  vbe_skl_cfg_resource_info vbe_env_simple sdev_libs
    (mk_ipc_msg (cfg_header VFE_MSG_CFG_RES_INFO) None 0
       (Some (mk_rx 0 VFE_LIBRARY_RES "base" 55 0 0 [])) 72)
    vbe_idle
  = Some ((- EBADF, Some (mk_rx 0 VFE_LIBRARY_RES "base" 0 0 0 [])),
          mk_vbe (shm vbe_idle) (client_list vbe_idle) (substreams vbe_idle)
            (pending_msg_list vbe_idle) (vq_avail vbe_idle) (guest_mem vbe_idle)
            [EvDevErr "Unable to find resource"]).
Proof.
  destruct (vbe_library_info vbe_env_simple sdev_libs
              (mk_ipc_msg (cfg_header VFE_MSG_CFG_RES_INFO) None 0
                 (Some (mk_rx 0 VFE_LIBRARY_RES "base" 55 0 0 [])) 72)
              vbe_idle (mk_rx 0 VFE_LIBRARY_RES "base" 55 0 0 []))
    as [(i & lib & fw & _ & _ & _ & _ & _ & Hrun) | Hrun].
  - reflexivity.
  - reflexivity.
  - reflexivity.
  - vm_compute in Hrun. discriminate.
  - exact Hrun.
Defined.

(** ** PCM callbacks of the front end *)

Lemma vfe_update_info_run key f s :
  vfe_update_info key f s
  = Some (tt, mk_vfe (fe_shm s)
                (vfe_update_found (fe_substr_info_list s) (fst key) (snd key) f)
                (not_tx_vq s) (not_tx_used s) (expired_msg_list s) (caller_rx s)
                (completed s) (next_id s) (fe_trace s)).
Proof. reflexivity. Qed.

Lemma fe_emit_run e s :
  fe_emit e s
  = Some (tt, mk_vfe (fe_shm s) (fe_substr_info_list s) (not_tx_vq s) (not_tx_used s)
                (expired_msg_list s) (caller_rx s) (completed s) (next_id s)
                (fe_trace s ++ [e])).
Proof. reflexivity. Qed.

(** X17.  Trigger of a named stream: the running flag of the session is
    set from the command before the request is sent, and the status is that
    of the transport only: 0 once the back end has answered, whatever it
    answered, and -ETIMEDOUT when it has not, the flag staying as set. *)
Theorem vfe_pcm_trigger_ignores_reply (env : vfe_env) (s : vfe_state)
    (key : stream_key) (cmd : Z) :
  let hdr := stamp_header env (vfe_fill_pcm_msg_header VFE_MSG_PCM_TRIGGER key) in
  0 <= skl_platform_pcm_trigger env key cmd ->
  vfe_is_valid_fe_substream key = 0 ->
  msg_alloc_ok env = true ->
  0 <= virtqueue_add_ret env ->
  not_tx_used s = [] ->
  Forall (fun m => msg_id m <> next_id s) (not_tx_vq s) ->
  (forall rx, peer_reply env hdr (Some [cmd]) = Some rx ->
     exists s',
       vfe_pcm_trigger env key cmd s = Some (0, s') /\
       caller_rx s' !! next_id s = Some rx /\
       fe_substr_info_list s'
       = vfe_update_found (fe_substr_info_list s) (fst key) (snd key)
           (set_vfe_running (vfe_is_stream_running cmd))) /\
  (peer_reply env hdr (Some [cmd]) = None ->
   VFE_MSG_TRIGGER_TIMEOUT env <> 0 ->
   exists s',
     vfe_pcm_trigger env key cmd s = Some (- ETIMEDOUT, s') /\
     fe_substr_info_list s'
     = vfe_update_found (fe_substr_info_list s) (fst key) (snd key)
         (set_vfe_running (vfe_is_stream_running cmd))).
Proof.
  intros hdr Hplat Hvalid Halloc Hadd Hused Hfresh.
  assert (Hr0 : (skl_platform_pcm_trigger env key cmd <? 0) = false)
    by (apply Z.ltb_ge; lia).
  set (s1 := mk_vfe (fe_shm s)
               (vfe_update_found (fe_substr_info_list s) (fst key) (snd key)
                  (set_vfe_running (vfe_is_stream_running cmd)))
               (not_tx_vq s) (not_tx_used s) (expired_msg_list s) (caller_rx s)
               (completed s) (next_id s)
               (fe_trace s ++ [FePlatformTrigger key cmd])).
  assert (Hhead :
             vfe_pcm_trigger env key cmd s
             = bind (vfe_send_msg_with_timeout env
                       (Some (vfe_fill_pcm_msg_header VFE_MSG_PCM_TRIGGER key))
                       (Some [cmd]) (Some (stack_garbage env)) sizeof_vfe_pcm_result
                       (VFE_MSG_TRIGGER_TIMEOUT env))
                    (fun sent => ret (fst sent)) s1).
  { unfold vfe_pcm_trigger.
    rewrite (bind_run _ _ _ _ _ (fe_emit_run _ s)).
    rewrite Hr0, Hvalid. cbn [Z.eqb negb].
    erewrite bind_run; [| apply vfe_update_info_run]. reflexivity. }
  split.
  - intros rx Hreply.
    pose proof (vfe_send_msg_with_timeout_answered env s1
                  (vfe_fill_pcm_msg_header VFE_MSG_PCM_TRIGGER key) (Some [cmd])
                  (stack_garbage env) rx sizeof_vfe_pcm_result
                  (VFE_MSG_TRIGGER_TIMEOUT env) Halloc Hadd Hused Hfresh Hreply) as Hsend.
    cbv zeta in Hsend.
    eexists. rewrite Hhead.
    rewrite (bind_run _ _ _ _ _ Hsend).
    split; [reflexivity|]. fe_fields.
    split; [apply lookup_insert_eq | reflexivity].
  - intros Hreply Htimeout.
    pose proof (vfe_send_msg_with_timeout_expires env s1
                  (vfe_fill_pcm_msg_header VFE_MSG_PCM_TRIGGER key) (Some [cmd])
                  (stack_garbage env) sizeof_vfe_pcm_result
                  (VFE_MSG_TRIGGER_TIMEOUT env) Htimeout Halloc Hadd Hfresh Hreply)
      as Hsend.
    cbv zeta in Hsend.
    eexists. rewrite Hhead.
    rewrite (bind_run _ _ _ _ _ Hsend).
    split; reflexivity.
Qed.

Lemma vfe_pcm_trigger_ignores_reply_witness :
  exists s',
    vfe_pcm_trigger (vfe_env_answering (- EINVAL)) pcm0_playback
      SNDRV_PCM_TRIGGER_START vfe_closed_sessions = Some (0, s') /\
    caller_rx s' !! 1000 = Some [- EINVAL] /\
    fe_substr_info_list s'
    = [mk_vfe_info "pcm0" 0 false true (Some 100) false;
       mk_vfe_info "pcm0" 1 false false (Some 200) false].
Proof.
  destruct (vfe_pcm_trigger_ignores_reply (vfe_env_answering (- EINVAL))
              vfe_closed_sessions pcm0_playback SNDRV_PCM_TRIGGER_START)
    as [Hanswered _].
  - vm_compute. discriminate.
  - reflexivity.
  - reflexivity.
  - vm_compute. discriminate.
  - reflexivity.
  - constructor.
  - destruct (Hanswered [- EINVAL] eq_refl) as (s' & Hrun & Hrx & Hlist).
    exists s'. split; [exact Hrun|]. split; [exact Hrx | exact Hlist].
Defined.

Lemma read_result_run addr buf s :
  caller_rx s !! addr = Some buf -> read_result addr s = Some (hd 0 buf, s).
Proof. intros H. unfold read_result, bind, get. now rewrite H. Qed.

(** X18.  Open of a named stream: a failure of the local platform open is
    returned before anything is sent; otherwise the status is the one the
    back end wrote to the reply, and the session is marked open only when
    that status is not negative; without an answer the status is -ETIMEDOUT
    and the session is not marked. *)
Theorem vfe_pcm_open_follows_reply (env : vfe_env) (s : vfe_state) (key : stream_key) :
  let hdr := stamp_header env (vfe_fill_pcm_msg_header VFE_MSG_PCM_OPEN key) in
  vfe_is_valid_fe_substream key = 0 ->
  msg_alloc_ok env = true ->
  0 <= virtqueue_add_ret env ->
  not_tx_used s = [] ->
  Forall (fun m => msg_id m <> next_id s) (not_tx_vq s) ->
  (skl_platform_open env key < 0 ->
   vfe_pcm_open env key s
   = Some (skl_platform_open env key,
           mk_vfe (fe_shm s) (fe_substr_info_list s) (not_tx_vq s) (not_tx_used s)
             (expired_msg_list s) (caller_rx s) (completed s) (next_id s)
             (fe_trace s ++ [FePlatformOpen key]))) /\
  (0 <= skl_platform_open env key ->
   forall rx, peer_reply env hdr (Some (stack_garbage env)) = Some rx ->
     exists s',
       vfe_pcm_open env key s = Some (hd 0 rx, s') /\
       fe_substr_info_list s'
       = if hd 0 rx <? 0 then fe_substr_info_list s
         else vfe_update_found (fe_substr_info_list s) (fst key) (snd key)
                (set_vfe_open true)) /\
  (0 <= skl_platform_open env key ->
   peer_reply env hdr (Some (stack_garbage env)) = None ->
   VFE_MSG_MSEC_TIMEOUT env <> 0 ->
   exists s',
     vfe_pcm_open env key s = Some (- ETIMEDOUT, s') /\
     fe_substr_info_list s' = fe_substr_info_list s).
Proof.
  intros hdr Hvalid Halloc Hadd Hused Hfresh.
  set (s1 := mk_vfe (fe_shm s) (fe_substr_info_list s) (not_tx_vq s) (not_tx_used s)
               (expired_msg_list s) (caller_rx s) (completed s) (next_id s)
               (fe_trace s ++ [FePlatformOpen key])).
  split; [|split].
  - intros Hfail. unfold vfe_pcm_open.
    rewrite (bind_run _ _ _ _ _ (fe_emit_run _ s)).
    apply Z.ltb_lt in Hfail. rewrite Hfail. reflexivity.
  - intros Hplat rx Hreply.
    assert (Hr0 : (skl_platform_open env key <? 0) = false) by (apply Z.ltb_ge; lia).
    pose proof (vfe_send_msg_with_timeout_answered env s1
                  (vfe_fill_pcm_msg_header VFE_MSG_PCM_OPEN key)
                  (Some (stack_garbage env)) [- EIO] rx sizeof_vfe_pcm_result
                  (VFE_MSG_MSEC_TIMEOUT env) Halloc Hadd Hused Hfresh Hreply) as Hsend.
    cbv zeta in Hsend.
    unfold vfe_pcm_open.
    rewrite (bind_run _ _ _ _ _ (fe_emit_run _ s)).
    rewrite Hr0, Hvalid. cbn [Z.eqb negb]. unfold vfe_send_msg.
    rewrite (bind_run _ _ _ _ _ Hsend). cbn [fst snd].
    change (0 <? 0) with false. cbv iota.
    erewrite bind_run;
      [| apply read_result_run with (buf := rx); fe_fields; apply lookup_insert_eq].
    destruct (hd 0 rx <? 0) eqn:Hneg.
    + eexists. split; reflexivity.
    + erewrite bind_run; [| apply vfe_update_info_run].
      eexists. split; reflexivity.
  - intros Hplat Hreply Htimeout.
    assert (Hr0 : (skl_platform_open env key <? 0) = false) by (apply Z.ltb_ge; lia).
    pose proof (vfe_send_msg_with_timeout_expires env s1
                  (vfe_fill_pcm_msg_header VFE_MSG_PCM_OPEN key)
                  (Some (stack_garbage env)) [- EIO] sizeof_vfe_pcm_result
                  (VFE_MSG_MSEC_TIMEOUT env) Htimeout Halloc Hadd Hfresh Hreply)
      as Hsend.
    cbv zeta in Hsend.
    unfold vfe_pcm_open.
    rewrite (bind_run _ _ _ _ _ (fe_emit_run _ s)).
    rewrite Hr0, Hvalid. cbn [Z.eqb negb]. unfold vfe_send_msg.
    rewrite (bind_run _ _ _ _ _ Hsend). cbn [fst snd].
    change (- ETIMEDOUT <? 0) with true. cbv iota.
    eexists. split; reflexivity.
Qed.

Lemma vfe_pcm_open_follows_reply_witness :
  exists s',
    vfe_pcm_open (vfe_env_answering (- EBUSY)) pcm0_playback vfe_closed_sessions
    = Some (- EBUSY, s') /\
    fe_substr_info_list s' = fe_substr_info_list vfe_closed_sessions.
Proof.
  destruct (vfe_pcm_open_follows_reply (vfe_env_answering (- EBUSY))
              vfe_closed_sessions pcm0_playback)
    as (_ & Hanswered & _).
  - reflexivity.
  - reflexivity.
  - vm_compute. discriminate.
  - reflexivity.
  - constructor.
  - destruct (Hanswered ltac:(vm_compute; discriminate) [- EBUSY] eq_refl)
      as (s' & Hrun & Hlist).
    exists s'. split; [exact Hrun | exact Hlist].
Defined.

(** X19.  Close of a named stream marks the session closed before the
    request is sent, so it is closed whether the back end answers or not;
    the status is the one of the reply, or -ETIMEDOUT without an answer. *)
Theorem vfe_pcm_close_marks_closed (env : vfe_env) (s : vfe_state) (key : stream_key) :
  let hdr := stamp_header env (vfe_fill_pcm_msg_header VFE_MSG_PCM_CLOSE key) in
  vfe_is_valid_fe_substream key = 0 ->
  msg_alloc_ok env = true ->
  0 <= virtqueue_add_ret env ->
  not_tx_used s = [] ->
  Forall (fun m => msg_id m <> next_id s) (not_tx_vq s) ->
  (forall rx, peer_reply env hdr (Some (stack_garbage env)) = Some rx ->
     exists s',
       vfe_pcm_close env key s = Some (hd 0 rx, s') /\
       fe_substr_info_list s'
       = vfe_update_found (fe_substr_info_list s) (fst key) (snd key)
           (set_vfe_open false)) /\
  (peer_reply env hdr (Some (stack_garbage env)) = None ->
   VFE_MSG_MSEC_TIMEOUT env <> 0 ->
   exists s',
     vfe_pcm_close env key s = Some (- ETIMEDOUT, s') /\
     fe_substr_info_list s'
     = vfe_update_found (fe_substr_info_list s) (fst key) (snd key)
         (set_vfe_open false)).
Proof.
  intros hdr Hvalid Halloc Hadd Hused Hfresh.
  set (s1 := mk_vfe (fe_shm s)
               (vfe_update_found (fe_substr_info_list s) (fst key) (snd key)
                  (set_vfe_open false))
               (not_tx_vq s) (not_tx_used s) (expired_msg_list s) (caller_rx s)
               (completed s) (next_id s) (fe_trace s)).
  split.
  - intros rx Hreply.
    pose proof (vfe_send_msg_with_timeout_answered env s1
                  (vfe_fill_pcm_msg_header VFE_MSG_PCM_CLOSE key)
                  (Some (stack_garbage env)) (stack_garbage env) rx
                  sizeof_vfe_pcm_result
                  (VFE_MSG_MSEC_TIMEOUT env) Halloc Hadd Hused Hfresh Hreply) as Hsend.
    cbv zeta in Hsend.
    unfold vfe_pcm_close. rewrite Hvalid. cbn [Z.eqb negb].
    erewrite bind_run; [| apply vfe_update_info_run]. unfold vfe_send_msg.
    rewrite (bind_run _ _ _ _ _ Hsend). cbn [fst snd].
    change (0 <? 0) with false. cbv iota.
    erewrite read_result_run with (buf := rx);
      [| fe_fields; apply lookup_insert_eq].
    eexists. split; reflexivity.
  - intros Hreply Htimeout.
    pose proof (vfe_send_msg_with_timeout_expires env s1
                  (vfe_fill_pcm_msg_header VFE_MSG_PCM_CLOSE key)
                  (Some (stack_garbage env)) (stack_garbage env)
                  sizeof_vfe_pcm_result
                  (VFE_MSG_MSEC_TIMEOUT env) Htimeout Halloc Hadd Hfresh Hreply)
      as Hsend.
    cbv zeta in Hsend.
    unfold vfe_pcm_close. rewrite Hvalid. cbn [Z.eqb negb].
    erewrite bind_run; [| apply vfe_update_info_run]. unfold vfe_send_msg.
    rewrite (bind_run _ _ _ _ _ Hsend). cbn [fst snd].
    change (- ETIMEDOUT <? 0) with true. cbv iota.
    eexists. split; reflexivity.
Qed.

Lemma vfe_pcm_close_marks_closed_witness :
  exists s',
    vfe_pcm_close vfe_env_quiet pcm0_playback vfe_two_sessions
    = Some (- ETIMEDOUT, s') /\
    fe_substr_info_list s'
    = [mk_vfe_info "pcm0" 0 false true (Some 100) false;
       mk_vfe_info "pcm0" 1 true true (Some 200) false].
Proof.
  destruct (vfe_pcm_close_marks_closed vfe_env_quiet vfe_two_sessions pcm0_playback)
    as (_ & Htimed).
  - reflexivity.
  - reflexivity.
  - vm_compute. discriminate.
  - reflexivity.
  - constructor.
  - destruct (Htimed eq_refl ltac:(vm_compute; discriminate)) as (s' & Hrun & Hlist).
    exists s'. split; [exact Hrun | exact Hlist].
Defined.

(** X20.  Prepare of a named stream: without a session it fails with
    -EINVAL and sends nothing; with one, the three fields of its position
    descriptor are zeroed (no other descriptor is touched), the request
    carries the buffer address and the descriptor address, the status is the
    one of the reply, and a wake-up that follows leaves the session alone
    since both counters are equal. *)
Theorem vfe_pcm_prepare_resets (env : vfe_env) (cnt_bits : Z) (s : vfe_state)
    (key : stream_key) :
  let hdr := stamp_header env (vfe_fill_pcm_msg_header VFE_MSG_PCM_PREPARE key) in
  vfe_is_valid_fe_substream key = 0 ->
  msg_alloc_ok env = true ->
  0 <= virtqueue_add_ret env ->
  not_tx_used s = [] ->
  Forall (fun m => msg_id m <> next_id s) (not_tx_vq s) ->
  (vfe_find_substream_info s key = None ->
   vfe_pcm_prepare env key s = Some (- EINVAL, s)) /\
  (forall info pd rx,
      vfe_find_substream_info s key = Some info ->
      vfe_pos_desc info = Some pd ->
      peer_reply env hdr (Some [fe_sg_addr env key; pd]) = Some rx ->
      exists s',
        vfe_pcm_prepare env key s = Some (hd 0 rx, s') /\
        fe_shm s' pd = mk_pos_desc 0 0 0 /\
        (forall x, x <> pd -> fe_shm s' x = fe_shm s x) /\
        fe_substr_info_list s' = fe_substr_info_list s /\
        fe_trace s'
        = fe_trace s
          ++ [FeSent (new_request (next_id s) hdr (Some [fe_sg_addr env key; pd])
                        (Some (stack_garbage env)) sizeof_vfe_pcm_result);
              FeCopyBack (next_id s) rx; FeWake (next_id s)] /\
        vfe_cmd_handle_rx_one env cnt_bits info s' = Some (tt, s')).
Proof.
  intros hdr Hvalid Halloc Hadd Hused Hfresh. split.
  - intros Hnone. unfold vfe_pcm_prepare. unfold bind at 1. unfold get at 1.
    cbv beta iota. rewrite Hvalid, Hnone. reflexivity.
  - intros info pd rx Hfind Hpd Hreply.
    set (s1 := mk_vfe (shm_update pd (fun _ => mk_pos_desc 0 0 0) (fe_shm s))
                 (fe_substr_info_list s) (not_tx_vq s) (not_tx_used s)
                 (expired_msg_list s) (caller_rx s) (completed s) (next_id s)
                 (fe_trace s)).
    pose proof (vfe_send_msg_with_timeout_answered env s1
                  (vfe_fill_pcm_msg_header VFE_MSG_PCM_PREPARE key)
                  (Some [fe_sg_addr env key; pd]) (stack_garbage env) rx
                  sizeof_vfe_pcm_result
                  (VFE_MSG_MSEC_TIMEOUT env) Halloc Hadd Hused Hfresh Hreply) as Hsend.
    cbv zeta in Hsend.
    match type of Hsend with _ = Some (_, ?st) => set (s2 := st) in * end.
    assert (Hrun : vfe_pcm_prepare env key s = Some (hd 0 rx, s2)).
    { unfold vfe_pcm_prepare. unfold bind at 1. unfold get at 1. cbv beta iota.
      rewrite Hvalid, Hfind, Hpd. cbn [Z.eqb negb].
      assert (Hset : set_fe_shm (shm_update pd (fun _ => mk_pos_desc 0 0 0) (fe_shm s)) s
                     = Some (tt, s1)) by reflexivity.
      rewrite (bind_run _ _ _ _ _ Hset). unfold vfe_send_msg.
      rewrite (bind_run _ _ _ _ _ Hsend). cbn [fst snd].
      change (0 <? 0) with false. cbv iota.
      apply read_result_run. subst s2. fe_fields. apply lookup_insert_eq. }
    exists s2. split; [exact Hrun|].
    assert (Hzero : fe_shm s2 pd = mk_pos_desc 0 0 0)
      by (subst s2 s1; fe_fields; apply shm_update_same).
    split; [exact Hzero|].
    split; [intros x Hx; subst s2 s1; fe_fields; now apply shm_update_other|].
    split; [reflexivity|]. split; [reflexivity|].
    apply vfe_cmd_handle_rx_one_skip.
    intros pd' Hpd'. rewrite Hpd in Hpd'. injection Hpd' as <-.
    unfold needs_update. rewrite Hzero. cbn [be_irq_cnt fe_irq_cnt].
    rewrite Z.eqb_refl. cbn [negb]. now rewrite andb_false_r.
Qed.

Lemma vfe_pcm_prepare_resets_witness :
  exists s',
    vfe_pcm_prepare (vfe_env_answering 0) pcm0_playback vfe_two_sessions
    = Some (0, s') /\
    fe_shm s' 100 = mk_pos_desc 0 0 0 /\
    fe_shm s' 200 = mk_pos_desc 0 3 3 /\
    vfe_cmd_handle_rx_one (vfe_env_answering 0) 32
      (mk_vfe_info "pcm0" 0 true true (Some 100) false) s' = Some (tt, s').
Proof.
  destruct (vfe_pcm_prepare_resets (vfe_env_answering 0) 32 vfe_two_sessions
              pcm0_playback)
    as (_ & Hfound).
  - reflexivity.
  - reflexivity.
  - vm_compute. discriminate.
  - reflexivity.
  - constructor.
  - destruct (Hfound (mk_vfe_info "pcm0" 0 true true (Some 100) false) 100 [0]
                eq_refl eq_refl eq_refl)
      as (s' & Hrun & Hzero & Hother & _ & _ & Hwake).
    exists s'. split; [exact Hrun|]. split; [exact Hzero|].
    split; [|exact Hwake].
    rewrite (Hother 200) by lia. reflexivity.
Defined.

(** ** Sending of requests *)

(** X21.  The ways a request is not waited for: without a header the send
    fails with -EINVAL and with a failed allocation with -ENOMEM, the state
    being untouched; when the virtqueue refuses the request its error is
    returned, the request is not queued and nothing is waited for; and a
    request without reply buffer returns 0 as soon as it is queued, whatever
    the timeout and whether or not the back end ever answers. *)
Theorem vfe_send_msg_with_timeout_unanswered (env : vfe_env) (s : vfe_state)
    (hdr : vfe_msg_header) (tx rx : option (list Z)) (rx_size timeout : Z) :
  vfe_send_msg_with_timeout env None tx rx rx_size timeout s = Some ((- EINVAL, 0), s) /\
  (msg_alloc_ok env = false ->
   vfe_send_msg_with_timeout env (Some hdr) tx rx rx_size timeout s
   = Some ((- ENOMEM, 0), s)) /\
  (msg_alloc_ok env = true -> virtqueue_add_ret env < 0 ->
   exists s',
     vfe_send_msg_with_timeout env (Some hdr) tx rx rx_size timeout s
     = Some ((virtqueue_add_ret env, next_id s), s') /\
     not_tx_vq s' = not_tx_vq s /\ not_tx_used s' = not_tx_used s /\
     expired_msg_list s' = expired_msg_list s /\
     fe_trace s' = fe_trace s ++ [FeWarn "could not send message over virtqueue"]) /\
  (msg_alloc_ok env = true -> 0 <= virtqueue_add_ret env ->
   vfe_send_msg_with_timeout env (Some hdr) tx None rx_size timeout s
   = Some ((0, next_id s),
           mk_vfe (fe_shm s) (fe_substr_info_list s)
             (not_tx_vq s
              ++ [new_request (next_id s) (stamp_header env hdr) tx None rx_size])
             (not_tx_used s) (expired_msg_list s) (caller_rx s) (completed s)
             (next_id s + 1)
             (fe_trace s
              ++ [FeSent (new_request (next_id s) (stamp_header env hdr) tx None
                            rx_size)]))).
Proof.
  split; [reflexivity|]. split; [|split].
  - intros Halloc. unfold vfe_send_msg_with_timeout. now rewrite Halloc.
  - intros Halloc Hadd. unfold vfe_send_msg_with_timeout. rewrite Halloc.
    cbn [negb]. apply Z.ltb_lt in Hadd.
    unfold bind at 1. unfold fresh_id at 1. cbv beta iota.
    unfold bind at 1. unfold get at 1. cbv beta iota.
    destruct rx as [buf|].
    + unfold bind at 1. unfold bind at 1. unfold set_caller_rx at 1. cbv beta iota.
      unfold set_completed at 1. cbv beta iota. rewrite Hadd.
      eexists. split; [reflexivity|]. repeat split.
    + unfold bind at 1. unfold ret at 1. cbv beta iota. rewrite Hadd.
      eexists. split; [reflexivity|]. repeat split.
  - intros Halloc Hadd. unfold vfe_send_msg_with_timeout. rewrite Halloc.
    cbn [negb].
    assert (Hok : (virtqueue_add_ret env <? 0) = false) by (apply Z.ltb_ge; lia).
    unfold bind at 1. unfold fresh_id at 1. cbv beta iota.
    unfold bind at 1. unfold get at 1. cbv beta iota.
    unfold bind at 1. unfold ret at 1. cbv beta iota. rewrite Hok.
    reflexivity.
Qed.

Lemma vfe_send_msg_with_timeout_unanswered_witness :
  vfe_send_msg_with_timeout vfe_env_quiet (Some open_pcm0_header) (Some [1]) None 0 0
    vfe_two_sessions
  = Some ((0, 1000),
          mk_vfe (fe_shm vfe_two_sessions) (fe_substr_info_list vfe_two_sessions)
            [new_request 1000 (stamp_header vfe_env_quiet open_pcm0_header) (Some [1])
               None 0]
            [] [] ∅ ∅ 1001
            [FeSent (new_request 1000 (stamp_header vfe_env_quiet open_pcm0_header)
                       (Some [1]) None 0)]).
Proof.
  destruct (vfe_send_msg_with_timeout_unanswered vfe_env_quiet vfe_two_sessions
              open_pcm0_header (Some [1]) None 0 0)
    as (_ & _ & _ & Hnoreply).
  apply Hnoreply; [reflexivity | vm_compute; discriminate].
Defined.

Lemma timed_out_requests_cons env first n hdr tx buf rx_size :
  timed_out_requests env first (S n) hdr tx buf rx_size
  = set_msg_status VFE_MSG_TIMED_OUT
      (new_request first (stamp_header env hdr) tx (Some buf) rx_size)
    :: timed_out_requests env (first + 1) n hdr tx buf rx_size.
Proof.
  unfold timed_out_requests. cbn [seq map]. rewrite Z.add_0_r. f_equal.
  rewrite <- seq_shift, map_map. apply map_ext. intros i. do 2 f_equal. lia.
Qed.

Lemma timed_out_rounds_cons env first n hdr tx buf rx_size :
  timed_out_rounds env first (S n) hdr tx buf rx_size
  = [FeSent (new_request first (stamp_header env hdr) tx (Some buf) rx_size);
     FeWarn "Response from backend timed out";
     FeWarn "Timeout, try once again"]
    ++ timed_out_rounds env (first + 1) n hdr tx buf rx_size.
Proof.
  unfold timed_out_rounds. cbn [seq flat_map]. rewrite Z.add_0_r. f_equal.
  rewrite <- seq_shift. rewrite !flat_map_concat_map, map_map. f_equal.
  apply map_ext. intros i. do 3 f_equal. lia.
Qed.

Lemma vfe_send_msg_retry_from_silent env hdr tx buf rx_size :
  VFE_MSG_MSEC_TIMEOUT env <> 0 ->
  msg_alloc_ok env = true ->
  0 <= virtqueue_add_ret env ->
  peer_reply env (stamp_header env hdr) tx = None ->
  forall (k : nat) (s : vfe_state),
    Forall (fun m => msg_id m < next_id s) (not_tx_vq s) ->
    exists s',
      vfe_send_msg_retry_from env k (Some hdr) tx (Some buf) rx_size s
      = Some ((- ETIMEDOUT, next_id s + Z.of_nat k), s') /\
      not_tx_vq s'
      = not_tx_vq s ++ timed_out_requests env (next_id s) (S k) hdr tx buf rx_size /\
      fe_trace s'
      = fe_trace s ++ timed_out_rounds env (next_id s) (S k) hdr tx buf rx_size /\
      next_id s' = next_id s + Z.of_nat k + 1 /\
      fe_shm s' = fe_shm s /\
      fe_substr_info_list s' = fe_substr_info_list s /\
      not_tx_used s' = not_tx_used s /\
      expired_msg_list s' = expired_msg_list s.
Proof.
  intros Htimeout Halloc Hadd Hreply k.
  induction k as [|k IH]; intros s Hfresh.
  - assert (Hne : Forall (fun m => msg_id m <> next_id s) (not_tx_vq s))
      by (eapply Forall_impl; [exact Hfresh|]; cbv beta; intros; lia).
    pose proof (vfe_send_msg_with_timeout_expires env s hdr tx buf rx_size
                  (VFE_MSG_MSEC_TIMEOUT env) Htimeout Halloc Hadd Hne Hreply) as Hsend.
    cbv zeta in Hsend.
    cbn [vfe_send_msg_retry_from]. unfold vfe_send_msg.
    rewrite (bind_run _ _ _ _ _ Hsend). cbn [fst]. rewrite Z.eqb_refl.
    eexists. split.
    { rewrite (bind_run _ _ _ _ _ (fe_emit_run _ _)). unfold ret.
      rewrite Z.add_0_r. reflexivity. }
    fe_fields. rewrite timed_out_requests_cons, timed_out_rounds_cons.
    unfold timed_out_requests, timed_out_rounds. cbn [seq map flat_map].
    rewrite app_nil_r, <- app_assoc, Z.add_0_r.
    repeat split; reflexivity.
  - assert (Hne : Forall (fun m => msg_id m <> next_id s) (not_tx_vq s))
      by (eapply Forall_impl; [exact Hfresh|]; cbv beta; intros; lia).
    pose proof (vfe_send_msg_with_timeout_expires env s hdr tx buf rx_size
                  (VFE_MSG_MSEC_TIMEOUT env) Htimeout Halloc Hadd Hne Hreply) as Hsend.
    cbv zeta in Hsend.
    match type of Hsend with _ = Some (_, ?st) => set (s1 := st) in * end.
    set (s2 := mk_vfe (fe_shm s1) (fe_substr_info_list s1) (not_tx_vq s1)
                 (not_tx_used s1) (expired_msg_list s1) (caller_rx s1) (completed s1)
                 (next_id s1) (fe_trace s1 ++ [FeWarn "Timeout, try once again"])).
    assert (Hfresh2 : Forall (fun m => msg_id m < next_id s2) (not_tx_vq s2)).
    { subst s2 s1. fe_fields. apply Forall_app. split.
      - eapply Forall_impl; [exact Hfresh|]. cbv beta. intros; lia.
      - constructor; [|constructor]. cbn [msg_id set_msg_status new_request]. lia. }
    destruct (IH s2 Hfresh2)
      as (s' & Hrun & Hvq & Htrace & Hnext & Hshm & Hlist & Hused & Hexp).
    exists s'. split.
    { cbn [vfe_send_msg_retry_from]. unfold vfe_send_msg.
      rewrite (bind_run _ _ _ _ _ Hsend). cbn [fst]. rewrite Z.eqb_refl.
      rewrite (bind_run _ _ _ _ _ (fe_emit_run _ s1)). fold s2.
      unfold vfe_send_msg in Hrun. rewrite Hrun.
      do 3 f_equal. subst s2 s1. fe_fields. lia. }
    subst s2 s1. fe_fields_in Hvq. fe_fields_in Htrace. fe_fields_in Hnext.
    fe_fields_in Hshm. fe_fields_in Hlist. fe_fields_in Hused. fe_fields_in Hexp.
    rewrite Hvq, Htrace, Hnext, Hshm, Hlist, Hused, Hexp.
    rewrite (timed_out_requests_cons env (next_id s) (S k)).
    rewrite (timed_out_rounds_cons env (next_id s) (S k)).
    rewrite <- !app_assoc.
    repeat split; try reflexivity. lia.
Qed.

(** X22.  The repeated send: when the back end answers the first request,
    exactly one request is sent and the status is 0; when it never answers,
    the request is sent VFE_MSG_MAX_RETRY_NUM + 1 times, every copy stays
    with the device flagged as timed out, each round logs the timeout and
    the retry, and the status is -ETIMEDOUT. *)
Theorem vfe_send_msg_retry_rounds (env : vfe_env) (VFE_MSG_MAX_RETRY_NUM : nat)
    (s : vfe_state) (hdr : vfe_msg_header) (tx : option (list Z)) (buf : list Z)
    (rx_size : Z) :
  msg_alloc_ok env = true ->
  0 <= virtqueue_add_ret env ->
  not_tx_used s = [] ->
  Forall (fun m => msg_id m < next_id s) (not_tx_vq s) ->
  (forall rx, peer_reply env (stamp_header env hdr) tx = Some rx ->
     exists s',
       vfe_send_msg_retry env VFE_MSG_MAX_RETRY_NUM (Some hdr) tx (Some buf) rx_size s
       = Some ((0, next_id s), s') /\
       not_tx_vq s' = not_tx_vq s /\
       caller_rx s' !! next_id s = Some rx /\
       fe_trace s'
       = fe_trace s
         ++ [FeSent (new_request (next_id s) (stamp_header env hdr) tx (Some buf)
                       rx_size);
             FeCopyBack (next_id s) rx; FeWake (next_id s)]) /\
  (peer_reply env (stamp_header env hdr) tx = None ->
   VFE_MSG_MSEC_TIMEOUT env <> 0 ->
   exists s',
     vfe_send_msg_retry env VFE_MSG_MAX_RETRY_NUM (Some hdr) tx (Some buf) rx_size s
     = Some ((- ETIMEDOUT, next_id s + Z.of_nat VFE_MSG_MAX_RETRY_NUM), s') /\
     not_tx_vq s'
     = not_tx_vq s
       ++ timed_out_requests env (next_id s) (S VFE_MSG_MAX_RETRY_NUM) hdr tx buf
            rx_size /\
     length (not_tx_vq s') = (length (not_tx_vq s) + S VFE_MSG_MAX_RETRY_NUM)%nat /\
     Forall (fun m => msg_status m = VFE_MSG_TIMED_OUT)
       (timed_out_requests env (next_id s) (S VFE_MSG_MAX_RETRY_NUM) hdr tx buf rx_size) /\
     fe_trace s'
     = fe_trace s
       ++ timed_out_rounds env (next_id s) (S VFE_MSG_MAX_RETRY_NUM) hdr tx buf rx_size /\
     expired_msg_list s' = expired_msg_list s).
Proof.
  intros Halloc Hadd Hused Hfresh. split.
  - intros rx Hreply.
    assert (Hne : Forall (fun m => msg_id m <> next_id s) (not_tx_vq s))
      by (eapply Forall_impl; [exact Hfresh|]; cbv beta; intros; lia).
    pose proof (vfe_send_msg_with_timeout_answered env s hdr tx buf rx rx_size
                  (VFE_MSG_MSEC_TIMEOUT env) Halloc Hadd Hused Hne Hreply) as Hsend.
    cbv zeta in Hsend.
    eexists. split.
    { unfold vfe_send_msg_retry.
      destruct VFE_MSG_MAX_RETRY_NUM; cbn [vfe_send_msg_retry_from];
        unfold vfe_send_msg; rewrite (bind_run _ _ _ _ _ Hsend); reflexivity. }
    fe_fields. split; [reflexivity|]. split; [apply lookup_insert_eq | reflexivity].
  - intros Hreply Htimeout.
    destruct (vfe_send_msg_retry_from_silent env hdr tx buf rx_size Htimeout Halloc
                Hadd Hreply VFE_MSG_MAX_RETRY_NUM s Hfresh)
      as (s' & Hrun & Hvq & Htrace & _ & _ & _ & _ & Hexp).
    exists s'. split; [exact Hrun|]. split; [exact Hvq|].
    split.
    { rewrite Hvq, length_app. unfold timed_out_requests.
      now rewrite length_map, length_seq. }
    split.
    { unfold timed_out_requests. apply Forall_map. apply Forall_forall.
      intros i _. reflexivity. }
    split; [exact Htrace | exact Hexp].
Qed.

Lemma vfe_send_msg_retry_rounds_witness :
  exists s',
    vfe_send_msg_retry vfe_env_quiet 2 (Some open_pcm0_header) None (Some [0]) 4
      vfe_two_sessions
    = Some ((- ETIMEDOUT, 1002), s') /\
    option_map msg_id (not_tx_vq s' !! 2%nat) = Some 1002 /\
    length (not_tx_vq s') = 3%nat.
Proof.
  destruct (vfe_send_msg_retry_rounds vfe_env_quiet 2 vfe_two_sessions
              open_pcm0_header None [0] 4)
    as (_ & Hsilent).
  - reflexivity.
  - vm_compute. discriminate.
  - reflexivity.
  - constructor.
  - destruct (Hsilent eq_refl ltac:(vm_compute; discriminate))
      as (s' & Hrun & Hvq & Hlen & _).
    exists s'. split; [exact Hrun|]. split; [|exact Hlen].
    rewrite Hvq. reflexivity.
Defined.

(** ** The completion loop of the front end *)

Lemma vfe_tx_message_one_spec m s :
  names_reply_buffer m ->
  exists s',
    vfe_tx_message_one m s = Some (tt, s') /\
    not_tx_used s' = not_tx_used s /\
    not_tx_vq s' = not_tx_vq s /\
    fe_substr_info_list s' = fe_substr_info_list s /\
    fe_shm s' = fe_shm s /\
    expired_msg_list s' = expired_msg_list s ++ (if is_timed_out m then [m] else []) /\
    completed s'
    = match woken_waiter m with
      | Some w => {[ w ]} ∪ completed s
      | None => completed s
      end /\
    (forall a, written_buffer m <> Some a -> caller_rx s' !! a = caller_rx s !! a) /\
    (forall a buf, written_buffer m = Some a -> msg_rx_buf m = Some buf ->
       caller_rx s' !! a = Some buf).
Proof.
  intros Hnames. unfold names_reply_buffer in Hnames.
  unfold vfe_tx_message_one, woken_waiter, written_buffer, is_timed_out.
  destruct (msg_status m) eqn:Hstatus.
  - destruct (msg_rx_buf m) as [buf|] eqn:Hbuf.
    + destruct (Hnames eq_refl (mk_is_Some _ _ eq_refl)) as [addr Haddr].
      rewrite Haddr.
      destruct (msg_waiter m) as [w|] eqn:Hw.
      * eexists. split; [reflexivity|]. fe_fields.
        rewrite app_nil_r. repeat split; try reflexivity.
        -- intros a Ha. apply lookup_insert_ne. congruence.
        -- intros a buf' Ha Hb. injection Ha as <-. injection Hb as <-.
           apply lookup_insert_eq.
      * eexists. split; [reflexivity|]. fe_fields.
        rewrite app_nil_r. repeat split; try reflexivity.
        -- intros a Ha. apply lookup_insert_ne. congruence.
        -- intros a buf' Ha Hb. injection Ha as <-. injection Hb as <-.
           apply lookup_insert_eq.
    + destruct (msg_waiter m) as [w|] eqn:Hw.
      * eexists. split; [reflexivity|]. fe_fields.
        rewrite app_nil_r. repeat split; try reflexivity. intros; discriminate.
      * eexists. split; [reflexivity|]. fe_fields.
        rewrite app_nil_r. repeat split; try reflexivity. intros; discriminate.
  - eexists. split; [reflexivity|]. fe_fields.
    repeat split; try reflexivity. intros; discriminate.
Qed.

Lemma tx_message_loop_drains : forall (l : list vfe_ipc_msg) (s : vfe_state) (fuel : nat),
  not_tx_used s = l ->
  (length l <= fuel)%nat ->
  Forall names_reply_buffer l ->
  exists s',
    tx_message_loop fuel s = Some (tt, s') /\
    not_tx_used s' = [] /\
    not_tx_vq s' = not_tx_vq s /\
    fe_substr_info_list s' = fe_substr_info_list s /\
    fe_shm s' = fe_shm s /\
    expired_msg_list s' = expired_msg_list s ++ List.filter is_timed_out l /\
    completed s' = list_to_set (omap woken_waiter l) ∪ completed s /\
    (forall a, Forall (fun m => written_buffer m <> Some a) l ->
       caller_rx s' !! a = caller_rx s !! a).
Proof.
  induction l as [|m rest IH]; intros s fuel Hused Hfuel Hnames.
  - exists s. split.
    { destruct fuel; cbn [tx_message_loop]; [reflexivity|].
      unfold bind at 1. unfold get at 1. cbv beta iota. now rewrite Hused. }
    split; [exact Hused|]. rewrite app_nil_r.
    repeat split; try reflexivity.
    simpl. symmetry. apply (left_id_L ∅ (∪)).
  - destruct fuel as [|fuel]; [simpl in Hfuel; lia|].
    apply Forall_cons in Hnames. destruct Hnames as [Hm Hrest].
    set (sa := mk_vfe (fe_shm s) (fe_substr_info_list s) (not_tx_vq s) rest
                 (expired_msg_list s) (caller_rx s) (completed s) (next_id s)
                 (fe_trace s)).
    destruct (vfe_tx_message_one_spec m sa Hm)
      as (sb & Hone & Hbused & Hbvq & Hblist & Hbshm & Hbexp & Hbdone & Hbframe & _).
    assert (Hset : set_not_tx_used rest s = Some (tt, sa)) by reflexivity.
    subst sa.
    fe_fields_in Hbused. fe_fields_in Hbvq. fe_fields_in Hblist. fe_fields_in Hbshm.
    fe_fields_in Hbexp. fe_fields_in Hbdone. fe_fields_in Hbframe.
    destruct (IH sb fuel Hbused ltac:(simpl in Hfuel; lia) Hrest)
      as (s' & Hrun & Hused' & Hvq' & Hlist' & Hshm' & Hexp' & Hdone' & Hframe').
    exists s'. split.
    { cbn [tx_message_loop]. unfold bind at 1. unfold get at 1. cbv beta iota.
      rewrite Hused.
      rewrite (bind_run _ _ _ _ _ Hset).
      rewrite (bind_run _ _ _ _ _ Hone). exact Hrun. }
    split; [exact Hused'|].
    split; [congruence|]. split; [congruence|]. split; [congruence|].
    split.
    { rewrite Hexp', Hbexp. cbn [List.filter].
      destruct (is_timed_out m); [|now rewrite app_nil_r].
      now rewrite <- app_assoc. }
    split.
    { rewrite Hdone', Hbdone. simpl.
      destruct (woken_waiter m) as [w|]; [|reflexivity].
      simpl. rewrite (assoc_L (∪)). f_equal. apply (comm_L (∪)). }
    intros a Hall. apply Forall_cons in Hall. destruct Hall as [Ha Hall].
    rewrite (Hframe' a Hall). apply Hbframe. exact Ha.
Qed.

(** X23.  The completion loop takes every request the device has
    returned: those flagged as timed out are moved, in order, to the list
    of expired requests and are neither copied to a buffer of a caller nor
    wake anyone; of the others each sets its completion flag; the loop ends
    with the queue of returned requests empty. *)
Theorem vfe_tx_message_loop_drains (s : vfe_state) :
  Forall names_reply_buffer (not_tx_used s) ->
  exists s',
    vfe_tx_message_loop s = Some (tt, s') /\
    not_tx_used s' = [] /\
    not_tx_vq s' = not_tx_vq s /\
    expired_msg_list s'
    = expired_msg_list s ++ List.filter is_timed_out (not_tx_used s) /\
    completed s' = list_to_set (omap woken_waiter (not_tx_used s)) ∪ completed s /\
    (forall a, Forall (fun m => written_buffer m <> Some a) (not_tx_used s) ->
       caller_rx s' !! a = caller_rx s !! a) /\
    (Forall (fun m => is_timed_out m = true) (not_tx_used s) ->
     expired_msg_list s' = expired_msg_list s ++ not_tx_used s /\
     completed s' = completed s /\
     forall a, caller_rx s' !! a = caller_rx s !! a).
Proof.
  intros Hnames.
  destruct (tx_message_loop_drains (not_tx_used s) s (length (not_tx_used s))
              eq_refl (le_n _) Hnames)
    as (s' & Hrun & Hused & Hvq & _ & _ & Hexp & Hdone & Hframe).
  exists s'. split.
  { unfold vfe_tx_message_loop. unfold bind at 1. unfold get at 1. exact Hrun. }
  split; [exact Hused|]. split; [exact Hvq|]. split; [exact Hexp|].
  split; [exact Hdone|]. split; [exact Hframe|].
  intros Hall. split; [|split].
  - rewrite Hexp. f_equal. clear -Hall.
    induction (not_tx_used s) as [|m l IH]; [reflexivity|].
    apply Forall_cons in Hall. destruct Hall as [Hm Hl].
    cbn [List.filter]. rewrite Hm. f_equal. now apply IH.
  - rewrite Hdone. clear -Hall.
    induction (not_tx_used s) as [|m l IH].
    + simpl. apply (left_id_L ∅ (∪)).
    + apply Forall_cons in Hall. destruct Hall as [Hm Hl].
      simpl. unfold woken_waiter at 1. rewrite Hm. now apply IH.
  - intros a. apply Hframe. eapply Forall_impl; [exact Hall|].
    cbv beta. intros m Hm. unfold written_buffer. rewrite Hm. discriminate.
Qed.

Lemma vfe_tx_message_loop_drains_witness :
  exists s',
    vfe_tx_message_loop
      (mk_vfe (fe_shm vfe_two_sessions) (fe_substr_info_list vfe_two_sessions) []
         [mk_vfe_msg 7 open_pcm0_header None (Some [0]) (Some 7) 4 (Some 7)
            VFE_MSG_TIMED_OUT]
         [] ∅ ∅ 1000 [])
    = Some (tt, s') /\
    expired_msg_list s'
    = [mk_vfe_msg 7 open_pcm0_header None (Some [0]) (Some 7) 4 (Some 7)
         VFE_MSG_TIMED_OUT] /\
    caller_rx s' !! 7 = None.
Proof.
  destruct (vfe_tx_message_loop_drains
              (mk_vfe (fe_shm vfe_two_sessions) (fe_substr_info_list vfe_two_sessions)
                 []
                 [mk_vfe_msg 7 open_pcm0_header None (Some [0]) (Some 7) 4 (Some 7)
                    VFE_MSG_TIMED_OUT]
                 [] ∅ ∅ 1000 []))
    as (s' & Hrun & _ & _ & _ & _ & _ & Hall).
  - constructor; [|constructor]. intros Hpending. discriminate.
  - destruct Hall as (Hexp & _ & Hrx).
    + constructor; [reflexivity | constructor].
    + exists s'. split; [exact Hrun|]. split; [exact Hexp|].
      rewrite Hrx. reflexivity.
Defined.

(** ** The position the front end reports *)

(** X24.  The pointer callback of the front end reports what the back end
    published last: after any run of interrupts of a stream whose
    descriptor the front-end session shares, it returns the last hardware
    position (modulo the counter width), whether or not the front end has
    been woken in between, and it changes nothing; for a substream without
    session it returns 0. *)
Theorem vfe_pcm_pointer_follows_back_end (cnt_bits : Z) (k : stream_key) (a : Z)
    (p0 : Z) (positions : list Z) (s : vbe_state) (f : vfe_state) (key : stream_key)
    (info : vfe_substream_info) :
  bound_descriptor s k = Some a ->
  vfe_find_substream_info f key = Some info ->
  vfe_pos_desc info = Some a ->
  exists s',
    vbe_stream_updates cnt_bits (same_stream_irqs k (p0 :: positions)) s
    = Some (tt, s') /\
    vfe_pcm_pointer key (with_fe_shm (shm s') f)
    = Some (wrap cnt_bits (List.last (p0 :: positions) 0), with_fe_shm (shm s') f) /\
    (forall other, vfe_find_substream_info f other = None ->
       vfe_pcm_pointer other (with_fe_shm (shm s') f)
       = Some (0, with_fe_shm (shm s') f)).
Proof.
  intros Hbound Hfind Hpd.
  destruct (vbe_stream_updates_of_one_stream cnt_bits k a positions s p0 Hbound)
    as (s' & evs & Hupd & _ & Hhw & _).
  exists s'. split; [exact Hupd|]. split.
  - unfold vfe_pcm_pointer. unfold bind at 1. unfold get at 1. cbv beta iota.
    change (vfe_find_substream_info (with_fe_shm (shm s') f) key)
      with (vfe_find_substream_info f key).
    rewrite Hfind, Hpd. unfold with_fe_shm at 1. fe_fields. now rewrite Hhw.
  - intros other Hnone.
    unfold vfe_pcm_pointer. unfold bind at 1. unfold get at 1. cbv beta iota.
    change (vfe_find_substream_info (with_fe_shm (shm s') f) other)
      with (vfe_find_substream_info f other).
    now rewrite Hnone.
Qed.

Lemma vfe_pcm_pointer_follows_back_end_witness :
  exists s',
    vbe_stream_updates 32 (same_stream_irqs pcm0_playback [960; 1920]) vbe_one_session
    = Some (tt, s') /\
    vfe_pcm_pointer pcm0_playback
      (with_fe_shm (shm s')
         (mk_vfe zero_shm [mk_vfe_info "pcm0" 0 true true (Some 4096) false]
            [] [] [] ∅ ∅ 1000 []))
    = Some (1920,
            with_fe_shm (shm s')
              (mk_vfe zero_shm [mk_vfe_info "pcm0" 0 true true (Some 4096) false]
                 [] [] [] ∅ ∅ 1000 [])).
Proof.
  destruct (vfe_pcm_pointer_follows_back_end 32 pcm0_playback 4096 960 [1920]
              vbe_one_session
              (mk_vfe zero_shm [mk_vfe_info "pcm0" 0 true true (Some 4096) false]
                 [] [] [] ∅ ∅ 1000 [])
              pcm0_playback (mk_vfe_info "pcm0" 0 true true (Some 4096) false))
    as (s' & Hupd & Hptr & _).
  - reflexivity.
  - reflexivity.
  - reflexivity.
  - exists s'. split; [exact Hupd | exact Hptr].
Defined.

(** ** Closing every stream of a client *)

Lemma put_substream_run key sub s :
  put_substream key sub s
  = Some (tt, mk_vbe (shm s) (client_list s) (<[key := sub]> (substreams s))
                (pending_msg_list s) (vq_avail s) (guest_mem s) (trace s)).
Proof. reflexivity. Qed.

Lemma emit_run e s :
  emit e s
  = Some (tt, mk_vbe (shm s) (client_list s) (substreams s) (pending_msg_list s)
                (vq_avail s) (guest_mem s) (trace s ++ [e])).
Proof. reflexivity. Qed.

Lemma update_found_self i l :
  update_found (i :: l) (info_pcm_id i) (info_direction i) (fun _ => None) = l.
Proof.
  cbn [update_found]. unfold pcm_id_eqb. now rewrite Z.eqb_refl, String.eqb_refl.
Qed.

Lemma vbe_skl_pcm_close_head env s msg info l tp rest sub :
  substreams s !! session_key info = Some sub ->
  sg_table sub <> Some [] ->
  client_list s = mk_client (info :: l) tp :: rest ->
  exists s' sub',
    vbe_skl_pcm_close env info msg s
    = Some ((ops_close env (session_key info),
             write_result (rx_data msg) (ops_close env (session_key info))), s') /\
    client_list s' = mk_client l tp :: rest /\
    substreams s' = <[session_key info := sub']> (substreams s) /\
    ref_count sub' = 0 /\ sg_table sub' <> Some [] /\
    shm s' = shm s /\ pending_msg_list s' = pending_msg_list s /\
    trace s'
    = trace s ++ match info_pos_desc info with
                 | Some a => [EvUnmapGuest a]
                 | None => []
                 end ++ [EvOpsClose (session_key info)].
Proof.
  intros Hsub Htable Hclient. unfold session_key in *.
  set (key := ((info_pcm_id info, info_direction info) : stream_key)) in *.
  unfold vbe_skl_pcm_close. fold key.
  rewrite (bind_run _ _ _ _ _ (get_substream_run s key sub Hsub)).
  assert (Hstep : forall (s1 : vbe_state) (sub1 : snd_pcm_substream),
             substreams s1 !! key = Some sub1 ->
             client_list s1 = mk_client (info :: l) tp :: rest ->
             exists s' sub',
               (match info_pos_desc info with
                | Some a => emit (EvUnmapGuest a)
                | None => ret tt
                end ;;
                update_first_client (fun c =>
                  mk_client (update_found (substr_info_list c) (info_pcm_id info)
                               (info_direction info) (fun _ => None))
                            (tplg c)) ;;
                sub0 <- get_substream key ;;
                put_substream key
                  (mk_substream 0 (runtime_allocated sub0) (sg_table sub0)) ;;
                emit (EvOpsClose key) ;;
                ret (ops_close env key, write_result (rx_data msg) (ops_close env key)))
                 s1
               = Some ((ops_close env key,
                        write_result (rx_data msg) (ops_close env key)), s') /\
               client_list s' = mk_client l tp :: rest /\
               substreams s' = <[key := sub']> (substreams s1) /\
               ref_count sub' = 0 /\ sg_table sub' = sg_table sub1 /\
               shm s' = shm s1 /\ pending_msg_list s' = pending_msg_list s1 /\
               trace s'
               = trace s1 ++ match info_pos_desc info with
                             | Some a => [EvUnmapGuest a]
                             | None => []
                             end ++ [EvOpsClose key]).
  { intros s1 sub1 Hsub1 Hclient1.
    exists (mk_vbe (shm s1) (mk_client l tp :: rest)
              (<[key := mk_substream 0 (runtime_allocated sub1) (sg_table sub1)]>
                 (substreams s1))
              (pending_msg_list s1) (vq_avail s1) (guest_mem s1)
              (trace s1 ++ match info_pos_desc info with
                           | Some a => [EvUnmapGuest a]
                           | None => []
                           end ++ [EvOpsClose key])),
           (mk_substream 0 (runtime_allocated sub1) (sg_table sub1)).
    split; [|repeat split].
    destruct (info_pos_desc info) as [a|].
    - rewrite (bind_run _ _ _ _ _ (emit_run _ s1)).
      erewrite bind_run;
        [| apply update_first_client_run with (client := mk_client (info :: l) tp)
                                              (rest := rest); exact Hclient1].
      erewrite bind_run; [| apply get_substream_run; be_fields; exact Hsub1].
      rewrite (bind_run _ _ _ _ _ (put_substream_run _ _ _)).
      rewrite (bind_run _ _ _ _ _ (emit_run _ _)).
      unfold ret. be_fields. cbn [substr_info_list tplg].
      rewrite update_found_self, <- app_assoc. reflexivity.
    - unfold bind at 1. unfold ret at 1. cbv beta iota.
      erewrite bind_run;
        [| apply update_first_client_run with (client := mk_client (info :: l) tp)
                                              (rest := rest); exact Hclient1].
      erewrite bind_run; [| apply get_substream_run; be_fields; exact Hsub1].
      rewrite (bind_run _ _ _ _ _ (put_substream_run _ _ _)).
      rewrite (bind_run _ _ _ _ _ (emit_run _ _)).
      unfold ret. be_fields. cbn [substr_info_list tplg].
      rewrite update_found_self. reflexivity. }
  destruct (sg_table sub) as [[|a table]|] eqn:Hsg; [congruence| |].
  - cbn [remap_table].
    rewrite (bind_run _ _ _ _ _ (put_substream_run _ _ _)).
    match goal with |- context [bind _ _ ?st] => set (s1 := st) end.
    destruct (Hstep s1 (mk_substream (ref_count sub) (runtime_allocated sub)
                          (Some (info_native_dma_addr info
                                 :: remap_pages (Z.ldiff (info_native_dma_addr info) 4095)
                                      table))))
      as (s' & sub' & Hrun & Hcl & Hsubs & Hrc & Htab & Hshm & Hpend & Htrace).
    { subst s1. be_fields. apply lookup_insert_eq. }
    { exact Hclient. }
    exists s', sub'. split; [exact Hrun|]. split; [exact Hcl|].
    split; [rewrite Hsubs; subst s1; be_fields; apply insert_insert_eq|].
    split; [exact Hrc|]. split; [rewrite Htab; discriminate|].
    split; [exact Hshm|]. split; [exact Hpend | exact Htrace].
  - unfold bind at 1. unfold ret at 1. cbv beta iota.
    destruct (Hstep s sub Hsub Hclient)
      as (s' & sub' & Hrun & Hcl & Hsubs & Hrc & Htab & Hshm & Hpend & Htrace).
    exists s', sub'. split; [exact Hrun|]. split; [exact Hcl|].
    split; [exact Hsubs|]. split; [exact Hrc|].
    split; [rewrite Htab, Hsg; discriminate|].
    split; [exact Hshm|]. split; [exact Hpend | exact Htrace].
Qed.

Lemma close_all_loop_run env tp rest : forall (infos : list vbe_substream_info)
    (s : vbe_state),
  client_list s = mk_client infos tp :: rest ->
  (forall k, k ∈ map session_key infos ->
     exists sub, substreams s !! k = Some sub /\ sg_table sub <> Some []) ->
  exists s' evs,
    close_all_loop env infos s = Some (tt, s') /\
    client_list s' = mk_client [] tp :: rest /\
    (forall k, k ∈ map session_key infos ->
       exists sub', substreams s' !! k = Some sub' /\ ref_count sub' = 0) /\
    (forall k, k ∉ map session_key infos -> substreams s' !! k = substreams s !! k) /\
    shm s' = shm s /\ pending_msg_list s' = pending_msg_list s /\
    trace s' = trace s ++ evs /\
    closed_streams evs = map session_key infos /\
    unmapped_descriptors evs = omap info_pos_desc infos.
Proof.
  induction infos as [|info l IH]; intros s Hclient Hsubs.
  - exists s, []. split; [reflexivity|]. split; [exact Hclient|].
    split; [intros k Hk; cbn [map] in Hk; now apply elem_of_nil in Hk|].
    split; [reflexivity|]. rewrite app_nil_r. repeat split.
  - destruct (Hsubs (session_key info)) as (sub & Hsub & Htable);
      [cbn [map]; apply elem_of_cons; now left|].
    destruct (vbe_skl_pcm_close_head env s close_all_msg info l tp rest sub
                Hsub Htable Hclient)
      as (s1 & sub1 & Hrun1 & Hcl1 & Hsubs1 & Hrc1 & Htab1 & Hshm1 & Hpend1 & Htr1).
    set (log := if ops_close env (session_key info) <? 0
                then [EvDevErr "Could not close PCM"] else []).
    set (s2 := mk_vbe (shm s1) (client_list s1) (substreams s1) (pending_msg_list s1)
                 (vq_avail s1) (guest_mem s1) (trace s1 ++ log)).
    assert (Hlog : (if fst (ops_close env (session_key info),
                            write_result (rx_data close_all_msg)
                              (ops_close env (session_key info))) <? 0
                    then emit (EvDevErr "Could not close PCM") else ret tt) s1
                   = Some (tt, s2)).
    { cbn [fst]. subst s2 log. destruct (ops_close env (session_key info) <? 0).
      - reflexivity.
      - unfold ret. rewrite app_nil_r. now destruct s1. }
    destruct (IH s2) as (s' & evs & Hrun & Hcl & Hzero & Hframe & Hshm & Hpend & Htr
                         & Hclosed & Hunmapped).
    { subst s2. be_fields. exact Hcl1. }
    { intros k Hk. subst s2. be_fields. rewrite Hsubs1.
      destruct (decide (k = session_key info)) as [->|Hne].
      - exists sub1. split; [apply lookup_insert_eq | exact Htab1].
      - rewrite lookup_insert_ne by congruence.
        apply Hsubs. cbn [map]. apply elem_of_cons. now right. }
    exists s', (match info_pos_desc info with
                | Some a => [EvUnmapGuest a]
                | None => []
                end ++ [EvOpsClose (session_key info)] ++ log ++ evs).
    split.
    { cbn [close_all_loop].
      rewrite (bind_run _ _ _ _ _ Hrun1).
      rewrite (bind_run _ _ _ _ _ Hlog). exact Hrun. }
    split; [exact Hcl|].
    split.
    { intros k Hk. cbn [map] in Hk. apply elem_of_cons in Hk.
      destruct (decide (k ∈ map session_key l)) as [Hin | Hout].
      - now apply Hzero.
      - destruct Hk as [-> | Hin]; [|contradiction].
        exists sub1. rewrite (Hframe _ Hout). subst s2. be_fields. rewrite Hsubs1.
        split; [apply lookup_insert_eq | exact Hrc1]. }
    split.
    { intros k Hk. cbn [map] in Hk. apply not_elem_of_cons in Hk.
      destruct Hk as [Hne Hout].
      rewrite (Hframe _ Hout). subst s2. be_fields. rewrite Hsubs1.
      apply lookup_insert_ne. congruence. }
    split; [rewrite Hshm; subst s2; be_fields; exact Hshm1|].
    split; [rewrite Hpend; subst s2; be_fields; exact Hpend1|].
    split.
    { rewrite Htr. subst s2. be_fields. rewrite Htr1.
      rewrite <- !app_assoc. reflexivity. }
    unfold closed_streams, unmapped_descriptors in *.
    rewrite !omap_app. cbn [map omap].
    rewrite Hclosed, Hunmapped. subst log.
    split.
    + destruct (info_pos_desc info);
        destruct (ops_close env (session_key info) <? 0); reflexivity.
    + simpl. destruct (info_pos_desc info);
        destruct (ops_close env (session_key info) <? 0); reflexivity.
Qed.

(** X25.  Closing all streams of the first client: every session of its
    list is closed once, in list order; afterwards the list is empty, every
    substream that had a session is free (ref_count 0), every descriptor
    that was mapped has been unmapped, the substreams without session, the
    position descriptors and the pending notifications are untouched.  A
    failure of one close callback does not stop the others. *)
Theorem vbe_skl_pcm_close_all_closes (env : vbe_env) (s : vbe_state)
    (client : snd_skl_vbe_client) (rest : list snd_skl_vbe_client) :
  client_list s = client :: rest ->
  (forall k, k ∈ map session_key (substr_info_list client) ->
     exists sub, substreams s !! k = Some sub /\ sg_table sub <> Some []) ->
  exists s' evs,
    vbe_skl_pcm_close_all env s = Some (tt, s') /\
    client_list s' = mk_client [] (tplg client) :: rest /\
    (forall k, k ∈ map session_key (substr_info_list client) ->
       exists sub', substreams s' !! k = Some sub' /\ ref_count sub' = 0) /\
    (forall k, k ∉ map session_key (substr_info_list client) ->
       substreams s' !! k = substreams s !! k) /\
    shm s' = shm s /\ pending_msg_list s' = pending_msg_list s /\
    trace s' = trace s ++ evs /\
    closed_streams evs = map session_key (substr_info_list client) /\
    unmapped_descriptors evs = omap info_pos_desc (substr_info_list client).
Proof.
  intros Hclient Hsubs.
  destruct client as [infos tp]. cbn [substr_info_list tplg] in *.
  destruct (close_all_loop_run env tp rest infos s Hclient Hsubs)
    as (s' & evs & Hrun & Hrest).
  exists s', evs. split; [|exact Hrest].
  unfold vbe_skl_pcm_close_all. unfold bind at 1. unfold get at 1. cbv beta iota.
  unfold first_client. rewrite Hclient. exact Hrun.
Qed.

Lemma vbe_skl_pcm_close_all_closes_witness :
  exists s' evs,
    vbe_skl_pcm_close_all vbe_env_simple vbe_one_session = Some (tt, s') /\
    client_list s' = [mk_client [] None] /\
    trace s' = trace vbe_one_session ++ evs /\
    closed_streams evs = [pcm0_playback] /\
    unmapped_descriptors evs = [4096].
Proof.
  destruct (vbe_skl_pcm_close_all_closes vbe_env_simple vbe_one_session
              (mk_client [mk_vbe_info "pcm0" 0 (Some 4096) 0] None) [])
    as (s' & evs & Hrun & Hcl & _ & _ & _ & _ & Htr & Hclosed & Hunmapped).
  - reflexivity.
  - intros k Hk. cbn in Hk. apply list_elem_of_singleton in Hk. subst k.
    exists (mk_substream 1 true (Some [8192])). split; [reflexivity | discriminate].
  - exists s', evs. split; [exact Hrun|]. split; [exact Hcl|].
    split; [exact Htr|]. split; [exact Hclosed | exact Hunmapped].
Defined.

(** ** The request loop of the back end *)

Lemma keeps_frame_not_fwd env sdev header_len msg :
  msg_class (cmd (header msg)) <> VFE_MSG_KCTL ->
  keeps_frame (vbe_skl_not_fwd env sdev header_len msg).
Proof. apply keeps_frame_not_fwd_class. Qed.

Lemma keeps_frame_not_get_loop env sdev vq_size reqs :
  Forall (fun r => is_kctl_request r = false) reqs ->
  keeps_frame (not_get_loop env sdev vq_size reqs).
Proof.
  induction reqs as [|r rest IH]; intros Hall; cbn [not_get_loop].
  - apply keeps_frame_ret.
  - apply Forall_cons in Hall. destruct Hall as [Hr Hrest].
    destruct (negb (req_chain_ret r =? vq_size)); [keeps_frame_auto|].
    apply keeps_frame_bind.
    + apply keeps_frame_not_fwd. unfold is_kctl_request in Hr.
      intros Hk. rewrite Hk in Hr. discriminate.
    + intros res. apply keeps_frame_bind; [keeps_frame_auto|].
      intros _. apply keeps_frame_bind; [now apply IH|].
      intros more. apply keeps_frame_ret.
Qed.

Lemma bind_inv {S A B} (c : St S A) (k : A -> St S B) s b s' :
  bind c k s = Some (b, s') ->
  exists a s1, c s = Some (a, s1) /\ k a s1 = Some (b, s').
Proof.
  unfold bind. destruct (c s) as [[a s1]|]; [|discriminate].
  intros H. now exists a, s1.
Qed.



(** ** The list of sessions of the front end *)

Lemma vfe_initialize_stream_list_from_pcm_str_run alloc_ok env k s :
  (forall a, alloc_ok a = true) ->
  vfe_initialize_stream_list_from_pcm_str alloc_ok env k s
  = Some (0,
          if fe_has_substream env k
          then mk_vfe (shm_update (next_id s + 1) (fun _ => mk_pos_desc 0 0 0) (fe_shm s))
                 (mk_vfe_info (fst k) (snd k) false false (Some (next_id s + 1)) false
                  :: fe_substr_info_list s)
                 (not_tx_vq s) (not_tx_used s) (expired_msg_list s) (caller_rx s)
                 (completed s) (next_id s + 1 + 1) (fe_trace s)
          else s).
Proof.
  intros Halloc. unfold vfe_initialize_stream_list_from_pcm_str.
  destruct (fe_has_substream env k); [|reflexivity]. cbn [negb].
  unfold kzalloc, bind, get, fresh_id, ret, set_fe_shm, set_fe_substr_info_list.
  fe_fields. rewrite !Halloc. reflexivity.
Qed.

Lemma vfe_initialize_stream_list_from_pcm_run alloc_ok env id s :
  (forall a, alloc_ok a = true) ->
  exists s1 s2,
    vfe_initialize_stream_list_from_pcm_str alloc_ok env
      (id, SNDRV_PCM_STREAM_PLAYBACK) s = Some (0, s1) /\
    vfe_initialize_stream_list_from_pcm_str alloc_ok env
      (id, SNDRV_PCM_STREAM_CAPTURE) s1 = Some (0, s2) /\
    vfe_initialize_stream_list_from_pcm alloc_ok env id s = Some (0, s2).
Proof.
  intros Halloc.
  pose proof (vfe_initialize_stream_list_from_pcm_str_run alloc_ok env
                (id, SNDRV_PCM_STREAM_PLAYBACK) s Halloc) as H0.
  match type of H0 with _ = Some (_, ?st) => set (s1 := st) in * end.
  pose proof (vfe_initialize_stream_list_from_pcm_str_run alloc_ok env
                (id, SNDRV_PCM_STREAM_CAPTURE) s1 Halloc) as H1.
  match type of H1 with _ = Some (_, ?st) => set (s2 := st) in * end.
  exists s1, s2. split; [exact H0|]. split; [exact H1|].
  unfold vfe_initialize_stream_list_from_pcm.
  rewrite (bind_run _ _ _ _ _ H0). change (0 <? 0) with false. cbv iota.
  rewrite (bind_run _ _ _ _ _ H1). reflexivity.
Qed.

Lemma initialize_stream_list_loop_flat alloc_ok env :
  (forall a, alloc_ok a = true) ->
  forall rtds s,
    initialize_stream_list_loop alloc_ok env rtds s
    = initialize_substreams alloc_ok env (card_substreams rtds) s.
Proof.
  intros Halloc. induction rtds as [|id rest IH]; intros s; [reflexivity|].
  cbn [initialize_stream_list_loop card_substreams flat_map].
  destruct (vfe_is_valid_pcm_id id <? 0); [apply IH|].
  cbn [app initialize_substreams].
  destruct (vfe_initialize_stream_list_from_pcm_run alloc_ok env id s Halloc)
    as (s1 & s2 & H0 & H1 & Hpcm).
  rewrite (bind_run _ _ _ _ _ Hpcm). change (0 <? 0) with false. cbv iota.
  rewrite (bind_run _ _ _ _ _ H0).
  rewrite (bind_run _ _ _ _ _ H1).
  apply IH.
Qed.

Lemma fresh_session_weaken lo lo' hi hi' m m' info :
  fresh_session lo hi m info ->
  lo' <= lo -> hi <= hi' ->
  (forall x, x < hi -> m' x = m x) ->
  fresh_session lo' hi' m' info.
Proof.
  intros (Ho & Hr & pd & Hpd & Hrange & Hzero) Hlo Hhi Hsame.
  split; [exact Ho|]. split; [exact Hr|].
  exists pd. split; [exact Hpd|]. split; [lia|].
  rewrite Hsame by lia. exact Hzero.
Qed.

Lemma initialize_substreams_run alloc_ok env :
  (forall a, alloc_ok a = true) ->
  forall (keys : list stream_key) (s : vfe_state),
  exists s' added,
    initialize_substreams alloc_ok env keys s = Some (0, s') /\
    fe_substr_info_list s' = added ++ fe_substr_info_list s /\
    map vfe_session_key added = rev (List.filter (fe_has_substream env) keys) /\
    next_id s <= next_id s' /\
    Forall (fresh_session (next_id s) (next_id s') (fe_shm s')) added /\
    NoDup (omap vfe_pos_desc added) /\
    (forall x, x < next_id s -> fe_shm s' x = fe_shm s x).
Proof.
  intros Halloc. induction keys as [|k rest IH]; intros s.
  - exists s, []. split; [reflexivity|]. split; [reflexivity|].
    split; [reflexivity|]. split; [lia|]. split; [constructor|].
    split; [constructor | reflexivity].
  - pose proof (vfe_initialize_stream_list_from_pcm_str_run alloc_ok env k s Halloc)
      as Hstep.
    match type of Hstep with _ = Some (_, ?st) => set (s1 := st) in * end.
    destruct (IH s1) as (s' & added & Hrun & Hlist & Hkeys & Hnext & Hfresh & Hnodup
                         & Hframe).
    cbn [initialize_substreams]. rewrite (bind_run _ _ _ _ _ Hstep).
    cbn [List.filter]. subst s1.
    destruct (fe_has_substream env k) eqn:Hhas.
    + fe_fields_in Hlist. fe_fields_in Hnext. fe_fields_in Hfresh. fe_fields_in Hframe.
      set (first := mk_vfe_info (fst k) (snd k) false false (Some (next_id s + 1)) false)
        in *.
      exists s', (added ++ [first]).
      split; [exact Hrun|].
      split; [rewrite Hlist, <- app_assoc; reflexivity|].
      split.
      { rewrite map_app, Hkeys. cbn [rev map]. f_equal.
        unfold vfe_session_key, first. cbn [vfe_pcm_id vfe_direction].
        now destruct k. }
      split; [lia|].
      split.
      { apply Forall_app. split.
        - eapply Forall_impl; [exact Hfresh|]. intros info Hinfo.
          eapply fresh_session_weaken; [exact Hinfo | lia | lia | reflexivity].
        - constructor; [|constructor].
          split; [reflexivity|]. split; [reflexivity|].
          exists (next_id s + 1). split; [reflexivity|]. split; [lia|].
          rewrite Hframe by lia. apply shm_update_same. }
      split.
      { rewrite omap_app. apply NoDup_app. split; [exact Hnodup|].
        split; [|cbn; apply NoDup_singleton].
        intros x Hx Hx'. cbn in Hx'. apply list_elem_of_singleton in Hx'. subst x.
        apply list_elem_of_omap in Hx. destruct Hx as (info & Hin & Hpd).
        rewrite Forall_forall in Hfresh.
        destruct (Hfresh info Hin) as (_ & _ & pd & Hpd' & Hrange & _).
        rewrite Hpd in Hpd'. injection Hpd' as <-. lia. }
      intros x Hx. rewrite Hframe by lia. apply shm_update_other. lia.
    + exists s', added.
      split; [exact Hrun|]. split; [exact Hlist|]. split; [exact Hkeys|].
      split; [exact Hnext|]. split; [exact Hfresh|].
      split; [exact Hnodup | exact Hframe].
Qed.

Lemma vfe_find_in_added added old k :
  k ∈ map vfe_session_key added ->
  exists info,
    info ∈ added /\
    vfe_find_substream_info_by_pcm (added ++ old) (fst k) (snd k) = Some info.
Proof.
  induction added as [|i l IH]; intros Hk; [now apply elem_of_nil in Hk|].
  cbn [app vfe_find_substream_info_by_pcm].
  destruct ((vfe_direction i =? snd k) && pcm_id_eqb (vfe_pcm_id i) (fst k)) eqn:E.
  - exists i. split; [apply elem_of_cons; now left | reflexivity].
  - cbn [map] in Hk. apply elem_of_cons in Hk. destruct Hk as [-> | Hin].
    + unfold vfe_session_key in E. cbn [fst snd] in E.
      unfold pcm_id_eqb in E. now rewrite Z.eqb_refl, String.eqb_refl in E.
    + destruct (IH Hin) as (info & Hinfo & Hfind).
      exists info. split; [apply elem_of_cons; now right | exact Hfind].
Qed.

(** X27.  When no allocation fails, the initialisation of the session list
    returns 0 and has put one session in front of the list for every
    substream of every named PCM of the card, the last one visited first;
    each of them is closed and stopped and has a descriptor of its own that
    reads zero, so that no two sessions of the list share a descriptor; the
    lookup of such a substream finds one of the new sessions, and the
    descriptors that existed before are untouched. *)
Theorem vfe_initialize_stream_list_sessions (alloc_ok : Z -> bool) (env : vfe_env)
    (s : vfe_state) :
  (forall a, alloc_ok a = true) ->
  NoDup (omap vfe_pos_desc (fe_substr_info_list s)) ->
  Forall (fun info => forall pd, vfe_pos_desc info = Some pd -> pd < next_id s)
    (fe_substr_info_list s) ->
  exists s' added,
    vfe_initialize_stream_list alloc_ok env s = Some (0, s') /\
    fe_substr_info_list s' = added ++ fe_substr_info_list s /\
    map vfe_session_key added = rev (expected_sessions env) /\
    Forall (fresh_session (next_id s) (next_id s') (fe_shm s')) added /\
    NoDup (omap vfe_pos_desc (fe_substr_info_list s')) /\
    (forall k, k ∈ expected_sessions env ->
       exists info, info ∈ added /\ vfe_find_substream_info s' k = Some info) /\
    (forall x, x < next_id s -> fe_shm s' x = fe_shm s x).
Proof.
  intros Halloc Hnodup Hold.
  destruct (initialize_substreams_run alloc_ok env Halloc
              (card_substreams (fe_rtd_list env)) s)
    as (s' & added & Hrun & Hlist & Hkeys & Hnext & Hfresh & Hnew & Hframe).
  exists s', added. split.
  { unfold vfe_initialize_stream_list.
    rewrite (initialize_stream_list_loop_flat alloc_ok env Halloc). exact Hrun. }
  split; [exact Hlist|]. split; [exact Hkeys|]. split; [exact Hfresh|].
  split.
  { rewrite Hlist, omap_app. apply NoDup_app. split; [exact Hnew|].
    split; [|exact Hnodup].
    intros x Hx Hx'.
    apply list_elem_of_omap in Hx. destruct Hx as (info & Hin & Hpd).
    apply list_elem_of_omap in Hx'. destruct Hx' as (old & Hin' & Hpd').
    rewrite Forall_forall in Hfresh, Hold.
    destruct (Hfresh info Hin) as (_ & _ & pd & Hpd2 & Hrange & _).
    rewrite Hpd in Hpd2. injection Hpd2 as <-.
    pose proof (Hold old Hin' x Hpd'). lia. }
  split; [|exact Hframe].
  intros k Hk. unfold vfe_find_substream_info. rewrite Hlist.
  apply vfe_find_in_added. rewrite Hkeys.
  apply list_elem_of_In. apply -> in_rev. apply list_elem_of_In. exact Hk.
Qed.

Lemma vfe_initialize_stream_list_sessions_witness :
  exists s' added,
    vfe_initialize_stream_list (fun _ => true) vfe_env_card vfe_empty = Some (0, s') /\
    fe_substr_info_list s' = added ++ [] /\
    map vfe_session_key added = [("pcm1"%string, 0); ("pcm0"%string, 1); ("pcm0"%string, 0)] /\
    NoDup (omap vfe_pos_desc (fe_substr_info_list s')).
Proof.
  destruct (vfe_initialize_stream_list_sessions (fun _ => true) vfe_env_card vfe_empty)
    as (s' & added & Hrun & Hlist & Hkeys & _ & Hnodup & _).
  - reflexivity.
  - constructor.
  - constructor.
  - exists s', added. split; [exact Hrun|]. split; [exact Hlist|].
    split; [exact Hkeys | exact Hnodup].
Defined.

(** X28.  An allocation that fails stops the initialisation with -ENOMEM
    and nothing is undone: when the session of the playback substream of
    the first PCM has been set up and the first allocation for its capture
    substream fails, the playback session stays in the list. *)
Theorem vfe_initialize_stream_list_no_rollback (alloc_ok : Z -> bool) (env : vfe_env)
    (s : vfe_state) (pcm_id : string) (rest : list string) :
  fe_rtd_list env = pcm_id :: rest ->
  vfe_is_valid_pcm_id pcm_id = 0 ->
  fe_has_substream env (pcm_id, SNDRV_PCM_STREAM_PLAYBACK) = true ->
  fe_has_substream env (pcm_id, SNDRV_PCM_STREAM_CAPTURE) = true ->
  alloc_ok (next_id s) = true ->
  alloc_ok (next_id s + 1) = true ->
  alloc_ok (next_id s + 2) = false ->
  exists s',
    vfe_initialize_stream_list alloc_ok env s = Some (- ENOMEM, s') /\
    fe_substr_info_list s'
    = mk_vfe_info pcm_id SNDRV_PCM_STREAM_PLAYBACK false false (Some (next_id s + 1))
        false :: fe_substr_info_list s /\
    fe_shm s' (next_id s + 1) = mk_pos_desc 0 0 0.
Proof.
  intros Hrtd Hvalid Hplay Hcapt Ha0 Ha1 Ha2.
  assert (Hplayback :
            vfe_initialize_stream_list_from_pcm_str alloc_ok env
              (pcm_id, SNDRV_PCM_STREAM_PLAYBACK) s
            = Some (0,
                    mk_vfe (shm_update (next_id s + 1) (fun _ => mk_pos_desc 0 0 0)
                              (fe_shm s))
                      (mk_vfe_info pcm_id SNDRV_PCM_STREAM_PLAYBACK false false
                         (Some (next_id s + 1)) false :: fe_substr_info_list s)
                      (not_tx_vq s) (not_tx_used s) (expired_msg_list s) (caller_rx s)
                      (completed s) (next_id s + 1 + 1) (fe_trace s))).
  { unfold vfe_initialize_stream_list_from_pcm_str. rewrite Hplay. cbn [negb].
    unfold kzalloc, bind, get, fresh_id, ret, set_fe_shm, set_fe_substr_info_list.
    fe_fields. rewrite Ha0. cbv beta iota. fe_fields. rewrite Ha1. reflexivity. }
  match type of Hplayback with _ = Some (_, ?st) => set (s1 := st) in * end.
  assert (Hcapture :
            vfe_initialize_stream_list_from_pcm_str alloc_ok env
              (pcm_id, SNDRV_PCM_STREAM_CAPTURE) s1 = Some (- ENOMEM, s1)).
  { unfold vfe_initialize_stream_list_from_pcm_str. rewrite Hcapt. cbn [negb].
    unfold kzalloc. unfold bind at 1. unfold bind at 1. unfold get at 1.
    cbv beta iota. subst s1. fe_fields.
    replace (next_id s + 1 + 1) with (next_id s + 2) by lia.
    rewrite Ha2. reflexivity. }
  exists s1. split.
  - unfold vfe_initialize_stream_list. rewrite Hrtd.
    cbn [initialize_stream_list_loop]. rewrite Hvalid.
    change (0 <? 0) with false. cbv iota.
    unfold vfe_initialize_stream_list_from_pcm.
    unfold bind at 1. rewrite (bind_run _ _ _ _ _ Hplayback).
    change (0 <? 0) with false. cbv iota.
    rewrite (bind_run _ _ _ _ _ Hcapture).
    reflexivity.
  - subst s1. fe_fields. split; [reflexivity | apply shm_update_same].
Qed.

Lemma vfe_initialize_stream_list_no_rollback_witness :
  exists s',
    vfe_initialize_stream_list (fun a => a <? 1002) vfe_env_card vfe_empty
    = Some (- ENOMEM, s') /\
    fe_substr_info_list s' = [mk_vfe_info "pcm0" 0 false false (Some 1001) false].
Proof.
  destruct (vfe_initialize_stream_list_no_rollback (fun a => a <? 1002) vfe_env_card
              vfe_empty "pcm0" [""%string; "pcm1"%string])
    as (s' & Hrun & Hlist & _).
  - reflexivity.
  - reflexivity.
  - reflexivity.
  - reflexivity.
  - reflexivity.
  - reflexivity.
  - reflexivity.
  - exists s'. split; [exact Hrun | exact Hlist].
Defined.

(** ** Interrupts after Close *)

Lemma vbe_find_substream_info_by_pcm_in l id dir info :
  vbe_find_substream_info_by_pcm l id dir = Some info ->
  (id, dir) ∈ map session_key l.
Proof.
  induction l as [|i rest IH]; simpl; [discriminate|].
  destruct ((info_direction i =? dir) && pcm_id_eqb (info_pcm_id i) id) eqn:E.
  - intros _. apply andb_true_iff in E. destruct E as [Ed Ei].
    apply Z.eqb_eq in Ed. apply String.eqb_eq in Ei.
    apply elem_of_cons. left. unfold session_key. now rewrite Ed, Ei.
  - intros Hfind. apply elem_of_cons. right. now apply IH.
Qed.

Lemma update_found_removes l id dir :
  NoDup (map session_key l) ->
  vbe_find_substream_info_by_pcm (update_found l id dir (fun _ => None)) id dir = None.
Proof.
  induction l as [|i rest IH]; intros Hnodup; [reflexivity|].
  cbn [map] in Hnodup. apply NoDup_cons in Hnodup. destruct Hnodup as [Hout Hrest].
  cbn [update_found].
  destruct ((info_direction i =? dir) && pcm_id_eqb (info_pcm_id i) id) eqn:E.
  - destruct (vbe_find_substream_info_by_pcm rest id dir) as [x|] eqn:Hfind;
      [|reflexivity].
    exfalso. apply Hout.
    apply andb_true_iff in E. destruct E as [Ed Ei].
    apply Z.eqb_eq in Ed. apply String.eqb_eq in Ei.
    unfold session_key at 1. rewrite Ed, Ei.
    exact (vbe_find_substream_info_by_pcm_in _ _ _ _ Hfind).
  - cbn [vbe_find_substream_info_by_pcm]. rewrite E. now apply IH.
Qed.

(** X29.  After Close the stream is unbound: when the only client holds at
    most one session per stream, a Close request removes the session, and
    an interrupt of that stream arriving afterwards writes nothing to the
    memory shared with the guest and raises no interrupt there; only the
    hardware interrupt is acknowledged. *)
Theorem vbe_close_unbinds (env : vbe_env) (sdev : skl) (cnt_bits : Z) (s : vbe_state)
    (msg : vbe_ipc_msg) (info : vbe_substream_info) (sub : snd_pcm_substream)
    (client : snd_skl_vbe_client) :
  let key : stream_key := (desc_pcm_id (header msg), desc_direction (header msg)) in
  cmd (header msg) = VFE_MSG_PCM_CLOSE ->
  client_list s = [client] ->
  NoDup (map session_key (substr_info_list client)) ->
  vbe_find_substream_info_by_pcm (substr_info_list client) (fst key) (snd key)
  = Some info ->
  substreams s !! key = Some sub ->
  sg_table sub <> Some [] ->
  exists s1,
    vbe_skl_msg_pcm_handle env sdev msg s
    = Some ((ops_close env key, write_result (rx_data msg) (ops_close env key)), s1) /\
    shm s1 = shm s /\
    bound_descriptor s1 key = None /\
    forall pos,
      vbe_stream_update cnt_bits (Some key) pos s1
      = Some (tt, mk_vbe (shm s1) (client_list s1) (substreams s1)
                    (pending_msg_list s1) (vq_avail s1) (guest_mem s1)
                    (trace s1 ++ [EvHdaIrqAck])).
Proof.
  intros key Hcmd Hclient Hnodup Hfind Hsub Htable.
  destruct (vbe_find_substream_info_by_pcm_key _ _ _ _ Hfind) as [Hid Hdir].
  cbn [fst snd key] in Hid, Hdir, Hfind.
  assert (Hkey : ((info_pcm_id info, info_direction info) : stream_key) = key)
    by (unfold key; now rewrite Hid, Hdir).
  destruct (vbe_skl_pcm_close_run env s msg info sub client [])
    as (s1 & Hrun & Hlist & _ & _).
  { rewrite Hkey. exact Hsub. }
  { exact Htable. }
  { exact Hclient. }
  cbv zeta in Hrun. rewrite Hkey in Hrun. rewrite Hid, Hdir in Hlist.
  assert (Hhandle : vbe_skl_msg_pcm_handle env sdev msg s
                    = Some ((ops_close env key,
                             write_result (rx_data msg) (ops_close env key)), s1)).
  { rewrite (vbe_skl_msg_pcm_handle_dispatch env sdev s msg client [] Hclient).
    rewrite Hcmd, Hfind. exact Hrun. }
  assert (Hunbound : vbe_find_substream_info (client_list s1) key = None).
  { rewrite Hlist. cbn [vbe_find_substream_info substr_info_list fst snd key].
    now rewrite (update_found_removes _ _ _ Hnodup). }
  exists s1. split; [exact Hhandle|].
  split; [exact (proj1 (keeps_frame_pcm_handle env sdev msg s _ s1 Hhandle))|].
  split; [unfold bound_descriptor; now rewrite Hunbound|].
  intros pos. unfold vbe_stream_update.
  rewrite (bind_run _ _ _ _ _
             (skl_notify_stream_update_unbound cnt_bits s1 key pos (or_introl Hunbound))).
  reflexivity.
Qed.

Lemma vbe_close_unbinds_witness :
  exists s1,
    vbe_skl_msg_pcm_handle vbe_env_simple sdev_simple
      (mk_ipc_msg (pcm_header VFE_MSG_PCM_CLOSE 1) None 0 (Some pcm_result_buf) 4)
      vbe_one_session
    = Some ((0, Some (set_rx_ret 0 pcm_result_buf)), s1) /\
    shm s1 = zero_shm /\
    vbe_stream_update 32 (Some pcm0_playback) 960 s1
    = Some (tt, mk_vbe (shm s1) (client_list s1) (substreams s1)
                  (pending_msg_list s1) (vq_avail s1) (guest_mem s1)
                  (trace s1 ++ [EvHdaIrqAck])).
Proof.
  destruct (vbe_close_unbinds vbe_env_simple sdev_simple 32 vbe_one_session
              (mk_ipc_msg (pcm_header VFE_MSG_PCM_CLOSE 1) None 0
                 (Some pcm_result_buf) 4)
              (mk_vbe_info "pcm0" 0 (Some 4096) 0) (mk_substream 1 true (Some [8192]))
              (mk_client [mk_vbe_info "pcm0" 0 (Some 4096) 0] None))
    as (s1 & Hrun & Hshm & _ & Hirq).
  - reflexivity.
  - reflexivity.
  - cbn. apply NoDup_singleton.
  - reflexivity.
  - reflexivity.
  - discriminate.
  - exists s1. split; [exact Hrun|]. split; [exact Hshm | exact (Hirq 960)].
Defined.

(** ** Domain of a kcontrol *)

Lemma substring_whole s : String.substring 0 (String.length s) s = s.
Proof. induction s as [|c s IH]; simpl; [reflexivity | now rewrite IH]. Qed.

Lemma substring_long s (n : nat) :
  (String.length s <= n)%nat -> String.substring 0 n s = s.
Proof.
  revert n. induction s as [|c s IH]; intros n Hn.
  - destruct n; reflexivity.
  - destruct n as [|n]; simpl in Hn; [lia|]. simpl. rewrite IH by lia. reflexivity.
Qed.

Lemma strncmp_eq_same_length a b :
  String.length b = String.length a ->
  strncmp_eq a b (String.length a) = String.eqb a b.
Proof.
  intros Hlen. unfold strncmp_eq.
  rewrite substring_whole. rewrite <- Hlen at 1. now rewrite substring_whole.
Qed.

Lemma vbe_skl_get_static_domain_id_exact table name :
  Forall (fun e => str_size e = String.length (kd_name e)) table ->
  vbe_skl_get_static_domain_id table name = static_domain_of table name.
Proof.
  induction table as [|e rest IH]; intros Hsizes; [reflexivity|].
  apply Forall_cons in Hsizes. destruct Hsizes as [He Hrest].
  cbn [vbe_skl_get_static_domain_id static_domain_of]. rewrite (IH Hrest).
  destruct (str_size e =? String.length name)%nat eqn:Hsize.
  - apply Nat.eqb_eq in Hsize. rewrite He in Hsize.
    rewrite (strncmp_eq_same_length name (kd_name e) Hsize). cbn [andb].
    now rewrite String.eqb_sym.
  - cbn [andb]. apply Nat.eqb_neq in Hsize. rewrite He in Hsize.
    destruct (String.eqb (kd_name e) name) eqn:E; [|reflexivity].
    apply String.eqb_eq in E. now rewrite E in Hsize.
Qed.

Lemma vbe_skl_kcontrol_find_domain_id_exact name_size kcontrol domains :
  (String.length (kc_name kcontrol) <= name_size)%nat ->
  Forall (fun d => (String.length (kctl_name d) <= name_size)%nat) domains ->
  vbe_skl_kcontrol_find_domain_id name_size kcontrol domains
  = kctl_domain_of domains (kc_name kcontrol).
Proof.
  intros Hname. induction domains as [|d rest IH]; intros Hsizes; [reflexivity|].
  apply Forall_cons in Hsizes. destruct Hsizes as [Hd Hrest].
  cbn [vbe_skl_kcontrol_find_domain_id kctl_domain_of]. rewrite (IH Hrest).
  unfold strncmp_eq. now rewrite !substring_long by assumption.
Qed.

(** X30.  The domain of a kcontrol.  With the sizes of the static table
    being the lengths of its names and all names fitting their arrays, the
    comparisons bounded by a length decide equality of the whole names: a
    control without widget gets the flag of the table entry called exactly
    like it, a control of a widget the id of the first kcontrol domain of
    that widget called exactly like it, and 0 in every other case; the
    status is 0 whenever the device is there, and -EINVAL with the result
    untouched when it is not. *)
Theorem vbe_skl_kcontrol_get_domain_id_exact (table : list vbe_static_kctl_domain)
    (name_size : nat) (widgets : list snd_soc_dapm_widget) (kcontrol : snd_kcontrol)
    (domain_id : Z) :
  Forall (fun e => str_size e = String.length (kd_name e)) table ->
  (String.length (kc_name kcontrol) <= name_size)%nat ->
  Forall (fun w => Forall (fun d => (String.length (kctl_name d) <= name_size)%nat)
                     (w_kctl_domains w)) widgets ->
  vbe_skl_kcontrol_get_domain_id table name_size None kcontrol domain_id
  = (- EINVAL, domain_id) /\
  vbe_skl_kcontrol_get_domain_id table name_size (Some widgets) kcontrol domain_id
  = (0,
     match kc_private kcontrol with
     | PrivComponent | PrivCard => static_domain_of table (kc_name kcontrol)
     | PrivOther =>
         match vbe_skl_find_kcontrol_widget widgets kcontrol with
         | Some w => kctl_domain_of (w_kctl_domains w) (kc_name kcontrol)
         | None => 0
         end
     end).
Proof.
  intros Htable Hname Hwidgets. split; [reflexivity|].
  unfold vbe_skl_kcontrol_get_domain_id.
  destruct (kc_private kcontrol).
  - now rewrite (vbe_skl_get_static_domain_id_exact table _ Htable).
  - now rewrite (vbe_skl_get_static_domain_id_exact table _ Htable).
  - destruct (vbe_skl_find_kcontrol_widget widgets kcontrol) as [w|] eqn:Hw;
      [|reflexivity].
    assert (Hin : w ∈ widgets).
    { clear -Hw. induction widgets as [|x rest IH]; simpl in Hw; [discriminate|].
      destruct (existsb (Z.eqb (kc_addr kcontrol)) (w_kcontrols x)).
      - injection Hw as <-. apply elem_of_cons. now left.
      - apply elem_of_cons. right. now apply IH. }
    rewrite Forall_forall in Hwidgets.
    now rewrite (vbe_skl_kcontrol_find_domain_id_exact name_size kcontrol _ Hname
                   (Hwidgets w Hin)).
Qed.

Lemma vbe_skl_kcontrol_get_domain_id_exact_witness :
  vbe_skl_kcontrol_get_domain_id kctl_domain_map 44 (Some [])
    (mk_kcontrol 1 "Speaker Switch 2" PrivCard) 7 = (0, 0) /\
  vbe_skl_kcontrol_get_domain_id kctl_domain_map 44 (Some [])
    (mk_kcontrol 2 "Speaker Switch" PrivCard) 7 = (0, 1).
Proof.
  split.
  - destruct (vbe_skl_kcontrol_get_domain_id_exact kctl_domain_map 44 []
                (mk_kcontrol 1 "Speaker Switch 2" PrivCard) 7) as [_ H].
    + repeat constructor.
    + cbn. lia.
    + constructor.
    + exact H.
  - destruct (vbe_skl_kcontrol_get_domain_id_exact kctl_domain_map 44 []
                (mk_kcontrol 2 "Speaker Switch" PrivCard) 7) as [_ H].
    + repeat constructor.
    + cbn. lia.
    + constructor.
    + exact H.
Defined.
